(** * posix1e: the ACL / Entry / Permset object model of pylibacl (acl.c)

    A shallow embedding of the CPython extension module [acl.c].  The C
    functions of the module are state transformers over a [world]: the
    Python object heap with its reference counts, the thread's error
    indicator, the C [errno], and the memory of the POSIX.1e ACL library
    the module links against.  The library itself (the [acl_*] primitives
    of <sys/acl.h>) and the CPython runtime are not part of [acl.c]; they
    are modelled in the first half of the file and the module's functions
    follow, in the order of the source. *)

From Stdlib Require Import ZArith Ascii String List Lia.
From stdpp Require Import base option list gmap sets strings pretty.

Local Open Scope Z_scope.

(** ** Constants of <sys/acl.h> and <errno.h> *)

(** Modelled from the spec: the exported integer identifiers of section 6
    (tag types, permission bits, entry selectors).  [acl.c] only names
    them; the values are those of the Linux header. *)
Definition ACL_UNDEFINED_TAG : Z := 0.
Definition ACL_USER_OBJ : Z := 1.
Definition ACL_USER : Z := 2.
Definition ACL_GROUP_OBJ : Z := 4.
Definition ACL_GROUP : Z := 8.
Definition ACL_MASK : Z := 16.
Definition ACL_OTHER : Z := 32.

Definition ACL_READ : Z := 4.
Definition ACL_WRITE : Z := 2.
Definition ACL_EXECUTE : Z := 1.

Definition ACL_FIRST_ENTRY : Z := 0.
Definition ACL_NEXT_ENTRY : Z := 1.

Definition ACL_TYPE_ACCESS : Z := 32768.
Definition ACL_TYPE_DEFAULT : Z := 16384.

Definition ACL_UNDEFINED_ID : Z := 4294967295.

Definition EINVAL : Z := 22.
Definition ERANGE : Z := 34.

Definition NULL : Z := 0.

(** C integer conversions: [(int)x] on a two's complement machine and the
    reinterpretation of an [int] as the unsigned [uid_t]. *)
Definition to_int (x : Z) : Z := (x + 2147483648) mod 4294967296 - 2147483648.
Definition to_uint (x : Z) : Z := x mod 4294967296.

(** ** Memory of the ACL library *)

(** One ACL record: tag, qualifier and the permission bits. *)
Record acl_entry_obj := Mk_entry { etag : Z; eid : Z; eperm : Z }.

(** An ACL: its records in order, each under the serial number it was
    created with, the position of the library's own cursor, and the next
    serial number. *)
Record acl_obj := Mk_acl {
  aentries : list (Z * acl_entry_obj);
  acurr : nat;
  aserial : Z
}.

(** [acl_entry_t]: a null descriptor or a reference to record [k] of the
    ACL at address [a].  [acl_permset_t] points into the record it was
    obtained from, so it is the same kind of reference. *)
Inductive acl_entry_t := ENULL | EREF (a k : Z).
Definition acl_permset_t := acl_entry_t.

#[global] Instance acl_entry_t_eq_dec : EqDecision acl_entry_t.
Proof. solve_decision. Defined.
#[global] Instance acl_entry_obj_eq_dec : EqDecision acl_entry_obj.
Proof. solve_decision. Defined.

(** What the library gets from outside the process: the ACLs of files and
    descriptors, the text grammar and the external (exported) format. *)
Inductive acquired := Acq_fail (errno : Z) | Acq_ok (es : list acl_entry_obj).

Record backend_env := Mk_env {
  env_get_file : string → Z → acquired;
  env_get_fd : Z → acquired;
  env_from_text : string → acquired;
  env_to_text : list acl_entry_obj → string;
  env_copy_ext : list acl_entry_obj → string;
  env_copy_int : string → option (list acl_entry_obj)
}.

(** The calls the module makes into the library, in the order made. *)
Inductive backend_call :=
| Call_free (p : Z)
| Call_get_file (name : string) (type : Z)
| Call_from_text (text : string)
| Call_get_fd (fd : Z)
| Call_dup (p : Z)
| Call_init (n : Z)
| Call_to_text (p : Z)
| Call_valid (p : Z)
| Call_size (p : Z)
| Call_copy_ext (p : Z) (size : Z)
| Call_copy_int (buf : string)
| Call_get_entry (p : Z) (entry_id : Z)
| Call_delete_entry (p : Z) (e : acl_entry_t)
| Call_create_entry (p : Z)
| Call_get_tag_type (e : acl_entry_t)
| Call_get_qualifier (e : acl_entry_t)
| Call_set_tag_type (e : acl_entry_t) (tag : Z)
| Call_set_qualifier (e : acl_entry_t) (id : Z)
| Call_get_permset (e : acl_entry_t)
| Call_set_permset (e : acl_entry_t) (p : acl_permset_t)
| Call_copy_entry (dst src : acl_entry_t)
| Call_clear_perms (p : acl_permset_t)
| Call_get_perm (p : acl_permset_t) (perm : Z)
| Call_add_perm (p : acl_permset_t) (perm : Z)
| Call_delete_perm (p : acl_permset_t) (perm : Z).

(** ** Python objects *)

(** The three structs of [acl.c], without their [PyObject_HEAD]. *)
Record ACL_Object := Mk_ACL { acl : Z; entry_id : Z }.
Record Entry_Object := Mk_Entry { parent_acl : Z; entry : acl_entry_t }.
Record Permset_Object := Mk_Permset { parent_entry : Z; permset : acl_permset_t }.

Inductive pybody :=
| Obj_ACL (o : ACL_Object)
| Obj_Entry (o : Entry_Object)
| Obj_Permset (o : Permset_Object).

(** A heap cell: the [ob_refcnt] of the head and the struct. *)
Record pyobject := Mk_obj { ob_refcnt : Z; ob_body : pybody }.

(** A [PyObject*] handed to the module: the immutable values it inspects,
    a reference to one of its own objects, or an object of another type. *)
Inductive PyObject :=
| Py_None
| Py_Bool (b : bool)
| PyInt (n : Z)
| PyString (s : string)
| PyRef (p : Z)
| PyOther.

Definition Py_True : PyObject := Py_Bool true.
Definition Py_False : PyObject := Py_Bool false.

Inductive exc_type :=
| PyExc_ValueError
| PyExc_TypeError
| PyExc_OverflowError
| PyExc_IOError
| PyExc_AttributeError.

Inductive exc_arg := Msg (s : string) | Errno (e : Z).

Record pyexc := Mk_exc { exc_ty : exc_type; exc_val : exc_arg }.

(** The error classes of the specification and the exception type each is
    raised as. *)
Inductive error_kind := InvalidArgument | BackendError | UninitializedState.

Definition kind_of (t : exc_type) : error_kind :=
  match t with
  | PyExc_ValueError | PyExc_TypeError | PyExc_OverflowError => InvalidArgument
  | PyExc_IOError => BackendError
  | PyExc_AttributeError => UninitializedState
  end.

(** ** The world *)

Record world := Mk_world {
  w_heap : gmap Z pyobject;
  w_err : option pyexc;
  w_stderr : list (option pyexc * Z);
  w_errno : Z;
  w_acls : gmap Z acl_obj;
  w_calls : list backend_call
}.

Definition set_heap (h : gmap Z pyobject) (w : world) : world :=
  Mk_world h (w_err w) (w_stderr w) (w_errno w) (w_acls w) (w_calls w).
Definition set_err (e : option pyexc) (w : world) : world :=
  Mk_world (w_heap w) e (w_stderr w) (w_errno w) (w_acls w) (w_calls w).
Definition set_stderr (l : list (option pyexc * Z)) (w : world) : world :=
  Mk_world (w_heap w) (w_err w) l (w_errno w) (w_acls w) (w_calls w).
Definition set_errno (e : Z) (w : world) : world :=
  Mk_world (w_heap w) (w_err w) (w_stderr w) e (w_acls w) (w_calls w).
Definition set_acls (a : gmap Z acl_obj) (w : world) : world :=
  Mk_world (w_heap w) (w_err w) (w_stderr w) (w_errno w) a (w_calls w).
Definition set_calls (c : list backend_call) (w : world) : world :=
  Mk_world (w_heap w) (w_err w) (w_stderr w) (w_errno w) (w_acls w) c.

(** A C function: a state transformer that may fault ([None]: a wild
    pointer was dereferenced). *)
Definition M (A : Type) : Type := world → option (A * world).

#[global] Instance M_ret : MRet M := λ A x w, Some (x, w).
#[global] Instance M_bind : MBind M := λ A B f m w,
  match m w with
  | Some (x, w') => f x w'
  | None => None
  end.

Definition get {A} (f : world → A) : M A := λ w, Some (f w, w).
Definition modify (f : world → world) : M unit := λ w, Some (tt, f w).
Definition fault {A} : M A := λ _, None.
Definition skip : M unit := mret tt.
Definition no_error : M (option pyexc) := mret None.

(** ** The CPython runtime, as far as [acl.c] uses it *)

Definition PyErr_SetString (t : exc_type) (msg : string) : M unit :=
  modify (set_err (Some (Mk_exc t (Msg msg)))).

(** Always returns NULL. *)
Definition PyErr_SetFromErrno (t : exc_type) : M (option PyObject) :=
  e ← get w_errno;
  _ ← modify (set_err (Some (Mk_exc t (Errno e))));
  mret None.

Definition PyErr_Occurred : M bool :=
  e ← get w_err;
  mret (match e with Some _ => true | None => false end).

(** Hands the pending error to the caller and clears the indicator. *)
Definition PyErr_Fetch : M (option pyexc) :=
  e ← get w_err;
  _ ← modify (set_err None);
  mret e.

Definition PyErr_Restore (e : option pyexc) : M unit := modify (set_err e).

(** Prints the pending error (if any) and the object to [sys.stderr] and
    clears the indicator. *)
Definition PyErr_WriteUnraisable (obj : Z) : M unit :=
  e ← PyErr_Fetch;
  modify (λ w, set_stderr (w_stderr w ++ [(e, obj)]) w).

(** Dereferencing [p]: faults on NULL and on a pointer to no object. *)
Definition load (p : Z) : M pyobject := λ w,
  if decide (p = NULL) then None
  else match w_heap w !! p with
       | Some o => Some (o, w)
       | None => None
       end.

Definition store (p : Z) (o : pyobject) : M unit :=
  modify (λ w, set_heap (<[p := o]> (w_heap w)) w).

Definition load_ACL (p : Z) : M ACL_Object :=
  o ← load p;
  match ob_body o with Obj_ACL a => mret a | _ => fault end.

Definition load_Entry (p : Z) : M Entry_Object :=
  o ← load p;
  match ob_body o with Obj_Entry a => mret a | _ => fault end.

Definition load_Permset (p : Z) : M Permset_Object :=
  o ← load p;
  match ob_body o with Obj_Permset a => mret a | _ => fault end.

(** Assignment to the fields of [*p]: the head is kept. *)
Definition store_body (p : Z) (b : pybody) : M unit :=
  o ← load p;
  store p (Mk_obj (ob_refcnt o) b).

Definition Py_INCREF (p : Z) : M unit :=
  o ← load p;
  store p (Mk_obj (ob_refcnt o + 1) (ob_body o)).

(** [Py_DECREF] on a pointer whose static type has destructor
    [tp_dealloc]. *)
Definition Py_DECREF (tp_dealloc : Z → M unit) (p : Z) : M unit :=
  o ← load p;
  _ ← store p (Mk_obj (ob_refcnt o - 1) (ob_body o));
  if decide (ob_refcnt o - 1 = 0) then tp_dealloc p else mret tt.

Definition PyObject_DEL (p : Z) : M unit :=
  modify (λ w, set_heap (delete p (w_heap w)) w).

Inductive pytype := ACL_Type | Entry_Type | Permset_Type.

Definition zeroed (t : pytype) : pybody :=
  match t with
  | ACL_Type => Obj_ACL (Mk_ACL NULL 0)
  | Entry_Type => Obj_Entry (Mk_Entry NULL ENULL)
  | Permset_Type => Obj_Permset (Mk_Permset NULL ENULL)
  end.

(** [type->tp_alloc(type, 0)], which is also [PyType_GenericNew]: a
    zero-filled object with one reference at an unused address.  Running
    out of memory is not modelled. *)
Definition tp_alloc (t : pytype) : M Z := λ w,
  let p := fresh ({[NULL]} ∪ dom (w_heap w)) in
  Some (p, set_heap (<[p := Mk_obj 1 (zeroed t)]> (w_heap w)) w).

Definition PyType_GenericNew (t : pytype) : M Z := tp_alloc t.

Definition PyInt_Check (v : PyObject) : bool :=
  match v with
  | PyInt _ | Py_Bool _ => true
  | _ => false
  end.

Definition PyInt_AsLong (v : PyObject) : Z :=
  match v with
  | PyInt n => n
  | Py_Bool b => if b then 1 else 0
  | _ => -1
  end.

Definition type_of (w : world) (v : PyObject) : option pytype :=
  match v with
  | PyRef p =>
      match w_heap w !! p with
      | Some (Mk_obj _ (Obj_ACL _)) => Some ACL_Type
      | Some (Mk_obj _ (Obj_Entry _)) => Some Entry_Type
      | Some (Mk_obj _ (Obj_Permset _)) => Some Permset_Type
      | None => None
      end
  | _ => None
  end.

#[global] Instance pytype_eq_dec : EqDecision pytype.
Proof. solve_decision. Defined.

(** [PyArg_ParseTuple(args, "O!", &T, &e)]: one argument, of type [T]. *)
Definition parse_O_bang (t : pytype) (args : list PyObject) : M (option Z) :=
  w ← get id;
  match args with
  | [PyRef p] =>
      if decide (type_of w (PyRef p) = Some t) then mret (Some p)
      else _ ← PyErr_SetString PyExc_TypeError "argument 1 has the wrong type";
           mret None
  | [_] => _ ← PyErr_SetString PyExc_TypeError "argument 1 has the wrong type";
           mret None
  | _ => _ ← PyErr_SetString PyExc_TypeError "function takes exactly 1 argument";
         mret None
  end.

(** ** The ACL library *)

(** Modelled from the spec: the structural rules of the ValidationEngine
    (section 4.4), which the library's [acl_valid] decides and [acl.c]
    only calls.  [with_tag], [count_tag] and [qualifiers] select the
    records a rule speaks about. *)
Definition with_tag (t : Z) (es : list acl_entry_obj) : list acl_entry_obj :=
  filter (λ e, etag e = t) es.

Definition count_tag (t : Z) (es : list acl_entry_obj) : nat :=
  length (with_tag t es).

Definition qualifiers (t : Z) (es : list acl_entry_obj) : list Z :=
  eid <$> with_tag t es.

Fixpoint has_dup (l : list Z) : bool :=
  match l with
  | [] => false
  | x :: l' => bool_decide (x ∈ l') || has_dup l'
  end.

(** Modelled from the spec: the decision [acl_valid] takes, one test per
    rule of section 4.4 in the order of the text. *)
Definition acl_check (es : list acl_entry_obj) : bool :=
  (count_tag ACL_USER_OBJ es =? 1)%nat
  && (count_tag ACL_GROUP_OBJ es =? 1)%nat
  && (count_tag ACL_OTHER es =? 1)%nat
  && negb (has_dup (qualifiers ACL_USER es))
  && negb (has_dup (qualifiers ACL_GROUP es))
  && (if (0 <? count_tag ACL_USER es + count_tag ACL_GROUP es)%nat
      then (count_tag ACL_MASK es =? 1)%nat
      else (count_tag ACL_MASK es <=? 1)%nat).

(** The six rules as the specification words them. *)
Record ValidationEngine (es : list acl_entry_obj) : Prop := Mk_valid {
  rule_user_obj : count_tag ACL_USER_OBJ es = 1%nat;
  rule_group_obj : count_tag ACL_GROUP_OBJ es = 1%nat;
  rule_other : count_tag ACL_OTHER es = 1%nat;
  rule_users : NoDup (qualifiers ACL_USER es);
  rule_groups : NoDup (qualifiers ACL_GROUP es);
  rule_mask :
    ((∃ e, e ∈ es ∧ (etag e = ACL_USER ∨ etag e = ACL_GROUP)) →
     count_tag ACL_MASK es = 1%nat)
    ∧ (count_tag ACL_MASK es ≤ 1)%nat
}.

(** Records of an ACL under their serial numbers. *)
Fixpoint alist_find (k : Z) (l : list (Z * acl_entry_obj)) : option acl_entry_obj :=
  match l with
  | [] => None
  | (k', e) :: l' => if decide (k' = k) then Some e else alist_find k l'
  end.

Fixpoint alist_alter (f : acl_entry_obj → acl_entry_obj) (k : Z)
    (l : list (Z * acl_entry_obj)) : list (Z * acl_entry_obj) :=
  match l with
  | [] => []
  | (k', e) :: l' =>
      if decide (k' = k) then (k', f e) :: l' else (k', e) :: alist_alter f k l'
  end.

Fixpoint alist_remove (k : Z) (l : list (Z * acl_entry_obj)) : list (Z * acl_entry_obj) :=
  match l with
  | [] => []
  | (k', e) :: l' =>
      if decide (k' = k) then l' else (k', e) :: alist_remove k l'
  end.

Definition number (es : list acl_entry_obj) : list (Z * acl_entry_obj) :=
  zip (seqZ 0 (Z.of_nat (length es))) es.

(** The record a descriptor designates, if it designates one: a null or
    stale descriptor designates none. *)
Definition entry_obj_p (e : acl_entry_t) (w : world) : option acl_entry_obj :=
  match e with
  | ENULL => None
  | EREF a k =>
      match w_acls w !! a with
      | Some o => alist_find k (aentries o)
      | None => None
      end
  end.

Definition entry_alter (f : acl_entry_obj → acl_entry_obj) (e : acl_entry_t)
    (w : world) : world :=
  match e with
  | ENULL => w
  | EREF a k =>
      match w_acls w !! a with
      | Some o =>
          set_acls (<[a := Mk_acl (alist_alter f k (aentries o)) (acurr o) (aserial o)]>
                      (w_acls w)) w
      | None => w
      end
  end.

Definition call (c : backend_call) : M unit :=
  modify (λ w, set_calls (w_calls w ++ [c]) w).

Definition fail_with {A} (e : Z) (r : A) : M A :=
  _ ← modify (set_errno e);
  mret r.

(** A fresh ACL holding records [es]. *)
Definition new_acl (es : list acl_entry_obj) : M Z := λ w,
  let p := fresh ({[NULL]} ∪ dom (w_acls w)) in
  Some (p, set_acls (<[p := Mk_acl (number es) 0 (Z.of_nat (length es))]> (w_acls w)) w).

Definition acquire (r : acquired) : M Z :=
  match r with
  | Acq_fail e => fail_with e NULL
  | Acq_ok es => new_acl es
  end.

Section Backend.

Variable env : backend_env.

(** Modelled from the spec: the primitives of the ACL backend listed in
    section 1, with the POSIX.1e calling conventions [acl.c] relies on:
    -1 or NULL and [errno] on failure.  Every primitive validates the
    descriptors it is given, as the library does.  [acl_free] releases a
    live ACL. *)
Definition acl_free (p : Z) : M Z :=
  _ ← call (Call_free p);
  acls ← get w_acls;
  match acls !! p with
  | Some _ => _ ← modify (set_acls (delete p acls)); mret 0
  | None => fail_with EINVAL (-1)
  end.

(** Modelled from the spec: [acl_free] on the text or the qualifier copy
    the library has just returned. *)
Definition acl_free_buf : M Z := mret 0.

(** Modelled from the spec: [acl_get_file]: the ACL of the named file, of the given kind. *)
Definition acl_get_file (name : string) (type : Z) : M Z :=
  _ ← call (Call_get_file name type);
  acquire (env_get_file env name type).

(** Modelled from the spec: [acl_from_text]: the ACL a text describes. *)
Definition acl_from_text (text : string) : M Z :=
  _ ← call (Call_from_text text);
  acquire (env_from_text env text).

(** Modelled from the spec: [acl_get_fd]: the access ACL of an open descriptor. *)
Definition acl_get_fd (fd : Z) : M Z :=
  _ ← call (Call_get_fd fd);
  acquire (env_get_fd env fd).

(** Modelled from the spec: [acl_dup]: a copy of a live ACL. *)
Definition acl_dup (p : Z) : M Z :=
  _ ← call (Call_dup p);
  acls ← get w_acls;
  match acls !! p with
  | Some o => new_acl (snd <$> aentries o)
  | None => fail_with EINVAL NULL
  end.

(** Modelled from the spec: [acl_init]: an empty ACL. *)
Definition acl_init (n : Z) : M Z :=
  _ ← call (Call_init n);
  if decide (n < 0) then fail_with EINVAL NULL else new_acl [].

(** Modelled from the spec: [acl_to_text]: serialize-to-text. *)
Definition acl_to_text (p : Z) : M (option string) :=
  _ ← call (Call_to_text p);
  acls ← get w_acls;
  match acls !! p with
  | Some o => mret (Some (env_to_text env (snd <$> aentries o)))
  | None => fail_with EINVAL None
  end.

(** Modelled from the spec: [acl_valid]: validate, 0 for a valid ACL and
    -1 otherwise. *)
Definition acl_valid (p : Z) : M Z :=
  _ ← call (Call_valid p);
  acls ← get w_acls;
  match acls !! p with
  | Some o =>
      if acl_check (snd <$> aentries o) then mret 0 else fail_with EINVAL (-1)
  | None => fail_with EINVAL (-1)
  end.

(** Modelled from the spec: [acl_size]: size-of, the length of the external form. *)
Definition acl_size (p : Z) : M Z :=
  _ ← call (Call_size p);
  acls ← get w_acls;
  match acls !! p with
  | Some o => mret (Z.of_nat (String.length (env_copy_ext env (snd <$> aentries o))))
  | None => fail_with EINVAL (-1)
  end.

(** Modelled from the spec: [acl_copy_ext]: export-to-bytes.  Overwrites
    the head of [buf] (of [size] bytes) with the external form; returns
    the number of bytes written and the buffer. *)
Definition acl_copy_ext (buf : string) (p : Z) (size : Z) : M (Z * string) :=
  _ ← call (Call_copy_ext p size);
  acls ← get w_acls;
  match acls !! p with
  | Some o =>
      let ext := env_copy_ext env (snd <$> aentries o) in
      let n := String.length ext in
      if decide (Z.of_nat n ≤ size)
      then mret (Z.of_nat n, ext +:+ String.substring n (String.length buf - n) buf)
      else fail_with ERANGE (-1, buf)
  | None => fail_with EINVAL (-1, buf)
  end.

(** Modelled from the spec: [acl_copy_int]: import-from-bytes. *)
Definition acl_copy_int (buf : string) : M Z :=
  _ ← call (Call_copy_int buf);
  match env_copy_int env buf with
  | Some es => new_acl es
  | None => fail_with EINVAL NULL
  end.

(** Modelled from the spec: [acl_get_entry]: the first record, or the one
    after the record last returned, in the order of the ACL.  Returns 1
    and the record, 0 when none remains, -1 on error. *)
Definition acl_get_entry (p : Z) (which : Z) : M (Z * acl_entry_t) :=
  _ ← call (Call_get_entry p which);
  acls ← get w_acls;
  match acls !! p with
  | Some o =>
      if decide (which = ACL_FIRST_ENTRY ∨ which = ACL_NEXT_ENTRY) then
        let i := if decide (which = ACL_FIRST_ENTRY) then 0%nat else acurr o in
        match aentries o !! i with
        | Some (k, _) =>
            _ ← modify (set_acls (<[p := Mk_acl (aentries o) (S i) (aserial o)]> acls));
            mret (1, EREF p k)
        | None =>
            _ ← modify (set_acls (<[p := Mk_acl (aentries o) i (aserial o)]> acls));
            mret (0, ENULL)
        end
      else fail_with EINVAL (-1, ENULL)
  | None => fail_with EINVAL (-1, ENULL)
  end.

(** Modelled from the spec: [acl_delete_entry], the per-entry primitive
    delete.  Given a live ACL and the descriptor of a live record, it
    removes that record from the ACL that holds it; no test is made that
    this is the ACL given.  A handle or a descriptor that is not live is
    refused. *)
Definition acl_delete_entry (p : Z) (e : acl_entry_t) : M Z :=
  _ ← call (Call_delete_entry p e);
  acls ← get w_acls;
  match acls !! p, e with
  | Some _, EREF a k =>
      match acls !! a with
      | Some o =>
          if decide (is_Some (alist_find k (aentries o))) then
            _ ← modify (set_acls (<[a := Mk_acl (alist_remove k (aentries o)) (acurr o) (aserial o)]> acls));
            mret 0
          else fail_with EINVAL (-1)
      | None => fail_with EINVAL (-1)
      end
  | _, _ => fail_with EINVAL (-1)
  end.

(** Modelled from the spec: [acl_create_entry]: appends a blank record. *)
Definition acl_create_entry (p : Z) : M (Z * acl_entry_t) :=
  _ ← call (Call_create_entry p);
  acls ← get w_acls;
  match acls !! p with
  | Some o =>
      let k := aserial o in
      let blank := Mk_entry ACL_UNDEFINED_TAG ACL_UNDEFINED_ID 0 in
      _ ← modify (set_acls (<[p := Mk_acl (aentries o ++ [(k, blank)]) (acurr o) (k + 1)]> acls));
      mret (0, EREF p k)
  | None => fail_with EINVAL (-1, ENULL)
  end.

(** Modelled from the spec: [acl_get_tag_type]: the tag of a record. *)
Definition acl_get_tag_type (e : acl_entry_t) : M (Z * Z) :=
  _ ← call (Call_get_tag_type e);
  w ← get id;
  match entry_obj_p e w with
  | Some r => mret (0, etag r)
  | None => fail_with EINVAL (-1, 0)
  end.

(** Modelled from the spec: [acl_get_qualifier]: the qualifier of a USER or
    GROUP record. *)
Definition acl_get_qualifier (e : acl_entry_t) : M (option Z) :=
  _ ← call (Call_get_qualifier e);
  w ← get id;
  match entry_obj_p e w with
  | Some r =>
      if decide (etag r = ACL_USER ∨ etag r = ACL_GROUP) then mret (Some (eid r))
      else fail_with EINVAL None
  | None => fail_with EINVAL None
  end.

Definition recognized_tag (t : Z) : bool :=
  bool_decide (t ∈ [ACL_USER_OBJ; ACL_USER; ACL_GROUP_OBJ; ACL_GROUP; ACL_MASK; ACL_OTHER]).

(** Modelled from the spec: [acl_set_tag_type]: sets the tag when it is one of
    the six tags a record may carry. *)
Definition acl_set_tag_type (e : acl_entry_t) (t : Z) : M Z :=
  _ ← call (Call_set_tag_type e t);
  w ← get id;
  match entry_obj_p e w with
  | Some _ =>
      if recognized_tag t
      then _ ← modify (entry_alter (λ r, Mk_entry t (eid r) (eperm r)) e); mret 0
      else fail_with EINVAL (-1)
  | None => fail_with EINVAL (-1)
  end.

(** Modelled from the spec: [acl_set_qualifier]: sets the qualifier. *)
Definition acl_set_qualifier (e : acl_entry_t) (q : Z) : M Z :=
  _ ← call (Call_set_qualifier e q);
  w ← get id;
  match entry_obj_p e w with
  | Some _ => _ ← modify (entry_alter (λ r, Mk_entry (etag r) q (eperm r)) e); mret 0
  | None => fail_with EINVAL (-1)
  end.

(** Modelled from the spec: [acl_get_permset]: a descriptor of the permission
    bits of the record, the same one at every call. *)
Definition acl_get_permset (e : acl_entry_t) : M (Z * acl_permset_t) :=
  _ ← call (Call_get_permset e);
  w ← get id;
  match entry_obj_p e w with
  | Some _ => mret (0, e)
  | None => fail_with EINVAL (-1, ENULL)
  end.

(** Modelled from the spec: [acl_set_permset]: copies the bits a permission
    set designates into the record. *)
Definition acl_set_permset (e : acl_entry_t) (p : acl_permset_t) : M Z :=
  _ ← call (Call_set_permset e p);
  w ← get id;
  match entry_obj_p e w, entry_obj_p p w with
  | Some _, Some s =>
      _ ← modify (entry_alter (λ r, Mk_entry (etag r) (eid r) (eperm s)) e); mret 0
  | _, _ => fail_with EINVAL (-1)
  end.

(** Modelled from the spec: [acl_copy_entry]: copies tag, qualifier and bits. *)
Definition acl_copy_entry (dst src : acl_entry_t) : M Z :=
  _ ← call (Call_copy_entry dst src);
  w ← get id;
  match entry_obj_p dst w, entry_obj_p src w with
  | Some _, Some s => _ ← modify (entry_alter (λ _, s) dst); mret 0
  | _, _ => fail_with EINVAL (-1)
  end.

Definition all_perms : Z := Z.lor ACL_READ (Z.lor ACL_WRITE ACL_EXECUTE).

(** Modelled from the spec: [acl_clear_perms]: clears the three bits. *)
Definition acl_clear_perms (p : acl_permset_t) : M Z :=
  _ ← call (Call_clear_perms p);
  w ← get id;
  match entry_obj_p p w with
  | Some _ => _ ← modify (entry_alter (λ r, Mk_entry (etag r) (eid r) 0) p); mret 0
  | None => fail_with EINVAL (-1)
  end.

(** Modelled from the spec: [acl_add_perm]: sets the given bits. *)
Definition acl_add_perm (p : acl_permset_t) (perm : Z) : M Z :=
  _ ← call (Call_add_perm p perm);
  w ← get id;
  match entry_obj_p p w with
  | Some _ =>
      if decide (Z.land perm (Z.lnot all_perms) = 0)
      then _ ← modify (entry_alter (λ r, Mk_entry (etag r) (eid r) (Z.lor (eperm r) perm)) p);
           mret 0
      else fail_with EINVAL (-1)
  | None => fail_with EINVAL (-1)
  end.

(** Modelled from the spec: [acl_delete_perm]: clears the given bits. *)
Definition acl_delete_perm (p : acl_permset_t) (perm : Z) : M Z :=
  _ ← call (Call_delete_perm p perm);
  w ← get id;
  match entry_obj_p p w with
  | Some _ =>
      if decide (Z.land perm (Z.lnot all_perms) = 0)
      then _ ← modify (entry_alter (λ r, Mk_entry (etag r) (eid r) (Z.land (eperm r) (Z.lnot perm))) p);
           mret 0
      else fail_with EINVAL (-1)
  | None => fail_with EINVAL (-1)
  end.

(** Modelled from the spec: [get_perm] of the module's os_linux.c (absent
    here), the permission test behind Permset.Get: 1 when the bit is
    set, 0 when it is not, -1 on a bad descriptor. *)
Definition get_perm (p : acl_permset_t) (perm : Z) : M Z :=
  _ ← call (Call_get_perm p perm);
  w ← get id;
  match entry_obj_p p w with
  | Some r => mret (if decide (Z.land (eperm r) perm = 0) then 0 else 1)
  | None => fail_with EINVAL (-1)
  end.

(** ** The module: ACL type *)

(** Creation of a new ACL instance *)
Definition ACL_new : M Z :=
  newacl ← tp_alloc ACL_Type;
  if decide (newacl ≠ NULL)
  then _ ← store_body newacl (Obj_ACL (Mk_ACL NULL ACL_FIRST_ENTRY)); mret newacl
  else mret newacl.

(** The locals [file], [fd], [text], [thesrc], [filedef] of [ACL_init]. *)
Record init_args := Mk_init_args {
  a_file : option string;
  a_fd : Z;
  a_text : option string;
  a_thesrc : Z;
  a_filedef : option string
}.

Definition has_nul (s : string) : bool :=
  existsb (λ c, bool_decide (c = Ascii.zero)) (list_ascii_of_string s).

(** Format unit [s]: a string without an embedded null byte. *)
Definition convert_s (v : PyObject) : exc_type + string :=
  match v with
  | PyString s => if has_nul s then inl PyExc_TypeError else inr s
  | _ => inl PyExc_TypeError
  end.

(** Format unit [i]: an integer that fits a C [int]. *)
Definition convert_i (v : PyObject) : exc_type + Z :=
  if PyInt_Check v then
    let n := PyInt_AsLong v in
    if decide (-2147483648 ≤ n ≤ 2147483647) then inr n else inl PyExc_OverflowError
  else inl PyExc_TypeError.

Definition and_then {A B} (x : exc_type + A) (f : A → exc_type + B) : exc_type + B :=
  match x with
  | inl t => inl t
  | inr a => f a
  end.

Definition convert_kw (w : world) (a : init_args) (kw : string * PyObject)
    : exc_type + init_args :=
  let (k, v) := kw in
  if decide (k = "file") then
    and_then (convert_s v) (λ s,
      inr (Mk_init_args (Some s) (a_fd a) (a_text a) (a_thesrc a) (a_filedef a)))
  else if decide (k = "fd") then
    and_then (convert_i v) (λ n,
      inr (Mk_init_args (a_file a) n (a_text a) (a_thesrc a) (a_filedef a)))
  else if decide (k = "text") then
    and_then (convert_s v) (λ s,
      inr (Mk_init_args (a_file a) (a_fd a) (Some s) (a_thesrc a) (a_filedef a)))
  else if decide (k = "acl") then
    match v with
    | PyRef p =>
        if decide (type_of w v = Some ACL_Type)
        then inr (Mk_init_args (a_file a) (a_fd a) (a_text a) p (a_filedef a))
        else inl PyExc_TypeError
    | _ => inl PyExc_TypeError
    end
  else if decide (k = "filedef") then
    and_then (convert_s v) (λ s,
      inr (Mk_init_args (a_file a) (a_fd a) (a_text a) (a_thesrc a) (Some s)))
  else inl PyExc_TypeError.

(** [PyArg_ParseTupleAndKeywords(args, keywds, "|sisO!s", kwlist, ...)] on
    an empty [args]: every keyword must be one of [kwlist] and convert. *)
Definition parse_init (keywds : option (list (string * PyObject))) (a0 : init_args)
    : M (option init_args) :=
  w ← get id;
  let kws := default [] keywds in
  match foldl (λ acc kw, and_then acc (λ a, convert_kw w a kw)) (inr a0) kws with
  | inr a => mret (Some a)
  | inl t => _ ← PyErr_SetString t "bad keyword argument"; mret None
  end.

(** Initialization of a new ACL instance *)
Definition ACL_init (obj : Z) (args : list PyObject)
    (keywds : option (list (string * PyObject))) : M Z :=
  if bool_decide (length args ≠ 0%nat)
     || match keywds with Some d => bool_decide (1 < length d)%nat | None => false end
  then
    _ ← PyErr_SetString PyExc_ValueError "a max of one keyword argument must be passed";
    mret (-1)
  else
    parsed ← parse_init keywds (Mk_init_args None (-1) None NULL None);
    match parsed with
    | None => mret (-1)
    | Some a =>
        self ← load_ACL obj;
        _ ← (if decide (acl self ≠ NULL) then _ ← acl_free (acl self); skip else skip);
        p ← match a_file a, a_text a, a_filedef a with
            | Some file, _, _ => acl_get_file file ACL_TYPE_ACCESS
            | None, Some text, _ => acl_from_text text
            | None, None, filedef =>
                if decide (a_fd a ≠ -1) then acl_get_fd (a_fd a)
                else if decide (a_thesrc a ≠ NULL) then
                  thesrc ← load_ACL (a_thesrc a); acl_dup (acl thesrc)
                else match filedef with
                     | Some filedef => acl_get_file filedef ACL_TYPE_DEFAULT
                     | None => acl_init 0
                     end
            end;
        _ ← store_body obj (Obj_ACL (Mk_ACL p (entry_id self)));
        if decide (p = NULL)
        then _ ← PyErr_SetFromErrno PyExc_IOError; mret (-1)
        else mret 0
    end.

(** Standard type functions *)
Definition ACL_dealloc (obj : Z) : M unit :=
  self ← load_ACL obj;
  have_error ← PyErr_Occurred;
  saved ← (if (have_error : bool) then PyErr_Fetch else no_error);
  _ ← (if decide (acl self ≠ NULL) then
         r ← acl_free (acl self);
         if decide (r ≠ 0) then PyErr_WriteUnraisable obj else skip
       else skip);
  _ ← (if (have_error : bool) then PyErr_Restore saved else skip);
  PyObject_DEL obj.

(** Converts the acl to a text format *)
Definition ACL_str (obj : Z) : M (option PyObject) :=
  self ← load_ACL obj;
  text ← acl_to_text (acl self);
  match text with
  | None => PyErr_SetFromErrno PyExc_IOError
  | Some text =>
      let ret := PyString text in
      r ← acl_free_buf;
      if decide (r ≠ 0) then PyErr_SetFromErrno PyExc_IOError else mret (Some ret)
  end.

(** Checks the ACL for validity *)
Definition ACL_valid (obj : Z) : M (option PyObject) :=
  self ← load_ACL obj;
  r ← acl_valid (acl self);
  if decide (r = -1) then mret (Some Py_False) else mret (Some Py_True).

(** [PyString_FromStringAndSize(NULL, size)]: [size] bytes not yet
    written. *)
Definition blank_string (size : Z) : string :=
  string_of_list_ascii (replicate (Z.to_nat size) Ascii.zero).

Definition ACL_get_state (obj : Z) : M (option PyObject) :=
  self ← load_ACL obj;
  size ← acl_size (acl self);
  if decide (size = -1) then PyErr_SetFromErrno PyExc_IOError
  else
    let ret := blank_string size in
    '(nsize, buf) ← acl_copy_ext ret (acl self) size;
    if decide (nsize = -1) then PyErr_SetFromErrno PyExc_IOError
    else mret (Some (PyString buf)).

Definition ACL_set_state (obj : Z) (args : list PyObject) : M (option PyObject) :=
  match args with
  | [PyString buf] =>
      ptr ← acl_copy_int buf;
      if decide (ptr = NULL) then PyErr_SetFromErrno PyExc_IOError
      else
        self ← load_ACL obj;
        freed ← (if decide (acl self ≠ NULL) then acl_free (acl self) else mret 0);
        if decide (freed = -1) then PyErr_SetFromErrno PyExc_IOError
        else
          _ ← store_body obj (Obj_ACL (Mk_ACL ptr (entry_id self)));
          mret (Some Py_None)
  | _ => _ ← PyErr_SetString PyExc_TypeError "argument must be string or read-only buffer";
         mret None
  end.

(** tp_iter for the ACL type; since it can be iterated only
    destructively, the type is its iterator *)
Definition ACL_iter (obj : Z) : M (option PyObject) :=
  self ← load_ACL obj;
  _ ← store_body obj (Obj_ACL (Mk_ACL (acl self) ACL_FIRST_ENTRY));
  _ ← Py_INCREF obj;
  mret (Some (PyRef obj)).

(** the tp_iternext function for the ACL type *)
Definition ACL_iternext (obj : Z) : M (option PyObject) :=
  self ← load_ACL obj;
  '(nerr, the_entry_t) ← acl_get_entry (acl self) (entry_id self);
  _ ← store_body obj (Obj_ACL (Mk_ACL (acl self) ACL_NEXT_ENTRY));
  if decide (nerr = -1) then PyErr_SetFromErrno PyExc_IOError
  else if decide (nerr = 0) then mret None
  else
    the_entry_obj ← PyType_GenericNew Entry_Type;
    if decide (the_entry_obj = NULL) then mret None
    else
      _ ← store_body the_entry_obj (Obj_Entry (Mk_Entry obj the_entry_t));
      _ ← Py_INCREF obj;
      mret (Some (PyRef the_entry_obj)).

(** Deletes an entry from the ACL *)
Definition ACL_delentry (obj : Z) (args : list PyObject) : M (option PyObject) :=
  parsed ← parse_O_bang Entry_Type args;
  match parsed with
  | None => mret None
  | Some e =>
      self ← load_ACL obj;
      e ← load_Entry e;
      r ← acl_delete_entry (acl self) (entry e);
      if decide (r = -1) then PyErr_SetFromErrno PyExc_IOError
      else mret (Some Py_None)
  end.

(** ** The module: Entry type *)

(** Creation of a new Entry instance *)
Definition Entry_new : M Z :=
  newentry ← PyType_GenericNew Entry_Type;
  if decide (newentry ≠ NULL)
  then _ ← store_body newentry (Obj_Entry (Mk_Entry NULL ENULL)); mret newentry
  else mret newentry.

(** Initialization of a new Entry instance *)
Definition Entry_init (obj : Z) (args : list PyObject) : M Z :=
  parsed ← parse_O_bang ACL_Type args;
  match parsed with
  | None => mret (-1)
  | Some parent_p =>
      parent ← load_ACL parent_p;
      '(r, e) ← acl_create_entry (acl parent);
      if decide (r = -1) then _ ← PyErr_SetFromErrno PyExc_IOError; mret (-1)
      else
        _ ← store_body obj (Obj_Entry (Mk_Entry parent_p e));
        _ ← Py_INCREF parent_p;
        mret 0
  end.

(** Free the Entry instance *)
Definition Entry_dealloc (obj : Z) : M unit :=
  self ← load_Entry obj;
  have_error ← PyErr_Occurred;
  saved ← (if (have_error : bool) then PyErr_Fetch else no_error);
  _ ← (if decide (parent_acl self ≠ NULL) then
         _ ← Py_DECREF ACL_dealloc (parent_acl self);
         store_body obj (Obj_Entry (Mk_Entry NULL (entry self)))
       else skip);
  _ ← (if (have_error : bool) then PyErr_Restore saved else skip);
  PyObject_DEL obj.

(** The argument of the format in [Entry_str]. *)
Definition describe (tag qualifier : Z) : string :=
  if decide (tag = ACL_UNDEFINED_TAG) then "undefined type"
  else if decide (tag = ACL_USER_OBJ) then "the owner"
  else if decide (tag = ACL_GROUP_OBJ) then "the group"
  else if decide (tag = ACL_OTHER) then "the others"
  else if decide (tag = ACL_USER) then "user with uid " +:+ pretty (to_int qualifier)
  else if decide (tag = ACL_GROUP) then "group with gid " +:+ pretty (to_int qualifier)
  else if decide (tag = ACL_MASK) then "the mask"
  else "UNKNOWN_TAG_TYPE!".

(** Converts the entry to a text format *)
Definition Entry_str (obj : Z) : M (option PyObject) :=
  self ← load_Entry obj;
  '(r, tag) ← acl_get_tag_type (entry self);
  if decide (r = -1) then PyErr_SetFromErrno PyExc_IOError
  else
    q ← (if decide (tag = ACL_USER ∨ tag = ACL_GROUP) then
           p ← acl_get_qualifier (entry self);
           match p with
           | None => mret None
           | Some qualifier => _ ← acl_free_buf; mret (Some qualifier)
           end
         else mret (Some 0));
    match q with
    | None => PyErr_SetFromErrno PyExc_IOError
    | Some qualifier => mret (Some (PyString ("ACL entry for " +:+ describe tag qualifier)))
    end.

(** Sets the tag type of the entry *)
Definition Entry_set_tag_type (obj : Z) (value : option PyObject) : M Z :=
  self ← load_Entry obj;
  match value with
  | None =>
      _ ← PyErr_SetString PyExc_TypeError "tag type deletion is not supported";
      mret (-1)
  | Some value =>
      if negb (PyInt_Check value) then
        _ ← PyErr_SetString PyExc_TypeError "tag type must be integer";
        mret (-1)
      else
        r ← acl_set_tag_type (entry self) (to_int (PyInt_AsLong value));
        if decide (r = -1) then _ ← PyErr_SetFromErrno PyExc_IOError; mret (-1)
        else mret 0
  end.

(** Returns the tag type of the entry *)
Definition Entry_get_tag_type (obj : Z) : M (option PyObject) :=
  self ← load_Entry obj;
  if decide (entry self = ENULL) then
    _ ← PyErr_SetString PyExc_AttributeError "entry attribute";
    mret None
  else
    '(r, value) ← acl_get_tag_type (entry self);
    if decide (r = -1) then PyErr_SetFromErrno PyExc_IOError
    else mret (Some (PyInt value)).

(** Sets the qualifier (either uid_t or gid_t) for the entry,
    usable only if the tag type if ACL_USER or ACL_GROUP *)
Definition Entry_set_qualifier (obj : Z) (value : option PyObject) : M Z :=
  self ← load_Entry obj;
  match value with
  | None =>
      _ ← PyErr_SetString PyExc_TypeError "qualifier deletion is not supported";
      mret (-1)
  | Some value =>
      if negb (PyInt_Check value) then
        _ ← PyErr_SetString PyExc_TypeError "tag type must be integer";
        mret (-1)
      else
        let uidgid := to_int (PyInt_AsLong value) in
        r ← acl_set_qualifier (entry self) (to_uint uidgid);
        if decide (r = -1) then _ ← PyErr_SetFromErrno PyExc_IOError; mret (-1)
        else mret 0
  end.

(** Returns the qualifier of the entry *)
Definition Entry_get_qualifier (obj : Z) : M (option PyObject) :=
  self ← load_Entry obj;
  if decide (entry self = ENULL) then
    _ ← PyErr_SetString PyExc_AttributeError "entry attribute";
    mret None
  else
    p ← acl_get_qualifier (entry self);
    match p with
    | None => PyErr_SetFromErrno PyExc_IOError
    | Some q =>
        let value := to_int q in
        _ ← acl_free_buf;
        mret (Some (PyInt value))
    end.

(** Returns the parent ACL of the entry *)
Definition Entry_get_parent (obj : Z) : M (option PyObject) :=
  self ← load_Entry obj;
  _ ← Py_INCREF (parent_acl self);
  mret (Some (PyRef (parent_acl self))).

(** Creation of a new Permset instance *)
Definition Permset_new : M Z :=
  newpermset ← PyType_GenericNew Permset_Type;
  if decide (newpermset ≠ NULL)
  then _ ← store_body newpermset (Obj_Permset (Mk_Permset NULL ENULL)); mret newpermset
  else mret newpermset.

(** Returns the a new Permset representing the permset of the entry *)
Definition Entry_get_permset (obj : Z) : M (option PyObject) :=
  self ← load_Entry obj;
  p ← Permset_new;
  if decide (p = NULL) then mret None
  else
    '(r, ps) ← acl_get_permset (entry self);
    if decide (r = -1) then PyErr_SetFromErrno PyExc_IOError
    else
      _ ← store_body p (Obj_Permset (Mk_Permset obj ps));
      _ ← Py_INCREF obj;
      mret (Some (PyRef p)).

(** Sets the permset of the entry to the passed Permset *)
Definition Entry_set_permset (obj : Z) (value : option PyObject) : M Z :=
  self ← load_Entry obj;
  w ← get id;
  match value with
  | None => fault
  | Some value =>
      match value with
      | PyRef vp =>
          if decide (type_of w value = Some Permset_Type) then
            p ← load_Permset vp;
            r ← acl_set_permset (entry self) (permset p);
            if decide (r = -1) then _ ← PyErr_SetFromErrno PyExc_IOError; mret (-1)
            else mret 0
          else
            _ ← PyErr_SetString PyExc_TypeError "argument 1 must be posix1e.Permset";
            mret (-1)
      | _ =>
          _ ← PyErr_SetString PyExc_TypeError "argument 1 must be posix1e.Permset";
          mret (-1)
      end
  end.

(** Sets all the entry parameters to another's entry *)
Definition Entry_copy (obj : Z) (args : list PyObject) : M (option PyObject) :=
  self ← load_Entry obj;
  parsed ← parse_O_bang Entry_Type args;
  match parsed with
  | None => mret None
  | Some other =>
      other ← load_Entry other;
      r ← acl_copy_entry (entry self) (entry other);
      if decide (r = -1) then PyErr_SetFromErrno PyExc_IOError
      else mret (Some Py_None)
  end.

(** ** The module: Permset type *)

(** Initialization of a new Permset instance *)
Definition Permset_init (obj : Z) (args : list PyObject) : M Z :=
  self ← load_Permset obj;
  parsed ← parse_O_bang Entry_Type args;
  match parsed with
  | None => mret (-1)
  | Some parent_p =>
      parent ← load_Entry parent_p;
      '(r, ps) ← acl_get_permset (entry parent);
      if decide (r = -1) then _ ← PyErr_SetFromErrno PyExc_IOError; mret (-1)
      else
        _ ← store_body obj (Obj_Permset (Mk_Permset parent_p ps));
        _ ← Py_INCREF parent_p;
        mret 0
  end.

(** Free the Permset instance *)
Definition Permset_dealloc (obj : Z) : M unit :=
  self ← load_Permset obj;
  have_error ← PyErr_Occurred;
  saved ← (if (have_error : bool) then PyErr_Fetch else no_error);
  _ ← (if decide (parent_entry self ≠ NULL) then
         _ ← Py_DECREF Entry_dealloc (parent_entry self);
         store_body obj (Obj_Permset (Mk_Permset NULL (permset self)))
       else skip);
  _ ← (if (have_error : bool) then PyErr_Restore saved else skip);
  PyObject_DEL obj.

(** Permset string representation *)
Definition Permset_str (obj : Z) : M (option PyObject) :=
  self ← load_Permset obj;
  r ← get_perm (permset self) ACL_READ;
  w ← get_perm (permset self) ACL_WRITE;
  x ← get_perm (permset self) ACL_EXECUTE;
  mret (Some (PyString (String (if decide (r ≠ 0) then "r"%char else "-"%char)
                       (String (if decide (w ≠ 0) then "w"%char else "-"%char)
                       (String (if decide (x ≠ 0) then "x"%char else "-"%char) EmptyString))))).

(** Clears all permissions from the permset *)
Definition Permset_clear (obj : Z) : M (option PyObject) :=
  self ← load_Permset obj;
  r ← acl_clear_perms (permset self);
  if decide (r = -1) then PyErr_SetFromErrno PyExc_IOError
  else mret (Some Py_None).

Definition Permset_get_right (obj : Z) (arg : Z) : M (option PyObject) :=
  self ← load_Permset obj;
  r ← get_perm (permset self) (to_int arg);
  if decide (r ≠ 0) then mret (Some Py_True) else mret (Some Py_False).

Definition Permset_set_right (obj : Z) (value : option PyObject) (arg : Z) : M Z :=
  self ← load_Permset obj;
  match value with
  | None => fault
  | Some value =>
      if negb (PyInt_Check value) then
        _ ← PyErr_SetString PyExc_ValueError "a maximum of one argument must be passed";
        mret (-1)
      else
        let on := to_int (PyInt_AsLong value) in
        nerr ← (if decide (on ≠ 0) then acl_add_perm (permset self) (to_int arg)
                else acl_delete_perm (permset self) (to_int arg));
        if decide (nerr = -1) then _ ← PyErr_SetFromErrno PyExc_IOError; mret (-1)
        else mret 0
  end.

(** ** Driving an iteration *)

(** A [for] loop over the object: [tp_iter] once, then [tp_iternext]
    until it returns NULL (at most [fuel] times).  Returns the objects
    produced and whether the NULL was seen. *)
Fixpoint iterate (fuel : nat) (it : Z) : M (list Z * bool) :=
  match fuel with
  | O => mret ([], false)
  | S fuel' =>
      r ← ACL_iternext it;
      match r with
      | Some (PyRef e) => '(es, fin) ← iterate fuel' it; mret (e :: es, fin)
      | _ => mret ([], true)
      end
  end.

Definition traverse (fuel : nat) (obj : Z) : M (list Z * bool) :=
  it ← ACL_iter obj;
  match it with
  | Some (PyRef it) => iterate fuel it
  | _ => fault
  end.

End Backend.

(** ** A reference environment

    One file with a minimal access ACL, the long text form of section 4.1
    and a fixed-width external format: six bytes per record (tag,
    permissions, qualifier in little-endian order). *)

Definition perm_text (p : Z) : string :=
  String (if Z.testbit p 2 then "r" else "-")%char
    (String (if Z.testbit p 1 then "w" else "-")%char
       (String (if Z.testbit p 0 then "x" else "-")%char EmptyString)).

Definition newline : string := String (ascii_of_nat 10) EmptyString.

Definition entry_text (e : acl_entry_obj) : string :=
  (if decide (etag e = ACL_USER_OBJ) then "user::"
   else if decide (etag e = ACL_USER) then "user:" +:+ pretty (eid e) +:+ ":"
   else if decide (etag e = ACL_GROUP_OBJ) then "group::"
   else if decide (etag e = ACL_GROUP) then "group:" +:+ pretty (eid e) +:+ ":"
   else if decide (etag e = ACL_MASK) then "mask::"
   else if decide (etag e = ACL_OTHER) then "other::"
   else "?::")
  +:+ perm_text (eperm e) +:+ newline.

Definition ref_to_text (es : list acl_entry_obj) : string :=
  foldr (λ e s, entry_text e +:+ s) EmptyString es.

Definition byte_of (z : Z) : ascii := ascii_of_N (Z.to_N (z mod 256)).
Definition Z_of_byte (c : ascii) : Z := Z.of_N (N_of_ascii c).

Definition ext_entry (e : acl_entry_obj) : list ascii :=
  [byte_of (etag e); byte_of (eperm e); byte_of (eid e); byte_of (eid e / 256);
   byte_of (eid e / 65536); byte_of (eid e / 16777216)].

Definition ref_copy_ext (es : list acl_entry_obj) : string :=
  string_of_list_ascii (concat (ext_entry <$> es)).

Fixpoint int_entries (l : list ascii) : option (list acl_entry_obj) :=
  match l with
  | [] => Some []
  | t :: p :: a :: b :: c :: d :: l' =>
      match int_entries l' with
      | Some es =>
          if recognized_tag (Z_of_byte t) && bool_decide (Z_of_byte p < 8) then
            Some (Mk_entry (Z_of_byte t)
                    (Z_of_byte a + 256 * Z_of_byte b + 65536 * Z_of_byte c
                     + 16777216 * Z_of_byte d)
                    (Z_of_byte p) :: es)
          else None
      | None => None
      end
  | _ => None
  end.

Definition ref_copy_int (buf : string) : option (list acl_entry_obj) :=
  int_entries (list_ascii_of_string buf).

Definition minimal_acl (u g o : Z) : list acl_entry_obj :=
  [Mk_entry ACL_USER_OBJ ACL_UNDEFINED_ID u; Mk_entry ACL_GROUP_OBJ ACL_UNDEFINED_ID g;
   Mk_entry ACL_OTHER ACL_UNDEFINED_ID o].

Definition ref_env : backend_env :=
  Mk_env
    (λ name type,
       if decide (name = "file.txt" ∧ type = ACL_TYPE_ACCESS)
       then Acq_ok (minimal_acl 6 6 4) else Acq_fail 2)
    (λ fd, Acq_fail 9)
    (λ text,
       if decide (text = "u::rwx,g::rwx,o::rwx") then Acq_ok (minimal_acl 7 7 7)
       else Acq_fail EINVAL)
    ref_to_text ref_copy_ext ref_copy_int.

(** Running a function and keeping its result. *)
Definition eval {A} (m : M A) (w : world) : option A := fst <$> m w.

(** ** Vocabulary of the properties *)

(** The records an ACL object holds; none when it has no live handle. *)
Definition entry_set (w : world) (self : ACL_Object) : list acl_entry_obj :=
  match w_acls w !! acl self with
  | Some o => snd <$> aentries o
  | None => []
  end.

(** The struct of the Entry object at [p]. *)
Definition view_of (w : world) (p : Z) : option Entry_Object :=
  match w_heap w !! p with
  | Some (Mk_obj _ (Obj_Entry e)) => Some e
  | _ => None
  end.

(** The iterator [obj] over handle [h] with records [l] is about to
    produce record number [i]. *)
Definition iter_at (w : world) (obj h : Z) (l : list (Z * acl_entry_obj)) (i : nat) : Prop :=
  ∃ rc eid cur ser,
    obj ≠ NULL
    ∧ w_heap w !! obj = Some (Mk_obj rc (Obj_ACL (Mk_ACL h eid)))
    ∧ w_acls w !! h = Some (Mk_acl l cur ser)
    ∧ ((eid = ACL_FIRST_ENTRY ∧ i = 0%nat) ∨ (eid = ACL_NEXT_ENTRY ∧ i = cur)).

(** Objects other than [obj] that exist in [w] are the same in [w']. *)
Definition frame (obj : Z) (w w' : world) : Prop :=
  ∀ q, q ≠ obj → is_Some (w_heap w !! q) → w_heap w' !! q = w_heap w !! q.

(** The three rights of a permission set. *)
Definition is_right (right : Z) : Prop :=
  right = ACL_READ ∨ right = ACL_WRITE ∨ right = ACL_EXECUTE.

(** The struct of the ACL object at [p]. *)
Definition view_ACL (w : world) (p : Z) : option ACL_Object :=
  match w_heap w !! p with
  | Some (Mk_obj _ (Obj_ACL a)) => Some a
  | _ => None
  end.

(** The external format gives records [es] back up to their text. *)
Definition round_trips (env : backend_env) (es : list acl_entry_obj) : Prop :=
  ∃ es', env_copy_int env (env_copy_ext env es) = Some es'
         ∧ env_to_text env es' = env_to_text env es.

(** Keyword arguments of [ACL_init] that parse, with the acquiring call
    they lead to and what the library delivers for it.  [obj] is the
    object being initialized and [self] its struct; the library is asked
    after the handle of [self] has been released, so a duplicate of that
    handle (or of any other that is not live) is refused. *)
Inductive init_source (env : backend_env) (w : world) (obj : Z) (self : ACL_Object) :
    list (string * PyObject) → backend_call → acquired → Prop :=
| src_file f :
    has_nul f = false →
    init_source env w obj self [("file", PyString f)]
      (Call_get_file f ACL_TYPE_ACCESS) (env_get_file env f ACL_TYPE_ACCESS)
| src_text t :
    has_nul t = false →
    init_source env w obj self [("text", PyString t)]
      (Call_from_text t) (env_from_text env t)
| src_fd n :
    -2147483648 ≤ n ≤ 2147483647 →
    n ≠ -1 →
    init_source env w obj self [("fd", PyInt n)] (Call_get_fd n) (env_get_fd env n)
| src_filedef f :
    has_nul f = false →
    init_source env w obj self [("filedef", PyString f)]
      (Call_get_file f ACL_TYPE_DEFAULT) (env_get_file env f ACL_TYPE_DEFAULT)
| src_acl_stale p rc src :
    p ≠ NULL →
    w_heap w !! p = Some (Mk_obj rc (Obj_ACL src)) →
    acl src = acl self ∨ w_acls w !! acl src = None →
    init_source env w obj self [("acl", PyRef p)] (Call_dup (acl src)) (Acq_fail EINVAL)
| src_acl_live p rc src o :
    p ≠ NULL →
    w_heap w !! p = Some (Mk_obj rc (Obj_ACL src)) →
    acl src ≠ acl self →
    w_acls w !! acl src = Some o →
    init_source env w obj self [("acl", PyRef p)] (Call_dup (acl src))
      (Acq_ok (snd <$> aentries o))
| src_none :
    init_source env w obj self [] (Call_init 0) (Acq_ok []).

(** The locals of [ACL_init] before parsing. *)
Definition no_args : init_args := Mk_init_args None (-1) None NULL None.

(** Releasing the handle of [self] fails: it is not NULL and the library
    does not know it. *)
Definition release_fails (w : world) (self : ACL_Object) : bool :=
  bool_decide (acl self ≠ NULL ∧ w_acls w !! acl self = None).

(** The ACL object at [obj] holds the handle [h], and [h] is live. *)
Definition holds_live (w : world) (obj h : Z) : Prop :=
  ∃ a, view_ACL w obj = Some a ∧ acl a = h ∧ h ≠ NULL ∧ is_Some (w_acls w !! h).


(** A world to try the module on: two ACL objects with a minimal ACL
    each, an Entry of the second, and an Entry that was created but
    never initialized. *)
Definition sample_world : world :=
  Mk_world
    (<[1 := Mk_obj 1 (Obj_ACL (Mk_ACL 1 ACL_FIRST_ENTRY))]>
       (<[2 := Mk_obj 2 (Obj_ACL (Mk_ACL 2 ACL_NEXT_ENTRY))]>
          (<[3 := Mk_obj 1 (Obj_Entry (Mk_Entry 2 (EREF 2 0)))]>
             (<[4 := Mk_obj 1 (Obj_Entry (Mk_Entry NULL ENULL))]> ∅))))
    None [] 0
    (<[1 := Mk_acl (number (minimal_acl 7 7 7)) 0 3]>
       (<[2 := Mk_acl (number (minimal_acl 6 4 0)) 1 3]> ∅))
    [].

(** A world in which the ACL object at 1 holds a handle the library does
    not know, beside the second ACL object of [sample_world]. *)
Definition stale_world : world :=
  Mk_world
    (<[1 := Mk_obj 1 (Obj_ACL (Mk_ACL 9 ACL_FIRST_ENTRY))]>
       (<[2 := Mk_obj 1 (Obj_ACL (Mk_ACL 2 ACL_NEXT_ENTRY))]> ∅))
    None [] 0
    (<[2 := Mk_acl (number (minimal_acl 6 4 0)) 1 3]> ∅)
    [].

(** A world in the middle of an unwinding: a TypeError is pending, and
    the Entry at 3 holds the only reference to the ACL at 2. *)
Definition pending_error : pyexc := Mk_exc PyExc_TypeError (Msg "tag type must be integer").

Definition pending_world : world :=
  Mk_world
    (<[2 := Mk_obj 1 (Obj_ACL (Mk_ACL 2 ACL_NEXT_ENTRY))]>
       (<[3 := Mk_obj 1 (Obj_Entry (Mk_Entry 2 (EREF 2 0)))]> ∅))
    (Some pending_error) [] 0
    (<[2 := Mk_acl (number (minimal_acl 6 4 0)) 1 3]> ∅)
    [].

(** ** The module: applying an ACL, deleting a default ACL *)

(** What lies outside the process for [ACL_applyto] and [delete_default]:
    the descriptor the runtime finds in an object of another type (the
    value of a long, the result of its [fileno()]; negative when it has
    none), and the errno the system answers when an ACL is set on a
    path or descriptor or a default ACL is removed (0 for success). *)
Record target_env := Mk_target {
  tgt_other_fd : Z;
  tgt_set_file : string → Z → list acl_entry_obj → Z;
  tgt_set_fd : Z → list acl_entry_obj → Z;
  tgt_delete_def_file : string → Z
}.

(** [PyString_AS_STRING] read as a C string: the bytes before the first
    null byte. *)
Fixpoint c_str (s : string) : string :=
  match s with
  | EmptyString => EmptyString
  | String c s' => if decide (c = Ascii.zero) then EmptyString else String c (c_str s')
  end.

Section Targets.

Variable tgt : target_env.

(** [PyObject_AsFileDescriptor]: an integer that fits a C [int] and is
    not negative is its own descriptor; any failure returns -1 with an
    exception set. *)
Definition PyObject_AsFileDescriptor (o : PyObject) : M Z :=
  match o with
  | PyInt _ | Py_Bool _ =>
      let n := PyInt_AsLong o in
      if decide (-2147483648 ≤ n ≤ 2147483647) then
        if decide (n < 0) then
          _ ← PyErr_SetString PyExc_ValueError "file descriptor cannot be a negative integer";
          mret (-1)
        else mret n
      else
        _ ← PyErr_SetString PyExc_OverflowError "Python int too large to convert to C int";
        mret (-1)
  | PyOther =>
      if decide (0 ≤ tgt_other_fd tgt) then mret (tgt_other_fd tgt)
      else
        _ ← PyErr_SetString PyExc_TypeError "argument must be an int, or have a fileno() method.";
        mret (-1)
  | _ =>
      _ ← PyErr_SetString PyExc_TypeError "argument must be an int, or have a fileno() method.";
      mret (-1)
  end.

(** Modelled from the spec: [acl_set_file], apply-ACL-to a path. *)
Definition acl_set_file (name : string) (type : Z) (p : Z) : M Z :=
  acls ← get w_acls;
  match acls !! p with
  | Some o =>
      let e := tgt_set_file tgt name type (snd <$> aentries o) in
      if decide (e = 0) then mret 0 else fail_with e (-1)
  | None => fail_with EINVAL (-1)
  end.

(** Modelled from the spec: [acl_set_fd], apply-ACL-to an open descriptor. *)
Definition acl_set_fd (fd : Z) (p : Z) : M Z :=
  acls ← get w_acls;
  match acls !! p with
  | Some o =>
      let e := tgt_set_fd tgt fd (snd <$> aentries o) in
      if decide (e = 0) then mret 0 else fail_with e (-1)
  | None => fail_with EINVAL (-1)
  end.

(** Modelled from the spec: [acl_delete_def_file], removal of the default
    ACL of a directory. *)
Definition acl_delete_def_file (name : string) : M Z :=
  let e := tgt_delete_def_file tgt name in
  if decide (e = 0) then mret 0 else fail_with e (-1).

(** [PyArg_ParseTuple(args, "O|i", &myarg, &type)]: one object and an
    optional C [int]; [type] keeps its initial value when not given. *)
Definition parse_O_i (args : list PyObject) (type0 : Z) : M (option (PyObject * Z)) :=
  match args with
  | [myarg] => mret (Some (myarg, type0))
  | [myarg; t] =>
      match convert_i t with
      | inr n => mret (Some (myarg, n))
      | inl x => _ ← PyErr_SetString x "an integer is required"; mret None
      end
  | _ => _ ← PyErr_SetString PyExc_TypeError "function takes at least 1 argument";
         mret None
  end.

(** Applyes the ACL to a file *)
Definition ACL_applyto (obj : Z) (args : list PyObject) : M (option PyObject) :=
  self ← load_ACL obj;
  parsed ← parse_O_i args ACL_TYPE_ACCESS;
  match parsed with
  | None => mret None
  | Some (myarg, type) =>
      match myarg with
      | PyString s =>
          let filename := c_str s in
          nret ← acl_set_file filename type (acl self);
          if decide (nret = -1) then PyErr_SetFromErrno PyExc_IOError
          else mret (Some Py_None)
      | _ =>
          fd ← PyObject_AsFileDescriptor myarg;
          if decide (fd ≠ -1) then
            nret ← acl_set_fd fd (acl self);
            if decide (nret = -1) then PyErr_SetFromErrno PyExc_IOError
            else mret (Some Py_None)
          else
            _ ← PyErr_SetString PyExc_TypeError
                  "argument 1 must be string, int, or file-like object";
            mret None
      end
  end.

(** [PyArg_ParseTuple(args, "s", &filename)] *)
Definition parse_s (args : list PyObject) : M (option string) :=
  match args with
  | [v] =>
      match convert_s v with
      | inr s => mret (Some s)
      | inl x => _ ← PyErr_SetString x "argument 1 must be string without null bytes";
                 mret None
      end
  | _ => _ ← PyErr_SetString PyExc_TypeError "function takes exactly 1 argument";
         mret None
  end.

(** Deletes the default ACL from a directory *)
Definition aclmodule_delete_default (args : list PyObject) : M (option PyObject) :=
  parsed ← parse_s args;
  match parsed with
  | None => mret None
  | Some filename =>
      r ← acl_delete_def_file filename;
      if decide (r = -1) then PyErr_SetFromErrno PyExc_IOError
      else mret (Some Py_None)
  end.

End Targets.

(** A reference for the outside of [ACL_applyto]: one file and the three
    standard descriptors accept a valid ACL, one directory has a default
    ACL to delete. *)
Definition ref_tgt : target_env :=
  Mk_target (-1)
    (λ name type es,
       if acl_check es then (if decide (name = "file.txt") then 0 else 2) else EINVAL)
    (λ fd es, if acl_check es then (if decide (fd ≤ 2) then 0 else 9) else EINVAL)
    (λ name, if decide (name = "dir") then 0 else 2).

(** ** Vocabulary of the further properties *)

(** Arguments [ACL_init] refuses before it touches the object, with the
    exception type it raises. *)
Inductive rejected (w : world) :
    list PyObject → option (list (string * PyObject)) → exc_type → Prop :=
| rej_positional args keywds :
    args ≠ [] → rejected w args keywds PyExc_ValueError
| rej_keywords d :
    (1 < length d)%nat → rejected w [] (Some d) PyExc_ValueError
| rej_convert k v t :
    convert_kw w no_args (k, v) = inl t → rejected w [] (Some [(k, v)]) t.

(** The text [Permset_str] builds from three answers. *)
Definition rwx (r w x : bool) : string :=
  String (if r then "r" else "-")%char
    (String (if w then "w" else "-")%char
       (String (if x then "x" else "-")%char EmptyString)).

(** The blank record [acl_create_entry] appends. *)
Definition blank_entry : acl_entry_obj := Mk_entry ACL_UNDEFINED_TAG ACL_UNDEFINED_ID 0.

(** [args] is not a single object of type [t]. *)
Definition not_an_instance (w : world) (t : pytype) (args : list PyObject) : Prop :=
  ∀ p, args = [PyRef p] → type_of w (PyRef p) ≠ Some t.

(** A world with the three kinds of objects: two ACL objects, the first
    with a USER record after the three of a minimal ACL; an Entry of
    the second ACL and a Permset of that Entry; an Entry of the USER
    record; and one object of each type that was created but never
    initialized. *)
Definition family_world : world :=
  Mk_world
    (<[1 := Mk_obj 2 (Obj_ACL (Mk_ACL 1 ACL_FIRST_ENTRY))]>
       (<[2 := Mk_obj 2 (Obj_ACL (Mk_ACL 2 ACL_NEXT_ENTRY))]>
          (<[3 := Mk_obj 2 (Obj_Entry (Mk_Entry 2 (EREF 2 0)))]>
             (<[4 := Mk_obj 1 (Obj_Entry (Mk_Entry NULL ENULL))]>
                (<[5 := Mk_obj 1 (Obj_Permset (Mk_Permset 3 (EREF 2 0)))]>
                   (<[6 := Mk_obj 1 (Obj_Permset (Mk_Permset NULL ENULL))]>
                      (<[7 := Mk_obj 1 (Obj_ACL (Mk_ACL NULL ACL_FIRST_ENTRY))]>
                         (<[8 := Mk_obj 1 (Obj_Entry (Mk_Entry 1 (EREF 1 3)))]> ∅))))))))
    None [] 0
    (<[1 := Mk_acl (number (minimal_acl 7 7 7 ++ [Mk_entry ACL_USER 1000 6])) 0 4]>
       (<[2 := Mk_acl (number (minimal_acl 6 4 0)) 1 3]> ∅))
    [].

(** A world at the end of an unwinding: a TypeError is pending, the
    Permset at 5 has lost its last reference and holds the only one to
    the Entry at 3, which holds the only one to the ACL at 2. *)
Definition chain_world : world :=
  Mk_world
    (<[2 := Mk_obj 1 (Obj_ACL (Mk_ACL 2 ACL_NEXT_ENTRY))]>
       (<[3 := Mk_obj 1 (Obj_Entry (Mk_Entry 2 (EREF 2 0)))]>
          (<[5 := Mk_obj 0 (Obj_Permset (Mk_Permset 3 (EREF 2 0)))]> ∅)))
    (Some pending_error) [] 0
    (<[2 := Mk_acl (number (minimal_acl 6 4 0)) 1 3]> ∅)
    [].

(** A world with a GROUP record whose id does not fit a signed C [int]:
    the Entry at 2 is bound to it. *)
Definition large_id_world : world :=
  Mk_world
    (<[1 := Mk_obj 2 (Obj_ACL (Mk_ACL 1 ACL_FIRST_ENTRY))]>
       (<[2 := Mk_obj 1 (Obj_Entry (Mk_Entry 1 (EREF 1 3)))]> ∅))
    None [] 0
    (<[1 := Mk_acl (number (minimal_acl 7 7 7 ++ [Mk_entry ACL_GROUP 4000000000 5])) 0 4]> ∅)
    [].
(** * Properties *)

(** ** Running the monad *)

Lemma bind_Some {A B} (m : M A) (f : A → M B) (w w' : world) (x : A) :
  m w = Some (x, w') → (m ≫= f) w = f x w'.
Proof. intros H. unfold mbind, M_bind. by rewrite H. Qed.

Lemma load_Some (p : Z) (o : pyobject) (w : world) :
  p ≠ NULL → w_heap w !! p = Some o → load p w = Some (o, w).
Proof. intros Hp Ho. unfold load. rewrite decide_False by done. by rewrite Ho. Qed.

Lemma load_ACL_Some (p rc : Z) (a : ACL_Object) (w : world) :
  p ≠ NULL → w_heap w !! p = Some (Mk_obj rc (Obj_ACL a)) → load_ACL p w = Some (a, w).
Proof. intros Hp Ho. unfold load_ACL. by rewrite (bind_Some _ _ _ _ _ (load_Some _ _ _ Hp Ho)). Qed.

Lemma load_Entry_Some (p rc : Z) (a : Entry_Object) (w : world) :
  p ≠ NULL → w_heap w !! p = Some (Mk_obj rc (Obj_Entry a)) → load_Entry p w = Some (a, w).
Proof. intros Hp Ho. unfold load_Entry. by rewrite (bind_Some _ _ _ _ _ (load_Some _ _ _ Hp Ho)). Qed.

Lemma load_Permset_Some (p rc : Z) (a : Permset_Object) (w : world) :
  p ≠ NULL → w_heap w !! p = Some (Mk_obj rc (Obj_Permset a)) →
  load_Permset p w = Some (a, w).
Proof. intros Hp Ho. unfold load_Permset. by rewrite (bind_Some _ _ _ _ _ (load_Some _ _ _ Hp Ho)). Qed.

Ltac wsimpl :=
  cbn [w_heap w_acls w_err w_calls w_errno w_stderr
       set_heap set_acls set_err set_calls set_errno set_stderr
       ob_refcnt ob_body acl entry_id parent_acl entry parent_entry permset
       aentries acurr aserial fst snd] in *.

Lemma store_body_Some (p : Z) (b : pybody) (o : pyobject) (w : world) :
  p ≠ NULL → w_heap w !! p = Some o →
  store_body p b w = Some (tt, set_heap (<[p := Mk_obj (ob_refcnt o) b]> (w_heap w)) w).
Proof.
  intros Hp Ho. unfold store_body.
  by rewrite (bind_Some _ _ _ _ _ (load_Some _ _ _ Hp Ho)).
Qed.

Lemma Py_INCREF_Some (p : Z) (o : pyobject) (w : world) :
  p ≠ NULL → w_heap w !! p = Some o →
  Py_INCREF p w
  = Some (tt, set_heap (<[p := Mk_obj (ob_refcnt o + 1) (ob_body o)]> (w_heap w)) w).
Proof.
  intros Hp Ho. unfold Py_INCREF.
  by rewrite (bind_Some _ _ _ _ _ (load_Some _ _ _ Hp Ho)).
Qed.

(** ** The validity rules *)

Lemma has_dup_NoDup (l : list Z) : has_dup l = false ↔ NoDup l.
Proof.
  induction l as [|x l IH]; simpl.
  - split; [constructor | done].
  - rewrite NoDup_cons, orb_false_iff, bool_decide_eq_false. by rewrite IH.
Qed.

Lemma count_tag_pos (t : Z) (es : list acl_entry_obj) :
  (0 < count_tag t es)%nat ↔ ∃ e, e ∈ es ∧ etag e = t.
Proof.
  unfold count_tag, with_tag. split.
  - intros Hlen. destruct (filter _ es) as [|e l] eqn:Hf; [simpl in Hlen; lia|].
    exists e. assert (He : e ∈ filter (λ e, etag e = t) es) by (rewrite Hf; left).
    apply list_elem_of_filter in He. tauto.
  - intros (e & Hin & Ht).
    assert (He : e ∈ filter (λ e, etag e = t) es) by (apply list_elem_of_filter; tauto).
    destruct (filter _ es); [by apply elem_of_nil in He | simpl; lia].
Qed.

Lemma acl_check_spec (es : list acl_entry_obj) :
  acl_check es = true ↔ ValidationEngine es.
Proof.
  unfold acl_check.
  rewrite !andb_true_iff, !negb_true_iff, !has_dup_NoDup, !Nat.eqb_eq.
  assert (Hany : (0 < count_tag ACL_USER es + count_tag ACL_GROUP es)%nat ↔
                 ∃ e, e ∈ es ∧ (etag e = ACL_USER ∨ etag e = ACL_GROUP)).
  { split.
    - intros H.
      destruct (decide (0 < count_tag ACL_USER es)%nat) as [Hu|Hu].
      + apply count_tag_pos in Hu as (e & ? & ?). eauto.
      + assert (Hg : (0 < count_tag ACL_GROUP es)%nat) by lia.
        apply count_tag_pos in Hg as (e & ? & ?). eauto.
    - intros (e & Hin & [Ht|Ht]).
      + assert (0 < count_tag ACL_USER es)%nat by (apply count_tag_pos; eauto). lia.
      + assert (0 < count_tag ACL_GROUP es)%nat by (apply count_tag_pos; eauto). lia. }
  split.
  - intros [[[[[H1 H2] H3] H4] H5] H6]. split; try done.
    destruct (0 <? _)%nat eqn:Hlt.
    + apply Nat.eqb_eq in H6. split; [done | lia].
    + apply Nat.leb_le in H6. apply Nat.ltb_ge in Hlt. split; [|done].
      intros Hex. apply Hany in Hex. lia.
  - intros [H1 H2 H3 H4 H5 [H6 H7]]. repeat split; try done.
    destruct (0 <? _)%nat eqn:Hlt.
    + apply Nat.eqb_eq, H6, Hany. by apply Nat.ltb_lt.
    + by apply Nat.leb_le.
Qed.

(** C2. [ACL_valid] answers with one boolean, leaving the error indicator
    alone, and the boolean is true exactly when the records of the ACL
    satisfy the six rules of the ValidationEngine. *)
Theorem ACL_valid_iff_rules (w : world) (obj rc : Z) (self : ACL_Object) :
  obj ≠ NULL →
  w_heap w !! obj = Some (Mk_obj rc (Obj_ACL self)) →
  ∃ b w', ACL_valid obj w = Some (Some (Py_Bool b), w')
          ∧ w_err w' = w_err w
          ∧ (b = true ↔ ValidationEngine (entry_set w self)).
Proof.
  intros Hobj Hheap. unfold ACL_valid.
  rewrite (bind_Some _ _ _ _ _ (load_ACL_Some _ _ _ _ Hobj Hheap)).
  unfold acl_valid, entry_set, mbind, M_bind; simpl.
  destruct (w_acls w !! acl self) as [o|] eqn:Ho; simpl.
  - destruct (acl_check (snd <$> aentries o)) eqn:Hc; simpl.
    + eexists true, _. split_and!; [done..|]. by rewrite <- acl_check_spec.
    + eexists false, _. split_and!; [done..|].
      rewrite <- acl_check_spec, Hc. done.
  - eexists false, _. split_and!; [done..|].
    split; [done|]. intros [H _ _ _ _ _]. by vm_compute in H.
Qed.

(** ** Iteration *)

Lemma frame_trans obj w1 w2 w3 : frame obj w1 w2 → frame obj w2 w3 → frame obj w1 w3.
Proof.
  intros H12 H23 q Hq Hs. rewrite H23; [by apply H12 | done |].
  by rewrite H12.
Qed.

Lemma fresh_heap_spec (h : gmap Z pyobject) :
  fresh ({[NULL]} ∪ dom h) ≠ NULL ∧ h !! fresh ({[NULL]} ∪ dom h) = None.
Proof.
  pose proof (is_fresh ({[NULL]} ∪ dom h)) as Hf. split.
  - set_solver.
  - apply not_elem_of_dom. set_solver.
Qed.

Lemma acl_get_entry_Some (w : world) (p which : Z) (o : acl_obj) (i : nat) k r :
  w_acls w !! p = Some o →
  (which = ACL_FIRST_ENTRY ∧ i = 0%nat) ∨ (which = ACL_NEXT_ENTRY ∧ i = acurr o) →
  aentries o !! i = Some (k, r) →
  acl_get_entry p which w
  = Some ((1, EREF p k),
          set_acls (<[p := Mk_acl (aentries o) (S i) (aserial o)]> (w_acls w))
            (set_calls (w_calls w ++ [Call_get_entry p which]) w)).
Proof.
  intros Ho Hw Hi. unfold acl_get_entry, call, mbind, M_bind, get, modify; wsimpl.
  rewrite Ho.
  destruct Hw as [[-> ->]|[-> ->]]; simpl; by rewrite Hi.
Qed.

Lemma acl_get_entry_None (w : world) (p which : Z) (o : acl_obj) (i : nat) :
  w_acls w !! p = Some o →
  (which = ACL_FIRST_ENTRY ∧ i = 0%nat) ∨ (which = ACL_NEXT_ENTRY ∧ i = acurr o) →
  aentries o !! i = None →
  acl_get_entry p which w
  = Some ((0, ENULL),
          set_acls (<[p := Mk_acl (aentries o) i (aserial o)]> (w_acls w))
            (set_calls (w_calls w ++ [Call_get_entry p which]) w)).
Proof.
  intros Ho Hw Hi. unfold acl_get_entry, call, mbind, M_bind, get, modify; wsimpl.
  rewrite Ho.
  destruct Hw as [[-> ->]|[-> ->]]; simpl; by rewrite Hi.
Qed.

Lemma iternext_step (w : world) (obj h : Z) l (i : nat) (k : Z) (r : acl_entry_obj) :
  iter_at w obj h l i → l !! i = Some (k, r) →
  ∃ p w', ACL_iternext obj w = Some (Some (PyRef p), w')
          ∧ iter_at w' obj h l (S i)
          ∧ w_heap w !! p = None
          ∧ view_of w' p = Some (Mk_Entry obj (EREF h k))
          ∧ frame obj w w'
          ∧ w_err w' = w_err w.
Proof.
  intros (rc & eid & cur & ser & Hobj & Hheap & Hacl & Hpos) Hl.
  unfold ACL_iternext.
  rewrite (bind_Some _ _ _ _ _ (load_ACL_Some _ _ _ _ Hobj Hheap)). wsimpl.
  rewrite (bind_Some _ _ _ _ _ (acl_get_entry_Some _ _ _ _ i _ _ Hacl Hpos Hl)). wsimpl.
  erewrite bind_Some by (apply store_body_Some; [done | wsimpl; exact Hheap]). wsimpl.
  rewrite decide_False by done. rewrite decide_False by done.
  unfold PyType_GenericNew, tp_alloc. unfold mbind at 1, M_bind at 1. wsimpl.
  match goal with |- context [fresh ?X] => set (p := fresh X) end.
  destruct (fresh_heap_spec (<[obj:=Mk_obj rc (Obj_ACL (Mk_ACL h ACL_NEXT_ENTRY))]> (w_heap w)))
    as [Hp0 Hpn]. fold p in Hp0, Hpn.
  assert (Hpo : p ≠ obj) by (intros ->; by rewrite lookup_insert_eq in Hpn).
  rewrite lookup_insert_ne in Hpn by done.
  rewrite decide_False by done.
  erewrite bind_Some by (apply store_body_Some; [done | wsimpl; apply lookup_insert_eq]). wsimpl.
  erewrite bind_Some
    by (apply Py_INCREF_Some; [done | wsimpl; rewrite !lookup_insert_ne by done; apply lookup_insert_eq]).
  wsimpl. eexists p, _. split; [reflexivity|]. wsimpl. split_and!.
  - exists (rc + 1), ACL_NEXT_ENTRY, (S i), ser. split_and!; [done | | | by right].
    + wsimpl. by rewrite lookup_insert_eq.
    + wsimpl. by rewrite lookup_insert_eq.
  - done.
  - unfold view_of. wsimpl. rewrite lookup_insert_ne by done. by rewrite lookup_insert_eq.
  - intros q Hq Hs. wsimpl.
    assert (q ≠ p) by (intros ->; rewrite Hpn in Hs; by destruct Hs).
    by rewrite !lookup_insert_ne by congruence.
  - done.
Qed.

Lemma iternext_stop (w : world) (obj h : Z) l (i : nat) :
  iter_at w obj h l i → l !! i = None →
  ∃ w', ACL_iternext obj w = Some (None, w')
        ∧ iter_at w' obj h l i
        ∧ frame obj w w'
        ∧ w_err w' = w_err w.
Proof.
  intros (rc & eid & cur & ser & Hobj & Hheap & Hacl & Hpos) Hl.
  unfold ACL_iternext.
  rewrite (bind_Some _ _ _ _ _ (load_ACL_Some _ _ _ _ Hobj Hheap)). wsimpl.
  rewrite (bind_Some _ _ _ _ _ (acl_get_entry_None _ _ _ _ i Hacl Hpos Hl)). wsimpl.
  erewrite bind_Some by (apply store_body_Some; [done | wsimpl; exact Hheap]). wsimpl.
  rewrite decide_False by done. rewrite decide_True by done.
  eexists. split; [reflexivity|]. split_and!.
  - exists rc, ACL_NEXT_ENTRY, i, ser. wsimpl. rewrite !lookup_insert_eq. by split_and!; [..|right].
  - intros q Hq Hs. wsimpl. by rewrite lookup_insert_ne by congruence.
  - done.
Qed.

Lemma iter_at_obj (w : world) (obj h : Z) l i :
  iter_at w obj h l i → is_Some (w_heap w !! obj) ∧ view_of w obj = None.
Proof.
  intros (rc & eid & cur & ser & Hobj & Hheap & _). unfold view_of. rewrite Hheap. eauto.
Qed.

Lemma iterate_spec (obj h : Z) (l : list (Z * acl_entry_obj)) (n : nat) :
  ∀ (i : nat) (w : world) (fuel : nat),
    iter_at w obj h l i → length l = (i + n)%nat → (n < fuel)%nat →
    ∃ ps w', iterate fuel obj w = Some ((ps, true), w')
      ∧ view_of w' <$> ps = (λ kr, Some (Mk_Entry obj (EREF h kr.1))) <$> drop i l
      ∧ (∀ p, p ∈ ps → w_heap w !! p = None)
      ∧ NoDup ps
      ∧ frame obj w w'
      ∧ iter_at w' obj h l (length l)
      ∧ w_err w' = w_err w.
Proof.
  induction n as [|n IH]; intros i w fuel Hat Hlen Hfuel;
    (destruct fuel as [|fuel]; [lia|]); simpl.
  - assert (Hi : l !! i = None) by (apply lookup_ge_None; lia).
    destruct (iternext_stop _ _ _ _ _ Hat Hi) as (w' & Hrun & Hat' & Hfr & Herr).
    rewrite (bind_Some _ _ _ _ _ Hrun). eexists [], w'. split; [reflexivity|].
    rewrite drop_ge by lia. split_and!; try done.
    + by intros p Hp%elem_of_nil.
    + constructor.
    + by replace (length l) with i by lia.
  - destruct (lookup_lt_is_Some_2 l i) as [[k r] Hi]; [lia|].
    destruct (iternext_step _ _ _ _ _ _ _ Hat Hi)
      as (p & w1 & Hrun & Hat1 & Hfresh & Hview & Hfr & Herr).
    rewrite (bind_Some _ _ _ _ _ Hrun).
    destruct (IH (S i) w1 fuel Hat1) as (ps & w' & Hrun' & Hviews & Hfresh' & Hnd & Hfr' & Hat' & Herr');
      [lia..|].
    rewrite (bind_Some _ _ _ _ _ Hrun'). eexists (p :: ps), w'. split; [reflexivity|].
    assert (Hp1 : is_Some (w_heap w1 !! p)).
    { unfold view_of in Hview. destruct (w_heap w1 !! p); [eauto | done]. }
    assert (Hpobj : p ≠ obj).
    { intros ->. apply iter_at_obj in Hat as [[? Ho] _]. congruence. }
    split_and!.
    + rewrite (drop_S _ _ _ Hi). simpl. f_equal; [|done].
      unfold view_of. rewrite (Hfr' p Hpobj Hp1). exact Hview.
    + intros q [->|Hq]%elem_of_cons; [done|].
      destruct (w_heap w !! q) eqn:Hwq; [|done].
      apply Hfresh' in Hq. destruct (decide (q = obj)) as [->|Hne].
      * apply iter_at_obj in Hat1 as [[? Ho] _]. congruence.
      * rewrite Hfr in Hq by eauto. congruence.
    + constructor; [|done]. intros Hin%Hfresh'. destruct Hp1. congruence.
    + by eapply frame_trans.
    + done.
    + congruence.
Qed.

Lemma ACL_iter_spec (w : world) (obj rc : Z) (self : ACL_Object) (o : acl_obj) :
  obj ≠ NULL →
  w_heap w !! obj = Some (Mk_obj rc (Obj_ACL self)) →
  w_acls w !! acl self = Some o →
  ∃ w', ACL_iter obj w = Some (Some (PyRef obj), w')
        ∧ w_heap w' !! obj = Some (Mk_obj (rc + 1) (Obj_ACL (Mk_ACL (acl self) ACL_FIRST_ENTRY)))
        ∧ w_acls w' = w_acls w
        ∧ frame obj w w'
        ∧ w_err w' = w_err w.
Proof.
  intros Hobj Hheap Hacl. unfold ACL_iter.
  rewrite (bind_Some _ _ _ _ _ (load_ACL_Some _ _ _ _ Hobj Hheap)).
  erewrite bind_Some by (apply store_body_Some; [done | exact Hheap]). wsimpl.
  erewrite bind_Some by (apply Py_INCREF_Some; [done | wsimpl; apply lookup_insert_eq]).
  wsimpl. eexists. split; [reflexivity|]. wsimpl. split_and!; try done.
  - by rewrite lookup_insert_eq.
  - intros q Hq Hs. wsimpl. by rewrite !lookup_insert_ne by congruence.
Qed.

Lemma traverse_spec (w : world) (obj rc : Z) (self : ACL_Object) (o : acl_obj) (fuel : nat) :
  obj ≠ NULL →
  w_heap w !! obj = Some (Mk_obj rc (Obj_ACL self)) →
  w_acls w !! acl self = Some o →
  (length (aentries o) < fuel)%nat →
  ∃ ps w' rc' self' o',
    traverse fuel obj w = Some ((ps, true), w')
    ∧ view_of w' <$> ps
      = (λ kr, Some (Mk_Entry obj (EREF (acl self) kr.1))) <$> aentries o
    ∧ NoDup ps
    ∧ (∀ p, p ∈ ps → w_heap w !! p = None)
    ∧ w_err w' = w_err w
    ∧ w_heap w' !! obj = Some (Mk_obj rc' (Obj_ACL self'))
    ∧ acl self' = acl self
    ∧ w_acls w' !! acl self = Some o' ∧ aentries o' = aentries o.
Proof.
  intros Hobj Hheap Hacl Hfuel.
  destruct (ACL_iter_spec _ _ _ _ _ Hobj Hheap Hacl) as (w0 & Hrun & Hheap0 & Hacls0 & Hfr0 & Herr0).
  unfold traverse. rewrite (bind_Some _ _ _ _ _ Hrun).
  destruct o as [l cur ser]. wsimpl.
  assert (Hat : iter_at w0 obj (acl self) l 0).
  { exists (rc + 1), ACL_FIRST_ENTRY, cur, ser. rewrite Hacls0. split_and!; try done. by left. }
  destruct (iterate_spec obj (acl self) l (length l) 0 w0 fuel Hat)
    as (ps & w' & Hrun' & Hviews & Hfresh & Hnd & Hfr & Hat' & Herr'); [lia..|].
  destruct Hat' as (rc' & eid' & cur' & ser' & _ & Hheap' & Hacl' & Hpos').
  exists ps, w', rc', (Mk_ACL (acl self) eid'), (Mk_acl l cur' ser'). rewrite drop_0 in Hviews.
  split_and!; try done.
  - intros p Hp. apply Hfresh in Hp. destruct (w_heap w !! p) eqn:Hwp; [|done].
    destruct (decide (p = obj)) as [->|Hne]; [congruence|].
    rewrite Hfr0 in Hp by eauto. congruence.
  - congruence.
Qed.

(** C3. A traversal of an ACL with N records produces N Entry views, one
    per record and in the order of the records, and then ends on a plain
    NULL without raising.  Whatever the cursor was before, [ACL_iter]
    puts it back to the start, so a traversal run right after the first
    produces views of the same records in the same order. *)
Theorem iteration_exhaustion (w : world) (obj rc : Z) (self : ACL_Object) (o : acl_obj)
    (fuel : nat) :
  obj ≠ NULL →
  w_heap w !! obj = Some (Mk_obj rc (Obj_ACL self)) →
  w_acls w !! acl self = Some o →
  (length (aentries o) < fuel)%nat →
  let views := (λ kr, Some (Mk_Entry obj (EREF (acl self) kr.1))) <$> aentries o in
  ∃ w0 ps w1 ps' w2,
    ACL_iter obj w = Some (Some (PyRef obj), w0)
    ∧ view_ACL w0 obj = Some (Mk_ACL (acl self) ACL_FIRST_ENTRY)
    ∧ traverse fuel obj w = Some ((ps, true), w1)
    ∧ length ps = length (aentries o)
    ∧ NoDup ps
    ∧ view_of w1 <$> ps = views
    ∧ w_err w1 = w_err w
    ∧ traverse fuel obj w1 = Some ((ps', true), w2)
    ∧ length ps' = length (aentries o)
    ∧ view_of w2 <$> ps' = views.
Proof.
  intros Hobj Hheap Hacl Hfuel views.
  destruct (ACL_iter_spec _ _ _ _ _ Hobj Hheap Hacl) as (w0 & Hiter & Hheap0 & _).
  destruct (traverse_spec _ _ _ _ _ _ Hobj Hheap Hacl Hfuel)
    as (ps & w1 & rc1 & self1 & o1 & Hrun1 & Hv1 & Hnd1 & _ & Herr1 & Hheap1 & Hself1 & Hacl1 & Hes1).
  rewrite <- Hself1 in Hacl1. rewrite <- Hes1 in Hfuel.
  destruct (traverse_spec _ _ _ _ _ _ Hobj Hheap1 Hacl1 Hfuel)
    as (ps' & w2 & rc2 & self2 & o2 & Hrun2 & Hv2 & _).
  rewrite Hself1, Hes1 in Hv2.
  exists w0, ps, w1, ps', w2. split_and!; try done.
  - unfold view_ACL. by rewrite Hheap0.
  - apply (f_equal length) in Hv1. by rewrite !length_fmap in Hv1.
  - apply (f_equal length) in Hv2. by rewrite !length_fmap in Hv2.
Qed.

(** ** Permission sets *)

Lemma alist_find_alter (f : acl_entry_obj → acl_entry_obj) (k : Z) l :
  alist_find k (alist_alter f k l) = f <$> alist_find k l.
Proof.
  induction l as [|[k' e] l IH]; simpl; [done|].
  destruct (decide (k' = k)) as [->|Hne]; simpl.
  - by rewrite decide_True.
  - by rewrite decide_False.
Qed.

Lemma entry_obj_p_alter (f : acl_entry_obj → acl_entry_obj) (e : acl_entry_t) (w : world) :
  entry_obj_p e (entry_alter f e w) = f <$> entry_obj_p e w.
Proof.
  destruct e as [|a k]; simpl; [done|].
  destruct (w_acls w !! a) as [o|] eqn:Ho; wsimpl.
  - rewrite lookup_insert_eq. wsimpl. apply alist_find_alter.
  - by rewrite Ho.
Qed.

Lemma entry_alter_heap f e w : w_heap (entry_alter f e w) = w_heap w.
Proof. destruct e as [|a k]; simpl; [done|]. by destruct (w_acls w !! a). Qed.

Lemma land_lor_same (a b : Z) : Z.land (Z.lor a b) b = b.
Proof.
  apply Z.bits_inj'. intros n Hn. rewrite Z.land_spec, Z.lor_spec.
  destruct (Z.testbit a n), (Z.testbit b n); done.
Qed.

Lemma land_lnot_same (a b : Z) : Z.land (Z.land a (Z.lnot b)) b = 0.
Proof.
  apply Z.bits_inj'. intros n Hn. rewrite !Z.land_spec, Z.lnot_spec, Z.bits_0 by done.
  destruct (Z.testbit a n), (Z.testbit b n); done.
Qed.

Lemma entry_obj_p_acls (e : acl_entry_t) (w1 w2 : world) :
  w_acls w1 = w_acls w2 → entry_obj_p e w1 = entry_obj_p e w2.
Proof. intros H. destruct e; simpl; [done|]. by rewrite H. Qed.

Lemma Permset_new_spec (w : world) :
  let p := fresh ({[NULL]} ∪ dom (w_heap w)) in
  Permset_new w
  = Some (p, set_heap (<[p := Mk_obj 1 (Obj_Permset (Mk_Permset NULL ENULL))]> (w_heap w)) w).
Proof.
  intros p. destruct (fresh_heap_spec (w_heap w)) as [Hp0 Hpn]. fold p in Hp0, Hpn.
  unfold Permset_new, PyType_GenericNew.
  assert (Ha : tp_alloc Permset_Type w
               = Some (p, set_heap (<[p := Mk_obj 1 (zeroed Permset_Type)]> (w_heap w)) w))
    by done.
  rewrite (bind_Some _ _ _ _ _ Ha). rewrite decide_True by done.
  erewrite bind_Some by (apply store_body_Some; [done | wsimpl; apply lookup_insert_eq]).
  wsimpl. by rewrite insert_insert_eq.
Qed.

Lemma acl_get_permset_Some (e : acl_entry_t) (r : acl_entry_obj) (w : world) :
  entry_obj_p e w = Some r →
  acl_get_permset e w = Some ((0, e), set_calls (w_calls w ++ [Call_get_permset e]) w).
Proof.
  intros Hrec. unfold acl_get_permset, call, get, modify, mbind, M_bind. wsimpl.
  by rewrite (entry_obj_p_acls e _ w), Hrec.
Qed.

Lemma Entry_get_permset_spec (w : world) (e rc : Z) (ent : Entry_Object) (r : acl_entry_obj) :
  e ≠ NULL →
  w_heap w !! e = Some (Mk_obj rc (Obj_Entry ent)) →
  entry_obj_p (entry ent) w = Some r →
  ∃ p w', Entry_get_permset e w = Some (Some (PyRef p), w')
          ∧ p ≠ NULL
          ∧ w_heap w !! p = None
          ∧ w_heap w' !! p = Some (Mk_obj 1 (Obj_Permset (Mk_Permset e (entry ent))))
          ∧ w_heap w' !! e = Some (Mk_obj (rc + 1) (Obj_Entry ent))
          ∧ frame e w w'
          ∧ w_acls w' = w_acls w.
Proof.
  intros He Hheap Hrec. unfold Entry_get_permset.
  rewrite (bind_Some _ _ _ _ _ (load_Entry_Some _ _ _ _ He Hheap)).
  rewrite (bind_Some _ _ _ _ _ (Permset_new_spec w)).
  set (p := fresh ({[NULL]} ∪ dom (w_heap w))).
  destruct (fresh_heap_spec (w_heap w)) as [Hp0 Hpn]. fold p in Hp0, Hpn.
  assert (Hpe : p ≠ e) by (intros ->; congruence).
  rewrite decide_False by done.
  erewrite bind_Some
    by (eapply acl_get_permset_Some; erewrite entry_obj_p_acls; [exact Hrec | done]).
  wsimpl. rewrite decide_False by done.
  erewrite bind_Some by (apply store_body_Some; [done | wsimpl; apply lookup_insert_eq]).
  wsimpl.
  erewrite bind_Some
    by (apply Py_INCREF_Some; [done | wsimpl; rewrite !lookup_insert_ne by done; exact Hheap]).
  wsimpl. eexists p, _. split; [reflexivity|]. wsimpl. split_and!; try done.
  - rewrite lookup_insert_ne by done. by rewrite lookup_insert_eq.
  - by rewrite lookup_insert_eq.
  - intros q Hq Hs. wsimpl.
    assert (q ≠ p) by (intros ->; rewrite Hpn in Hs; by destruct Hs).
    by rewrite !lookup_insert_ne by congruence.
Qed.

Lemma Permset_set_right_spec (w : world) (p rc : Z) (ps : Permset_Object)
    (r : acl_entry_obj) (right : Z) (on : bool) :
  p ≠ NULL →
  w_heap w !! p = Some (Mk_obj rc (Obj_Permset ps)) →
  entry_obj_p (permset ps) w = Some r →
  is_right right →
  ∃ w', Permset_set_right p (Some (Py_Bool on)) right w = Some (0, w')
        ∧ w_heap w' = w_heap w
        ∧ entry_obj_p (permset ps) w'
          = Some (Mk_entry (etag r) (eid r)
                    (if on then Z.lor (eperm r) right else Z.land (eperm r) (Z.lnot right))).
Proof.
  intros Hp Hheap Hrec Hright. unfold Permset_set_right.
  rewrite (bind_Some _ _ _ _ _ (load_Permset_Some _ _ _ _ Hp Hheap)).
  assert (Hint : to_int right = right) by (destruct Hright as [->|[->| ->]]; done).
  assert (Hok : Z.land right (Z.lnot all_perms) = 0) by (destruct Hright as [->|[->| ->]]; done).
  cbn [PyInt_Check negb PyInt_AsLong]. rewrite Hint.
  destruct on.
  - change (to_int 1) with 1. rewrite decide_True by done.
    unfold acl_add_perm, call, get, modify, mbind, M_bind. wsimpl.
    rewrite (entry_obj_p_acls _ _ w), Hrec by done.
    rewrite decide_True by done. cbn [mret M_ret]. rewrite decide_False by done.
    eexists. split; [reflexivity|]. split.
    + by rewrite entry_alter_heap.
    + by rewrite entry_obj_p_alter, (entry_obj_p_acls _ _ w), Hrec.
  - change (to_int 0) with 0. rewrite decide_False by (intros H; by apply H).
    unfold acl_delete_perm, call, get, modify, mbind, M_bind. wsimpl.
    rewrite (entry_obj_p_acls _ _ w), Hrec by done.
    rewrite decide_True by done. cbn [mret M_ret]. rewrite decide_False by done.
    eexists. split; [reflexivity|]. split.
    + by rewrite entry_alter_heap.
    + by rewrite entry_obj_p_alter, (entry_obj_p_acls _ _ w), Hrec.
Qed.

Lemma Permset_get_right_spec (w : world) (p rc : Z) (ps : Permset_Object)
    (r : acl_entry_obj) (right : Z) :
  p ≠ NULL →
  w_heap w !! p = Some (Mk_obj rc (Obj_Permset ps)) →
  entry_obj_p (permset ps) w = Some r →
  is_right right →
  eval (Permset_get_right p right) w
  = Some (Some (Py_Bool (bool_decide (Z.land (eperm r) right ≠ 0)))).
Proof.
  intros Hp Hheap Hrec Hright. unfold eval, Permset_get_right.
  rewrite (bind_Some _ _ _ _ _ (load_Permset_Some _ _ _ _ Hp Hheap)).
  assert (Hint : to_int right = right) by (destruct Hright as [->|[->| ->]]; done).
  rewrite Hint. unfold get_perm, call, get, modify, mbind, M_bind. wsimpl.
  rewrite (entry_obj_p_acls _ _ w), Hrec by done.
  cbn [mret M_ret].
  destruct (decide (Z.land (eperm r) right = 0)) as [Hz|Hz].
  - rewrite decide_False by (intros H; by apply H).
    rewrite bool_decide_eq_false_2 by (intros H; by apply H). done.
  - rewrite decide_True by done. rewrite bool_decide_eq_true_2 by done. done.
Qed.

(** C5. On an Entry with a live record, two calls of the Permset accessor
    return two different new objects bound to the same permission bits
    of that record; setting or clearing a right through either of them
    is what reading that right through either of them then returns. *)
Theorem permset_views_share (w : world) (e rc : Z) (ent : Entry_Object)
    (r : acl_entry_obj) (right : Z) (on : bool) :
  e ≠ NULL →
  w_heap w !! e = Some (Mk_obj rc (Obj_Entry ent)) →
  entry_obj_p (entry ent) w = Some r →
  is_right right →
  ∃ p1 p2 w1 w2,
    Entry_get_permset e w = Some (Some (PyRef p1), w1)
    ∧ Entry_get_permset e w1 = Some (Some (PyRef p2), w2)
    ∧ p1 ≠ p2
    ∧ w_heap w !! p1 = None
    ∧ w_heap w1 !! p2 = None
    ∧ w_heap w2 !! p1 = Some (Mk_obj 1 (Obj_Permset (Mk_Permset e (entry ent))))
    ∧ w_heap w2 !! p2 = Some (Mk_obj 1 (Obj_Permset (Mk_Permset e (entry ent))))
    ∧ ∀ pa pb, pa ∈ [p1; p2] → pb ∈ [p1; p2] →
        ∃ w3, Permset_set_right pa (Some (Py_Bool on)) right w2 = Some (0, w3)
              ∧ eval (Permset_get_right pb right) w3 = Some (Some (Py_Bool on)).
Proof.
  intros He Hheap Hrec Hright.
  destruct (Entry_get_permset_spec _ _ _ _ _ He Hheap Hrec)
    as (p1 & w1 & Hrun1 & Hp1 & Hnew1 & Hobj1 & Hheap1 & Hfr1 & Hacls1).
  assert (Hrec1 : entry_obj_p (entry ent) w1 = Some r)
    by (by rewrite (entry_obj_p_acls _ _ w)).
  destruct (Entry_get_permset_spec _ _ _ _ _ He Hheap1 Hrec1)
    as (p2 & w2 & Hrun2 & Hp2 & Hnew2 & Hobj2 & Hheap2 & Hfr2 & Hacls2).
  assert (Hrec2 : entry_obj_p (entry ent) w2 = Some r)
    by (by rewrite (entry_obj_p_acls _ _ w1)).
  assert (Hne : p1 ≠ p2) by (intros ->; congruence).
  assert (Hp1e : p1 ≠ e) by (intros ->; congruence).
  assert (Hobj1' : w_heap w2 !! p1 = Some (Mk_obj 1 (Obj_Permset (Mk_Permset e (entry ent)))))
    by (rewrite Hfr2; eauto).
  exists p1, p2, w1, w2. split_and!; try done.
  intros pa pb Hpa Hpb.
  assert (Ha : pa ≠ NULL
               ∧ w_heap w2 !! pa = Some (Mk_obj 1 (Obj_Permset (Mk_Permset e (entry ent))))).
  { apply elem_of_cons in Hpa as [->|Hpa]; [done|]. by apply list_elem_of_singleton in Hpa as ->. }
  assert (Hb : pb ≠ NULL
               ∧ w_heap w2 !! pb = Some (Mk_obj 1 (Obj_Permset (Mk_Permset e (entry ent))))).
  { apply elem_of_cons in Hpb as [->|Hpb]; [done|]. by apply list_elem_of_singleton in Hpb as ->. }
  destruct Ha as [Ha0 Ha], Hb as [Hb0 Hb].
  destruct (Permset_set_right_spec w2 pa 1 _ r right on Ha0 Ha Hrec2 Hright)
    as (w3 & Hset & Hheap3 & Hrec3).
  exists w3. split; [done|]. rewrite <- Hheap3 in Hb.
  rewrite (Permset_get_right_spec w3 pb 1 _ _ right Hb0 Hb Hrec3 Hright).
  do 3 f_equal. cbn [eperm]. destruct on.
  - rewrite land_lor_same. apply bool_decide_eq_true_2.
    destruct Hright as [->|[->| ->]]; done.
  - rewrite land_lnot_same. apply bool_decide_eq_false_2. intros H; by apply H.
Qed.

(** ** Export and import of the state *)

Lemma fresh_acls_spec (m : gmap Z acl_obj) :
  fresh ({[NULL]} ∪ dom m) ≠ NULL ∧ m !! fresh ({[NULL]} ∪ dom m) = None.
Proof.
  pose proof (is_fresh ({[NULL]} ∪ dom m)) as Hf. split.
  - set_solver.
  - apply not_elem_of_dom. set_solver.
Qed.

Lemma snd_number (es : list acl_entry_obj) : snd <$> number es = es.
Proof. unfold number. apply snd_zip. rewrite length_seqZ. lia. Qed.

Lemma acl_free_Some (p : Z) (o : acl_obj) (w : world) :
  w_acls w !! p = Some o →
  acl_free p w
  = Some (0, set_acls (delete p (w_acls w)) (set_calls (w_calls w ++ [Call_free p]) w)).
Proof. intros Ho. unfold acl_free, call, get, modify, mbind, M_bind. wsimpl. by rewrite Ho. Qed.

Lemma acl_free_None (p : Z) (w : world) :
  w_acls w !! p = None →
  acl_free p w = Some (-1, set_errno EINVAL (set_calls (w_calls w ++ [Call_free p]) w)).
Proof. intros Ho. unfold acl_free, call, get, modify, mbind, M_bind. wsimpl. by rewrite Ho. Qed.

Lemma substring_all_0 (s : string) : String.substring (String.length s) 0 s = EmptyString.
Proof. induction s as [|c s IH]; simpl; [reflexivity | exact IH]. Qed.

Lemma app_empty (s : string) : s +:+ EmptyString = s.
Proof.
  induction s as [|c s IH]; [reflexivity|].
  change (String c (s +:+ EmptyString) = String c s). by rewrite IH.
Qed.

Lemma length_blank_string (n : nat) : String.length (blank_string (Z.of_nat n)) = n.
Proof.
  unfold blank_string. rewrite Nat2Z.id.
  induction n; simpl; [done | by f_equal].
Qed.

Section Codec.

Variable env : backend_env.

Lemma ACL_get_state_spec (w : world) (obj rc : Z) (self : ACL_Object) (o : acl_obj) :
  obj ≠ NULL →
  w_heap w !! obj = Some (Mk_obj rc (Obj_ACL self)) →
  w_acls w !! acl self = Some o →
  ∃ w', ACL_get_state env obj w
        = Some (Some (PyString (env_copy_ext env (snd <$> aentries o))), w')
        ∧ w_heap w' = w_heap w ∧ w_acls w' = w_acls w ∧ w_err w' = w_err w.
Proof.
  intros Hobj Hheap Hacl. unfold ACL_get_state.
  rewrite (bind_Some _ _ _ _ _ (load_ACL_Some _ _ _ _ Hobj Hheap)).
  unfold acl_size, acl_copy_ext, call, get, modify, mbind, M_bind. wsimpl. rewrite Hacl.
  cbn [mret M_ret]. set (ext := env_copy_ext env (snd <$> aentries o)).
  destruct (decide (Z.of_nat (String.length ext) = -1)) as [?|_]; [lia|]. wsimpl.
  rewrite Hacl. fold ext.
  destruct (decide (Z.of_nat (String.length ext) ≤ Z.of_nat (String.length ext))) as [_|?];
    [|lia].
  cbn [mret M_ret]. destruct (decide (Z.of_nat (String.length ext) = -1)) as [?|_]; [lia|].
  rewrite length_blank_string, Nat.sub_diag.
  pose proof (substring_all_0 (blank_string (Z.of_nat (String.length ext)))) as Hsub.
  rewrite length_blank_string in Hsub. rewrite Hsub, app_empty.
  eexists. split; [reflexivity|]. done.
Qed.

Lemma ACL_str_spec (w : world) (obj rc : Z) (self : ACL_Object) (o : acl_obj) :
  obj ≠ NULL →
  w_heap w !! obj = Some (Mk_obj rc (Obj_ACL self)) →
  w_acls w !! acl self = Some o →
  eval (ACL_str env obj) w = Some (Some (PyString (env_to_text env (snd <$> aentries o)))).
Proof.
  intros Hobj Hheap Hacl. unfold eval, ACL_str.
  rewrite (bind_Some _ _ _ _ _ (load_ACL_Some _ _ _ _ Hobj Hheap)).
  unfold acl_to_text, acl_free_buf, call, get, modify, mbind, M_bind. wsimpl. rewrite Hacl.
  cbn [mret M_ret]. by rewrite decide_False by (intros H; by apply H).
Qed.

Lemma acl_copy_int_Some (buf : string) (es : list acl_entry_obj) (w : world) :
  env_copy_int env buf = Some es →
  let ptr := fresh ({[NULL]} ∪ dom (w_acls w)) in
  acl_copy_int env buf w
  = Some (ptr, set_acls (<[ptr := Mk_acl (number es) 0 (Z.of_nat (length es))]> (w_acls w))
                 (set_calls (w_calls w ++ [Call_copy_int buf]) w)).
Proof. intros Hint ptr. unfold acl_copy_int, call, modify, mbind, M_bind. by rewrite Hint. Qed.

Lemma acl_copy_int_None (buf : string) (w : world) :
  env_copy_int env buf = None →
  acl_copy_int env buf w
  = Some (NULL, set_errno EINVAL (set_calls (w_calls w ++ [Call_copy_int buf]) w)).
Proof. intros Hint. unfold acl_copy_int, call, modify, mbind, M_bind. by rewrite Hint. Qed.

Lemma ACL_set_state_Some (w : world) (obj rc : Z) (self : ACL_Object) (buf : string)
    (es : list acl_entry_obj) :
  obj ≠ NULL →
  w_heap w !! obj = Some (Mk_obj rc (Obj_ACL self)) →
  acl self = NULL ∨ is_Some (w_acls w !! acl self) →
  env_copy_int env buf = Some es →
  ∃ ptr w',
    ACL_set_state env obj [PyString buf] w = Some (Some Py_None, w')
    ∧ ptr ≠ NULL
    ∧ w_acls w !! ptr = None
    ∧ w_heap w' = <[obj := Mk_obj rc (Obj_ACL (Mk_ACL ptr (entry_id self)))]> (w_heap w)
    ∧ w_acls w'
      = (if decide (acl self = NULL) then id else delete (acl self))
          (<[ptr := Mk_acl (number es) 0 (Z.of_nat (length es))]> (w_acls w))
    ∧ w_calls w'
      = w_calls w ++ Call_copy_int buf
                     :: (if decide (acl self = NULL) then [] else [Call_free (acl self)])
    ∧ w_err w' = w_err w.
Proof.
  intros Hobj Hheap Hprior Hint. unfold ACL_set_state.
  rewrite (bind_Some _ _ _ _ _ (acl_copy_int_Some _ _ _ Hint)).
  set (ptr := fresh ({[NULL]} ∪ dom (w_acls w))).
  destruct (fresh_acls_spec (w_acls w)) as [Hp0 Hpn]. fold ptr in Hp0, Hpn.
  destruct (decide (ptr = NULL)) as [?|_]; [done|].
  erewrite bind_Some by (eapply load_ACL_Some; [done | wsimpl; exact Hheap]).
  destruct (decide (acl self = NULL)) as [Hnull|Hnull].
  - destruct (decide (acl self ≠ NULL)) as [?|_]; [done|].
    unfold mbind at 1, M_bind at 1. cbn [mret M_ret].
    destruct (decide (0 = -1)) as [?|_]; [done|].
    erewrite bind_Some by (apply store_body_Some; [done | wsimpl; exact Hheap]).
    eexists ptr, _. split; [reflexivity|]. wsimpl. done.
  - destruct (decide (acl self ≠ NULL)) as [_|?]; [|done].
    destruct Hprior as [?|[o Ho]]; [done|].
    assert (Hne : ptr ≠ acl self) by (intros Heq; rewrite Heq in Hpn; congruence).
    erewrite bind_Some
      by (eapply acl_free_Some; wsimpl; rewrite lookup_insert_ne by done; exact Ho).
    destruct (decide (0 = -1)) as [?|_]; [done|].
    erewrite bind_Some by (apply store_body_Some; [done | wsimpl; exact Hheap]).
    eexists ptr, _. split; [reflexivity|]. wsimpl. split_and!; try done.
    by rewrite <- app_assoc.
Qed.

Lemma ACL_set_state_None (w : world) (obj : Z) (buf : string) :
  env_copy_int env buf = None →
  ACL_set_state env obj [PyString buf] w
  = Some (None, set_err (Some (Mk_exc PyExc_IOError (Errno EINVAL)))
                  (set_errno EINVAL (set_calls (w_calls w ++ [Call_copy_int buf]) w))).
Proof.
  intros Hint. unfold ACL_set_state.
  rewrite (bind_Some _ _ _ _ _ (acl_copy_int_None _ _ Hint)).
  by destruct (decide (NULL = NULL)) as [_|?].
Qed.

Lemma holds_live_spec (w : world) (obj rc h : Z) (a : ACL_Object) :
  w_heap w !! obj = Some (Mk_obj rc (Obj_ACL a)) →
  holds_live w obj h ↔ acl a = h ∧ h ≠ NULL ∧ is_Some (w_acls w !! h).
Proof.
  intros Hheap. unfold holds_live, view_ACL. rewrite Hheap. split.
  - by intros (a' & [= <-] & ?).
  - intros ?. by exists a.
Qed.

(** The three steps of [ACL_set_state] on a buffer the library accepts. *)
Lemma ACL_set_state_steps (w : world) (obj rc : Z) (self : ACL_Object) (buf : string)
    (es : list acl_entry_obj) :
  obj ≠ NULL →
  w_heap w !! obj = Some (Mk_obj rc (Obj_ACL self)) →
  acl self = NULL ∨ is_Some (w_acls w !! acl self) →
  env_copy_int env buf = Some es →
  ∃ ptr w1 w2 w',
    ACL_set_state env obj [PyString buf] w = Some (Some Py_None, w')
    ∧ ptr ≠ NULL
    ∧ w_acls w !! ptr = None
    ∧ acl_copy_int env buf w = Some (ptr, w1)
    ∧ (if decide (acl self = NULL) then w2 = w1 else acl_free (acl self) w1 = Some (0, w2))
    ∧ store_body obj (Obj_ACL (Mk_ACL ptr (entry_id self))) w2 = Some (tt, w')
    ∧ w_heap w1 = w_heap w
    ∧ w_acls w1 = <[ptr := Mk_acl (number es) 0 (Z.of_nat (length es))]> (w_acls w)
    ∧ w_heap w2 = w_heap w
    ∧ w_acls w2
      = (if decide (acl self = NULL) then id else delete (acl self))
          (<[ptr := Mk_acl (number es) 0 (Z.of_nat (length es))]> (w_acls w))
    ∧ w_heap w' = <[obj := Mk_obj rc (Obj_ACL (Mk_ACL ptr (entry_id self)))]> (w_heap w)
    ∧ w_acls w' = w_acls w2
    ∧ w_calls w'
      = w_calls w ++ Call_copy_int buf
                     :: (if decide (acl self = NULL) then [] else [Call_free (acl self)]).
Proof.
  intros Hobj Hheap Hprior Hint. unfold ACL_set_state.
  pose proof (acl_copy_int_Some _ _ w Hint) as Hcopy. cbv zeta in Hcopy.
  rewrite (bind_Some _ _ _ _ _ Hcopy).
  set (ptr := fresh ({[NULL]} ∪ dom (w_acls w))) in *.
  destruct (fresh_acls_spec (w_acls w)) as [Hp0 Hpn]. fold ptr in Hp0, Hpn.
  destruct (decide (ptr = NULL)) as [?|_]; [done|].
  erewrite bind_Some by (eapply load_ACL_Some; [done | wsimpl; exact Hheap]).
  destruct (decide (acl self = NULL)) as [Hnull|Hnull].
  - destruct (decide (acl self ≠ NULL)) as [?|_]; [done|].
    unfold mbind at 1, M_bind at 1. cbn [mret M_ret].
    destruct (decide (0 = -1)) as [?|_]; [done|].
    pose proof (store_body_Some obj (Obj_ACL (Mk_ACL ptr (entry_id self))) _
                  (set_acls (<[ptr := Mk_acl (number es) 0 (Z.of_nat (length es))]> (w_acls w))
                     (set_calls (w_calls w ++ [Call_copy_int buf]) w)) Hobj Hheap) as Hstore.
    rewrite (bind_Some _ _ _ _ _ Hstore).
    eexists ptr, _, _, _. split; [reflexivity|].
    split_and!; [done | done | exact Hcopy | reflexivity | exact Hstore | done..].
  - destruct (decide (acl self ≠ NULL)) as [_|?]; [|done].
    destruct Hprior as [?|[o Ho]]; [done|].
    assert (Hne : ptr ≠ acl self) by (intros Heq; rewrite Heq in Hpn; congruence).
    pose proof (acl_free_Some (acl self) o
                  (set_acls (<[ptr := Mk_acl (number es) 0 (Z.of_nat (length es))]> (w_acls w))
                     (set_calls (w_calls w ++ [Call_copy_int buf]) w))) as Hfree.
    wsimpl. rewrite lookup_insert_ne in Hfree by done. specialize (Hfree Ho).
    rewrite (bind_Some _ _ _ _ _ Hfree).
    destruct (decide (0 = -1)) as [?|_]; [done|].
    match type of Hfree with _ = Some (_, ?w2) =>
      pose proof (store_body_Some obj (Obj_ACL (Mk_ACL ptr (entry_id self))) _ w2
                    Hobj Hheap) as Hstore
    end.
    rewrite (bind_Some _ _ _ _ _ Hstore).
    eexists ptr, _, _, _. split; [reflexivity|].
    split_and!; [done | done | exact Hcopy | exact Hfree | exact Hstore | try done..].
    wsimpl. by rewrite <- app_assoc.
Qed.

(** C7. [ACL_set_state] takes three steps, in this order: the library
    reconstructs an ACL from the buffer, the prior handle is released,
    and the reconstructed handle is stored in the object.  On an ACL
    that holds no handle or a live one and with a buffer the library
    accepts, the library's memory afterwards holds the new ACL in place
    of the prior one and every other ACL as before; after the first step
    the object still holds what it held, after the second it holds no
    live handle, after the third it holds the new one and nothing else,
    so that it holds at most one live handle throughout.  With a buffer
    the library rejects, the call fails with an IOError carrying errno
    (a BackendError) and changes neither the object nor the library's
    memory.  The store comes after the release: when the release fails
    (the prior handle is not live) the call fails with a BackendError,
    and the object still holds the prior handle, not the reconstructed
    one. *)
Theorem ImportState_replaces_handle (w : world) (obj rc : Z) (self : ACL_Object)
    (buf : string) :
  obj ≠ NULL →
  w_heap w !! obj = Some (Mk_obj rc (Obj_ACL self)) →
  (acl self = NULL ∨ is_Some (w_acls w !! acl self) →
   match env_copy_int env buf with
   | Some es =>
       ∃ ptr w1 w2 w',
         ACL_set_state env obj [PyString buf] w = Some (Some Py_None, w')
         ∧ ptr ≠ NULL
         ∧ w_acls w !! ptr = None
         ∧ view_ACL w' obj = Some (Mk_ACL ptr (entry_id self))
         ∧ w_acls w'
           = (if decide (acl self = NULL) then id else delete (acl self))
               (<[ptr := Mk_acl (number es) 0 (Z.of_nat (length es))]> (w_acls w))
         ∧ w_calls w'
           = w_calls w ++ Call_copy_int buf
                          :: (if decide (acl self = NULL) then [] else [Call_free (acl self)])
         ∧ acl_copy_int env buf w = Some (ptr, w1)
         ∧ (if decide (acl self = NULL) then w2 = w1
            else acl_free (acl self) w1 = Some (0, w2))
         ∧ store_body obj (Obj_ACL (Mk_ACL ptr (entry_id self))) w2 = Some (tt, w')
         ∧ (∀ h, holds_live w1 obj h ↔ holds_live w obj h)
         ∧ is_Some (w_acls w1 !! ptr)
         ∧ ¬ holds_live w1 obj ptr
         ∧ (∀ h, ¬ holds_live w2 obj h)
         ∧ is_Some (w_acls w2 !! ptr)
         ∧ (∀ h, holds_live w' obj h ↔ h = ptr)
   | None =>
       ∃ w' x,
         ACL_set_state env obj [PyString buf] w = Some (None, w')
         ∧ w_err w' = Some x
         ∧ kind_of (exc_ty x) = BackendError
         ∧ w_heap w' = w_heap w
         ∧ w_acls w' = w_acls w
   end)
  ∧ (acl self ≠ NULL →
     w_acls w !! acl self = None →
     fresh ({[NULL]} ∪ dom (w_acls w)) ≠ acl self →
     ∀ es, env_copy_int env buf = Some es →
     ∃ ptr w' x,
       ACL_set_state env obj [PyString buf] w = Some (None, w')
       ∧ w_err w' = Some x
       ∧ kind_of (exc_ty x) = BackendError
       ∧ w_heap w' = w_heap w
       ∧ view_ACL w' obj = Some self
       ∧ ptr ≠ acl self
       ∧ w_acls w' = <[ptr := Mk_acl (number es) 0 (Z.of_nat (length es))]> (w_acls w)
       ∧ w_calls w' = w_calls w ++ [Call_copy_int buf; Call_free (acl self)]).
Proof.
  intros Hobj Hheap. split.
  - intros Hprior. destruct (env_copy_int env buf) as [es|] eqn:Hint.
    + destruct (ACL_set_state_steps _ _ _ _ _ _ Hobj Hheap Hprior Hint)
        as (ptr & w1 & w2 & w' & Hrun & Hp0 & Hpn & Hcopy & Hfree & Hstore
            & Hh1 & Ha1 & Hh2 & Ha2 & Hh' & Ha' & Hcalls').
      assert (Hne : acl self ≠ NULL → ptr ≠ acl self).
      { intros Hn Heq. destruct Hprior as [?|[o Ho]]; [done|]. rewrite Heq in Hpn. congruence. }
      assert (Hlive2 : is_Some (w_acls w2 !! ptr)).
      { rewrite Ha2. destruct (decide (acl self = NULL)); simpl.
        - by rewrite lookup_insert_eq.
        - rewrite lookup_delete_ne by (intros Heq; by apply Hne). by rewrite lookup_insert_eq. }
      exists ptr, w1, w2, w'. split_and!; try done.
      * unfold view_ACL. by rewrite Hh', lookup_insert_eq.
      * by rewrite Ha', Ha2.
      * intros h. rewrite (holds_live_spec w1 obj rc h self) by (by rewrite Hh1).
        rewrite (holds_live_spec w obj rc h self) by done. rewrite Ha1.
        split; intros (Hh & Hn & Hl); split_and!; try done; subst h.
        -- rewrite lookup_insert_ne in Hl by (by apply Hne). done.
        -- rewrite lookup_insert_ne by (by apply Hne). done.
      * rewrite Ha1. by rewrite lookup_insert_eq.
      * rewrite (holds_live_spec w1 obj rc ptr self) by (by rewrite Hh1).
        intros (Hh & Hn & _). apply (Hne ltac:(congruence)). done.
      * intros h. rewrite (holds_live_spec w2 obj rc h self) by (by rewrite Hh2).
        intros (Hh & Hn & Hl). subst h. rewrite Ha2 in Hl.
        destruct (decide (acl self = NULL)); [done|].
        rewrite lookup_delete_eq in Hl. by destruct Hl.
      * intros h.
        rewrite (holds_live_spec w' obj rc h (Mk_ACL ptr (entry_id self)))
          by (by rewrite Hh', lookup_insert_eq).
        wsimpl. rewrite Ha'. split; [by intros (-> & _)|].
        intros ->. done.
    + eexists _, _. split; [by apply ACL_set_state_None|]. done.
  - intros Hnull Hstale Hfresh es Hint. unfold ACL_set_state.
    pose proof (acl_copy_int_Some _ _ w Hint) as Hcopy. cbv zeta in Hcopy.
    rewrite (bind_Some _ _ _ _ _ Hcopy).
    set (ptr := fresh ({[NULL]} ∪ dom (w_acls w))) in *.
    destruct (fresh_acls_spec (w_acls w)) as [Hp0 Hpn]. fold ptr in Hp0, Hpn.
    destruct (decide (ptr = NULL)) as [?|_]; [done|].
    erewrite bind_Some by (eapply load_ACL_Some; [done | wsimpl; exact Hheap]).
    destruct (decide (acl self ≠ NULL)) as [_|?]; [|done].
    erewrite bind_Some
      by (apply acl_free_None; wsimpl; rewrite lookup_insert_ne by done; exact Hstale).
    destruct (decide (-1 = -1)) as [_|?]; [|done].
    eexists ptr, _, _. split; [reflexivity|]. wsimpl. split_and!; try done.
    + unfold view_ACL. wsimpl. by rewrite Hheap.
    + by rewrite <- app_assoc.
Qed.

(** C1. When the external format round-trips the records of a valid ACL
    up to their text (the contract of the library's codec), the state
    exported from that ACL and imported into any ACL object that holds
    no handle or a live one gives that object the text the exporting ACL
    had. *)
Theorem state_round_trip (w : world) (a b rca rcb : Z) (selfa selfb : ACL_Object)
    (o : acl_obj) :
  a ≠ NULL → b ≠ NULL →
  w_heap w !! a = Some (Mk_obj rca (Obj_ACL selfa)) →
  w_heap w !! b = Some (Mk_obj rcb (Obj_ACL selfb)) →
  w_acls w !! acl selfa = Some o →
  acl selfb = NULL ∨ is_Some (w_acls w !! acl selfb) →
  ValidationEngine (snd <$> aentries o) →
  (ValidationEngine (snd <$> aentries o) → round_trips env (snd <$> aentries o)) →
  ∃ st w1 w2 text,
    ACL_get_state env a w = Some (Some (PyString st), w1)
    ∧ ACL_set_state env b [PyString st] w1 = Some (Some Py_None, w2)
    ∧ eval (ACL_str env a) w = Some (Some (PyString text))
    ∧ eval (ACL_str env b) w2 = Some (Some (PyString text)).
Proof.
  intros Ha Hb Hheapa Hheapb Hacl Hprior Hvalid Hcodec.
  destruct (Hcodec Hvalid) as (es' & Hint & Htext).
  destruct (ACL_get_state_spec _ _ _ _ _ Ha Hheapa Hacl) as (w1 & Hget & Hh1 & Ha1 & _).
  rewrite <- Hh1 in Hheapb. rewrite <- Ha1 in Hprior.
  destruct (ACL_set_state_Some _ _ _ _ _ _ Hb Hheapb Hprior Hint)
    as (ptr & w2 & Hset & Hp0 & Hpn & Hheap2 & Hacls2 & _).
  eexists _, w1, w2, _. split_and!; [done | done | by eapply ACL_str_spec |].
  assert (Hnew : w_acls w2 !! ptr = Some (Mk_acl (number es') 0 (Z.of_nat (length es')))).
  { rewrite Hacls2. destruct (decide (acl selfb = NULL)); simpl.
    - by rewrite lookup_insert_eq.
    - destruct Hprior as [?|[o' Ho']]; [done|].
      rewrite lookup_delete_ne by congruence. by rewrite lookup_insert_eq. }
  erewrite ACL_str_spec; [| done | by rewrite Hheap2, lookup_insert_eq | exact Hnew].
  wsimpl. by rewrite snd_number, Htext.
Qed.

End Codec.

(** ** Construction *)

Section Construct.

Variable env : backend_env.

Lemma parse_init_file (w : world) (f : string) :
  has_nul f = false →
  parse_init (Some [("file", PyString f)]) no_args w
  = Some (Some (Mk_init_args (Some f) (-1) None NULL None), w).
Proof. intros Hnul. unfold parse_init, get, mbind, M_bind; simpl. by rewrite Hnul. Qed.

Lemma parse_init_text (w : world) (t : string) :
  has_nul t = false →
  parse_init (Some [("text", PyString t)]) no_args w
  = Some (Some (Mk_init_args None (-1) (Some t) NULL None), w).
Proof. intros Hnul. unfold parse_init, get, mbind, M_bind; simpl. by rewrite Hnul. Qed.

Lemma parse_init_filedef (w : world) (f : string) :
  has_nul f = false →
  parse_init (Some [("filedef", PyString f)]) no_args w
  = Some (Some (Mk_init_args None (-1) None NULL (Some f)), w).
Proof. intros Hnul. unfold parse_init, get, mbind, M_bind; simpl. by rewrite Hnul. Qed.

Lemma parse_init_fd (w : world) (n : Z) :
  -2147483648 ≤ n ≤ 2147483647 →
  parse_init (Some [("fd", PyInt n)]) no_args w
  = Some (Some (Mk_init_args None n None NULL None), w).
Proof.
  intros Hrange. unfold parse_init, get, mbind, M_bind; simpl.
  unfold convert_i. cbn [PyInt_Check PyInt_AsLong]. by rewrite decide_True by done.
Qed.

Lemma parse_init_acl (w : world) (p rc : Z) (src : ACL_Object) :
  w_heap w !! p = Some (Mk_obj rc (Obj_ACL src)) →
  parse_init (Some [("acl", PyRef p)]) no_args w
  = Some (Some (Mk_init_args None (-1) None p None), w).
Proof. intros Hheap. unfold parse_init, get, mbind, M_bind; simpl. by rewrite Hheap. Qed.

Lemma parse_init_none (w : world) :
  parse_init (Some []) no_args w = Some (Some no_args, w).
Proof. done. Qed.

Lemma acl_dup_None (p : Z) (w : world) :
  w_acls w !! p = None →
  acl_dup p w = acquire (Acq_fail EINVAL) (set_calls (w_calls w ++ [Call_dup p]) w).
Proof. intros Hp. unfold acl_dup, call, get, modify, mbind, M_bind. wsimpl. by rewrite Hp. Qed.

Lemma acl_dup_Some (p : Z) (o : acl_obj) (w : world) :
  w_acls w !! p = Some o →
  acl_dup p w = acquire (Acq_ok (snd <$> aentries o)) (set_calls (w_calls w ++ [Call_dup p]) w).
Proof. intros Hp. unfold acl_dup, call, get, modify, mbind, M_bind. wsimpl. by rewrite Hp. Qed.

(** C9. Re-running the constructor on an ACL that holds a live handle,
    with keyword arguments that parse: the old handle is released before
    the acquiring call is made.  When the library delivers, the object
    gets the new handle.  When it does not, the call fails with an
    IOError carrying errno (a BackendError) and the object is left with
    a NULL handle; the prior ACL is gone from the library's memory and
    is not restored. *)
Theorem Construct_not_atomic (w : world) (obj rc : Z) (self : ACL_Object) (o : acl_obj)
    (kw : list (string * PyObject)) (c : backend_call) (r : acquired) :
  obj ≠ NULL →
  w_heap w !! obj = Some (Mk_obj rc (Obj_ACL self)) →
  acl self ≠ NULL →
  w_acls w !! acl self = Some o →
  init_source env w obj self kw c r →
  ∃ ret w',
    ACL_init env obj [] (Some kw) w = Some (ret, w')
    ∧ w_calls w' = w_calls w ++ [Call_free (acl self); c]
    ∧ match r with
      | Acq_fail e =>
          ret = -1
          ∧ w_err w' = Some (Mk_exc PyExc_IOError (Errno e))
          ∧ kind_of PyExc_IOError = BackendError
          ∧ view_ACL w' obj = Some (Mk_ACL NULL (entry_id self))
          ∧ w_acls w' = delete (acl self) (w_acls w)
      | Acq_ok es =>
          ret = 0
          ∧ w_err w' = w_err w
          ∧ ∃ p, p ≠ NULL
                 ∧ delete (acl self) (w_acls w) !! p = None
                 ∧ view_ACL w' obj = Some (Mk_ACL p (entry_id self))
                 ∧ w_acls w' = <[p := Mk_acl (number es) 0 (Z.of_nat (length es))]>
                                 (delete (acl self) (w_acls w))
      end.
Proof.
  intros Hobj Hheap Hold Hacl Hsrc.
  unfold ACL_init.
  assert (Hlen : bool_decide (length (@nil PyObject) ≠ 0%nat)
                 || bool_decide (1 < length kw)%nat = false).
  { destruct Hsrc; done. }
  rewrite Hlen. fold no_args.
  set (w1 := set_acls (delete (acl self) (w_acls w))
               (set_calls (w_calls w ++ [Call_free (acl self)]) w)).
  assert (Hrelease : (if decide (acl self ≠ NULL)
                      then _ ← acl_free (acl self); skip else skip) w = Some (tt, w1)).
  { destruct (decide (acl self ≠ NULL)) as [_|?]; [|done].
    unfold mbind, M_bind. by rewrite (acl_free_Some _ _ _ Hacl). }
  set (rest := λ p : Z,
         _ ← store_body obj (Obj_ACL (Mk_ACL p (entry_id self)));
         if decide (p = NULL)
         then _ ← PyErr_SetFromErrno PyExc_IOError; mret (-1)
         else mret 0).
  assert (Hfin : ∀ (m : M Z),
            m w1 = acquire r (set_calls (w_calls w1 ++ [c]) w1) →
            ∃ ret w', (m ≫= rest) w1 = Some (ret, w')
              ∧ w_calls w' = w_calls w ++ [Call_free (acl self); c]
              ∧ match r with
                | Acq_fail e =>
                    ret = -1
                    ∧ w_err w' = Some (Mk_exc PyExc_IOError (Errno e))
                    ∧ kind_of PyExc_IOError = BackendError
                    ∧ view_ACL w' obj = Some (Mk_ACL NULL (entry_id self))
                    ∧ w_acls w' = delete (acl self) (w_acls w)
                | Acq_ok es =>
                    ret = 0
                    ∧ w_err w' = w_err w
                    ∧ ∃ p, p ≠ NULL
                           ∧ delete (acl self) (w_acls w) !! p = None
                           ∧ view_ACL w' obj = Some (Mk_ACL p (entry_id self))
                           ∧ w_acls w' = <[p := Mk_acl (number es) 0 (Z.of_nat (length es))]>
                                           (delete (acl self) (w_acls w))
                end).
  { intros m Hm. destruct r as [e|es]; unfold rest.
    - rewrite (bind_Some _ _ _ _ _ Hm).
      erewrite bind_Some by (apply store_body_Some; [done | subst w1; wsimpl; exact Hheap]).
      destruct (decide (NULL = NULL)) as [_|?]; [|done].
      eexists _, _. split; [reflexivity|]. subst w1. wsimpl. split_and!; try done.
      + by rewrite <- app_assoc.
      + unfold view_ACL. wsimpl. by rewrite lookup_insert_eq.
    - unfold acquire, new_acl in Hm. rewrite (bind_Some _ _ _ _ _ Hm).
      destruct (fresh_acls_spec (delete (acl self) (w_acls w))) as [Hp0 Hpn].
      erewrite bind_Some by (apply store_body_Some; [done | subst w1; wsimpl; exact Hheap]).
      subst w1. wsimpl.
      destruct (decide (fresh ({[NULL]} ∪ dom (delete (acl self) (w_acls w))) = NULL))
        as [?|_]; [done|].
      eexists _, _. split; [reflexivity|]. wsimpl. split_and!; try done.
      + by rewrite <- app_assoc.
      + eexists. split_and!; [exact Hp0 | exact Hpn | | reflexivity].
        unfold view_ACL. wsimpl. by rewrite lookup_insert_eq. }
  destruct Hsrc as [f Hnul|t Hnul|n Hrange Hn|f Hnul|p rc' src Hp Hheapp Hdead
                   |p rc' src o' Hp Hheapp Hne Hlive|].
  - rewrite (bind_Some _ _ _ _ _ (parse_init_file _ _ Hnul)).
    rewrite (bind_Some _ _ _ _ _ (load_ACL_Some _ _ _ _ Hobj Hheap)).
    rewrite (bind_Some _ _ _ _ _ Hrelease). cbn [a_file a_text a_filedef a_fd a_thesrc].
    by apply Hfin.
  - rewrite (bind_Some _ _ _ _ _ (parse_init_text _ _ Hnul)).
    rewrite (bind_Some _ _ _ _ _ (load_ACL_Some _ _ _ _ Hobj Hheap)).
    rewrite (bind_Some _ _ _ _ _ Hrelease). cbn [a_file a_text a_filedef a_fd a_thesrc].
    by apply Hfin.
  - rewrite (bind_Some _ _ _ _ _ (parse_init_fd _ _ Hrange)).
    rewrite (bind_Some _ _ _ _ _ (load_ACL_Some _ _ _ _ Hobj Hheap)).
    rewrite (bind_Some _ _ _ _ _ Hrelease). cbn [a_file a_text a_filedef a_fd a_thesrc].
    destruct (decide (n ≠ -1)) as [_|?]; [|done].
    by apply Hfin.
  - rewrite (bind_Some _ _ _ _ _ (parse_init_filedef _ _ Hnul)).
    rewrite (bind_Some _ _ _ _ _ (load_ACL_Some _ _ _ _ Hobj Hheap)).
    rewrite (bind_Some _ _ _ _ _ Hrelease). cbn [a_file a_text a_filedef a_fd a_thesrc].
    destruct (decide (-1 ≠ -1)) as [?|_]; [done|].
    destruct (decide (NULL ≠ NULL)) as [?|_]; [done|].
    by apply Hfin.
  - rewrite (bind_Some _ _ _ _ _ (parse_init_acl _ _ _ _ Hheapp)).
    rewrite (bind_Some _ _ _ _ _ (load_ACL_Some _ _ _ _ Hobj Hheap)).
    rewrite (bind_Some _ _ _ _ _ Hrelease). cbn [a_file a_text a_filedef a_fd a_thesrc].
    destruct (decide (-1 ≠ -1)) as [?|_]; [done|].
    destruct (decide (p ≠ NULL)) as [_|?]; [|done].
    apply Hfin.
    assert (Hheapp1 : w_heap w1 !! p = Some (Mk_obj rc' (Obj_ACL src))) by done.
    rewrite (bind_Some _ _ _ _ _ (load_ACL_Some _ _ _ _ Hp Hheapp1)).
    apply acl_dup_None. subst w1. wsimpl.
    destruct Hdead as [->|Hdead].
    + apply lookup_delete_eq.
    + rewrite lookup_delete_None. by right.
  - rewrite (bind_Some _ _ _ _ _ (parse_init_acl _ _ _ _ Hheapp)).
    rewrite (bind_Some _ _ _ _ _ (load_ACL_Some _ _ _ _ Hobj Hheap)).
    rewrite (bind_Some _ _ _ _ _ Hrelease). cbn [a_file a_text a_filedef a_fd a_thesrc].
    destruct (decide (-1 ≠ -1)) as [?|_]; [done|].
    destruct (decide (p ≠ NULL)) as [_|?]; [|done].
    apply Hfin.
    assert (Hheapp1 : w_heap w1 !! p = Some (Mk_obj rc' (Obj_ACL src))) by done.
    rewrite (bind_Some _ _ _ _ _ (load_ACL_Some _ _ _ _ Hp Hheapp1)).
    apply acl_dup_Some. subst w1. wsimpl. by rewrite lookup_delete_ne.
  - rewrite (bind_Some _ _ _ _ _ (parse_init_none _)).
    rewrite (bind_Some _ _ _ _ _ (load_ACL_Some _ _ _ _ Hobj Hheap)).
    rewrite (bind_Some _ _ _ _ _ Hrelease). cbn [a_file a_text a_filedef a_fd a_thesrc no_args].
    destruct (decide (-1 ≠ -1)) as [?|_]; [done|].
    destruct (decide (NULL ≠ NULL)) as [?|_]; [done|].
    by apply Hfin.
Qed.

End Construct.

(** ** Destruction *)

Lemma ACL_dealloc_spec (w : world) (obj rc : Z) (self : ACL_Object) :
  obj ≠ NULL →
  w_heap w !! obj = Some (Mk_obj rc (Obj_ACL self)) →
  ∃ w', ACL_dealloc obj w = Some (tt, w')
        ∧ w_err w' = w_err w
        ∧ w_heap w' = delete obj (w_heap w)
        ∧ w_acls w' = (if decide (acl self = NULL) then w_acls w
                       else delete (acl self) (w_acls w))
        ∧ w_stderr w' = w_stderr w ++ (if release_fails w self then [(None, obj)] else []).
Proof.
  intros Hobj Hheap. unfold ACL_dealloc, release_fails.
  rewrite (bind_Some _ _ _ _ _ (load_ACL_Some _ _ _ _ Hobj Hheap)).
  unfold PyErr_Occurred, PyErr_Fetch, PyErr_Restore, PyErr_WriteUnraisable, PyErr_Fetch,
    PyObject_DEL, no_error, skip, get, modify.
  destruct (decide (acl self = NULL)) as [Hnull|Hnull].
  - destruct (decide (acl self ≠ NULL)) as [?|_]; [done|].
    rewrite bool_decide_eq_false_2 by tauto.
    destruct (w_err w) as [x|] eqn:Herr; unfold mbind, M_bind, mret, M_ret; wsimpl; rewrite Herr; wsimpl;
      (eexists; split; [reflexivity|]); wsimpl; by rewrite ?app_nil_r.
  - destruct (decide (acl self ≠ NULL)) as [_|?]; [|done].
    destruct (w_acls w !! acl self) as [o|] eqn:Hacl.
    + rewrite bool_decide_eq_false_2 by (intros [_ ?]; done).
      destruct (w_err w) as [x|] eqn:Herr; unfold mbind, M_bind, mret, M_ret; wsimpl; rewrite Herr; wsimpl.
      * erewrite acl_free_Some by (wsimpl; exact Hacl). wsimpl.
        destruct (decide (0 ≠ 0)) as [?|_]; [done|].
        eexists; split; [reflexivity|]. wsimpl. by rewrite ?app_nil_r.
      * erewrite acl_free_Some by (wsimpl; exact Hacl). wsimpl.
        destruct (decide (0 ≠ 0)) as [?|_]; [done|].
        eexists; split; [reflexivity|]. wsimpl. by rewrite ?app_nil_r.
    + rewrite bool_decide_eq_true_2 by done.
      destruct (w_err w) as [x|] eqn:Herr; unfold mbind, M_bind, mret, M_ret; wsimpl; rewrite Herr; wsimpl.
      * erewrite acl_free_None by (wsimpl; exact Hacl). wsimpl.
        destruct (decide (-1 ≠ 0)) as [_|Hn]; [|by destruct Hn].
        eexists; split; [reflexivity|]. wsimpl. by rewrite (delete_id _ _ Hacl).
      * erewrite acl_free_None by (wsimpl; exact Hacl). wsimpl.
        destruct (decide (-1 ≠ 0)) as [_|Hn]; [|by destruct Hn].
        eexists; split; [reflexivity|]. wsimpl. by rewrite Herr, (delete_id _ _ Hacl).
Qed.

Lemma Py_DECREF_last (tp_dealloc : Z → M unit) (p : Z) (body : pybody) (w : world) :
  p ≠ NULL →
  w_heap w !! p = Some (Mk_obj 1 body) →
  Py_DECREF tp_dealloc p w
  = tp_dealloc p (set_heap (<[p := Mk_obj 0 body]> (w_heap w)) w).
Proof.
  intros Hp Hheap. unfold Py_DECREF.
  rewrite (bind_Some _ _ _ _ _ (load_Some _ _ _ Hp Hheap)). wsimpl.
  unfold store, modify, mbind, M_bind. by destruct (decide (1 - 1 = 0)).
Qed.

(** The frame every destructor puts around its body: a pending error is
    taken out of the indicator for the body and put back after it. *)
Lemma guarded_run (body k : M unit) (w : world) :
  (have_error ← PyErr_Occurred;
   saved ← (if (have_error : bool) then PyErr_Fetch else no_error);
   _ ← body;
   _ ← (if (have_error : bool) then PyErr_Restore saved else skip);
   k) w
  = match w_err w with
    | Some x =>
        match body (set_err None w) with
        | Some (_, w1) => k (set_err (Some x) w1)
        | None => None
        end
    | None =>
        match body w with
        | Some (_, w1) => k w1
        | None => None
        end
    end.
Proof.
  unfold PyErr_Occurred, PyErr_Fetch, PyErr_Restore, no_error, skip, get, modify,
    mbind, M_bind, mret, M_ret.
  destruct (w_err w) as [x|] eqn:Herr; cbn; rewrite ?Herr; cbn.
  - by destruct (body _) as [[[] ?]|].
  - by destruct (body _) as [[[] ?]|].
Qed.

(** Destroying an Entry that holds the last reference to its ACL. *)
Lemma Entry_dealloc_last (w : world) (e rc p : Z) (ent : Entry_Object) (self : ACL_Object) :
  e ≠ NULL → p ≠ NULL → e ≠ p →
  w_heap w !! e = Some (Mk_obj rc (Obj_Entry ent)) →
  parent_acl ent = p →
  w_heap w !! p = Some (Mk_obj 1 (Obj_ACL self)) →
  ∃ w', Entry_dealloc e w = Some (tt, w')
        ∧ w_err w' = w_err w
        ∧ w_heap w' = delete e (delete p (w_heap w))
        ∧ w_acls w' = (if decide (acl self = NULL) then w_acls w
                       else delete (acl self) (w_acls w))
        ∧ w_stderr w' = w_stderr w ++ (if release_fails w self then [(None, p)] else []).
Proof.
  intros He Hp Hep Hheap Hparent Hheapp. unfold Entry_dealloc.
  rewrite (bind_Some _ _ _ _ _ (load_Entry_Some _ _ _ _ He Hheap)). rewrite Hparent.
  destruct (decide (p ≠ NULL)) as [_|?]; [|done].
  assert (Hinner : ∀ w0, w_heap w0 = w_heap w → w_acls w0 = w_acls w →
            w_stderr w0 = w_stderr w →
            ∃ w1, (_ ← Py_DECREF ACL_dealloc p;
                   store_body e (Obj_Entry (Mk_Entry NULL (entry ent)))) w0 = Some (tt, w1)
                  ∧ w_err w1 = w_err w0
                  ∧ w_heap w1
                    = <[e := Mk_obj rc (Obj_Entry (Mk_Entry NULL (entry ent)))]> (delete p (w_heap w))
                  ∧ w_acls w1 = (if decide (acl self = NULL) then w_acls w
                                 else delete (acl self) (w_acls w))
                  ∧ w_stderr w1
                    = w_stderr w ++ (if release_fails w self then [(None, p)] else [])).
  { intros w0 Hh0 Ha0 Hs0.
    assert (Hdec : Py_DECREF ACL_dealloc p w0
                   = ACL_dealloc p (set_heap (<[p := Mk_obj 0 (Obj_ACL self)]> (w_heap w0)) w0))
      by (apply Py_DECREF_last; [done | by rewrite Hh0]).
    destruct (ACL_dealloc_spec (set_heap (<[p := Mk_obj 0 (Obj_ACL self)]> (w_heap w0)) w0)
                p 0 self Hp) as (w1 & Hrun & Herr1 & Hheap1 & Hacls1 & Hlog1).
    { wsimpl. apply lookup_insert_eq. }
    rewrite <- Hdec in Hrun. rewrite (bind_Some _ _ _ _ _ Hrun).
    wsimpl. rewrite delete_insert_eq in Hheap1.
    erewrite store_body_Some
      by (try done; rewrite Hheap1, Hh0, lookup_delete_ne by done; exact Hheap).
    eexists. split; [reflexivity|]. wsimpl. split_and!; try done.
    - by rewrite Hheap1, Hh0.
    - by rewrite Hacls1, Ha0.
    - rewrite Hlog1. unfold release_fails. wsimpl. by rewrite Ha0, Hs0. }
  rewrite guarded_run. unfold PyObject_DEL, modify.
  destruct (w_err w) as [x|] eqn:Herr.
  - destruct (Hinner (set_err None w)) as (w1 & Hrun & Herr1 & Hheap1 & Hacls1 & Hlog1); [done..|].
    rewrite Hrun. eexists. split; [reflexivity|]. wsimpl. split_and!; try done.
    rewrite Hheap1. by rewrite delete_insert_eq.
  - destruct (Hinner w) as (w1 & Hrun & Herr1 & Hheap1 & Hacls1 & Hlog1); [done..|].
    rewrite Hrun. eexists. split; [reflexivity|]. wsimpl. split_and!; try done.
    + congruence.
    + rewrite Hheap1. by rewrite delete_insert_eq.
Qed.

(** C8. An ACL destroyed while an error is pending, directly or because
    the Entry holding the last reference to it is destroyed, leaves that
    error pending: releasing the handle does not replace it.  When the
    release itself fails this is written to the unraisable-error log and
    nothing else is raised. *)
Theorem teardown_keeps_error (w : world) (x : pyexc) (obj rc : Z) (self : ACL_Object) :
  w_err w = Some x →
  obj ≠ NULL →
  w_heap w !! obj = Some (Mk_obj rc (Obj_ACL self)) →
  (∃ w', ACL_dealloc obj w = Some (tt, w')
         ∧ w_err w' = Some x
         ∧ w_heap w' !! obj = None
         ∧ (acl self ≠ NULL → w_acls w' !! acl self = None)
         ∧ w_stderr w' = w_stderr w ++ (if release_fails w self then [(None, obj)] else []))
  ∧ (∀ e rce ent,
       e ≠ NULL → e ≠ obj → rc = 1 →
       w_heap w !! e = Some (Mk_obj rce (Obj_Entry ent)) →
       parent_acl ent = obj →
       ∃ w', Entry_dealloc e w = Some (tt, w')
             ∧ w_err w' = Some x
             ∧ w_heap w' !! e = None
             ∧ w_heap w' !! obj = None
             ∧ (acl self ≠ NULL → w_acls w' !! acl self = None)
             ∧ w_stderr w'
               = w_stderr w ++ (if release_fails w self then [(None, obj)] else [])).
Proof.
  intros Herr Hobj Hheap. split.
  - destruct (ACL_dealloc_spec _ _ _ _ Hobj Hheap) as (w' & Hrun & Herr' & Hheap' & Hacls' & Hlog').
    exists w'. split_and!; try done.
    + congruence.
    + rewrite Hheap'. apply lookup_delete_eq.
    + intros Hnn. rewrite Hacls'. destruct (decide (acl self = NULL)); [done|].
      apply lookup_delete_eq.
  - intros e rce ent He Heo -> Hheape Hparent.
    destruct (Entry_dealloc_last _ _ _ _ _ _ He Hobj Heo Hheape Hparent Hheap)
      as (w' & Hrun & Herr' & Hheap' & Hacls' & Hlog').
    exists w'. split_and!; try done.
    + congruence.
    + rewrite Hheap'. apply lookup_delete_eq.
    + rewrite Hheap'. rewrite lookup_delete_ne by done. apply lookup_delete_eq.
    + intros Hnn. rewrite Hacls'. destruct (decide (acl self = NULL)); [done|].
      apply lookup_delete_eq.
Qed.

(** ** Deleting an entry *)

Lemma parse_O_bang_Entry (w : world) (e rc : Z) (ent : Entry_Object) :
  w_heap w !! e = Some (Mk_obj rc (Obj_Entry ent)) →
  parse_O_bang Entry_Type [PyRef e] w = Some (Some e, w).
Proof.
  intros Hheap. unfold parse_O_bang, get, mbind, M_bind, type_of, id. cbv beta iota.
  rewrite Hheap. by rewrite decide_True by done.
Qed.

Lemma acl_delete_entry_live (w : world) (p a k : Z) (o oa : acl_obj) :
  w_acls w !! p = Some o →
  w_acls w !! a = Some oa →
  is_Some (alist_find k (aentries oa)) →
  acl_delete_entry p (EREF a k) w
  = Some (0, set_acls (<[a := Mk_acl (alist_remove k (aentries oa)) (acurr oa) (aserial oa)]>
                         (w_acls w))
               (set_calls (w_calls w ++ [Call_delete_entry p (EREF a k)]) w)).
Proof.
  intros Ho Hoa Hk. unfold acl_delete_entry, call, get, modify, mbind, M_bind. wsimpl.
  rewrite Ho, Hoa. by destruct (decide (is_Some (alist_find k (aentries oa)))).
Qed.

Lemma acl_delete_entry_Some (w : world) (p k : Z) (o : acl_obj) :
  w_acls w !! p = Some o →
  is_Some (alist_find k (aentries o)) →
  acl_delete_entry p (EREF p k) w
  = Some (0, set_acls (<[p := Mk_acl (alist_remove k (aentries o)) (acurr o) (aserial o)]>
                         (w_acls w))
               (set_calls (w_calls w ++ [Call_delete_entry p (EREF p k)]) w)).
Proof. intros Ho Hk. by apply (acl_delete_entry_live w p p k o o). Qed.




(** ** Entry accessors *)

Lemma Entry_set_tag_type_int (w : world) (e rc : Z) (ent : Entry_Object) (value : PyObject) :
  e ≠ NULL →
  w_heap w !! e = Some (Mk_obj rc (Obj_Entry ent)) →
  PyInt_Check value = true →
  Entry_set_tag_type e (Some value) w
  = (r ← acl_set_tag_type (entry ent) (to_int (PyInt_AsLong value));
     if decide (r = -1) then _ ← PyErr_SetFromErrno PyExc_IOError; mret (-1)
     else mret 0) w.
Proof.
  intros He Hheap Hint. unfold Entry_set_tag_type.
  rewrite (bind_Some _ _ _ _ _ (load_Entry_Some _ _ _ _ He Hheap)). by rewrite Hint.
Qed.

(** C6, as the module has it.  A value that is not an integer, and an
    attempt to delete the attribute, are refused with a TypeError, an
    InvalidArgument, before the library is called.
    An integer is converted to the C tag type and handed to the library
    whatever its value: when the library answers -1 the setter fails
    with an IOError carrying errno, a BackendError, and otherwise it
    succeeds. *)
Theorem TagType_set_errors (w : world) (e rc : Z) (ent : Entry_Object) (value : PyObject) :
  e ≠ NULL →
  w_heap w !! e = Some (Mk_obj rc (Obj_Entry ent)) →
  (PyInt_Check value = false →
   ∃ w' x, Entry_set_tag_type e (Some value) w = Some (-1, w')
           ∧ w_err w' = Some x
           ∧ kind_of (exc_ty x) = InvalidArgument
           ∧ w_calls w' = w_calls w)
  ∧ (PyInt_Check value = true →
     ∃ r wb, acl_set_tag_type (entry ent) (to_int (PyInt_AsLong value)) w = Some (r, wb)
             ∧ (r = -1 →
                ∃ w' x, Entry_set_tag_type e (Some value) w = Some (-1, w')
                        ∧ w_err w' = Some x
                        ∧ kind_of (exc_ty x) = BackendError)
             ∧ (r ≠ -1 → Entry_set_tag_type e (Some value) w = Some (0, wb)))
  ∧ (∃ w' x, Entry_set_tag_type e None w = Some (-1, w')
             ∧ w_err w' = Some x
             ∧ kind_of (exc_ty x) = InvalidArgument
             ∧ w_calls w' = w_calls w).
Proof.
  intros He Hheap. split_and!.
  - intros Hint. unfold Entry_set_tag_type.
    rewrite (bind_Some _ _ _ _ _ (load_Entry_Some _ _ _ _ He Hheap)). rewrite Hint.
    eexists _, _. split; [reflexivity|]. done.
  - intros Hint. rewrite (Entry_set_tag_type_int _ _ _ _ _ He Hheap Hint).
    destruct (acl_set_tag_type (entry ent) (to_int (PyInt_AsLong value)) w) as [[r wb]|] eqn:Hcall.
    + exists r, wb. split; [done|]. split.
      * intros ->. rewrite (bind_Some _ _ _ _ _ Hcall).
        destruct (decide (-1 = -1)) as [_|?]; [|done].
        eexists _, _. split; [reflexivity|]. done.
      * intros Hr. rewrite (bind_Some _ _ _ _ _ Hcall).
        by destruct (decide (r = -1)).
    + exfalso. revert Hcall.
      unfold acl_set_tag_type, call, get, modify, fail_with, mbind, M_bind, mret, M_ret.
      cbv beta iota.
      destruct (entry_obj_p _ _); [destruct (recognized_tag _)|]; done.
  - unfold Entry_set_tag_type.
    rewrite (bind_Some _ _ _ _ _ (load_Entry_Some _ _ _ _ He Hheap)).
    eexists _, _. split; [reflexivity|]. done.
Qed.

(** C6 as stated fails: 99 is no tag type, and setting it on the Entry
    of [sample_world] raises an IOError, a BackendError, not an
    InvalidArgument. *)
Lemma TagType_unrecognized_counterexample :
  recognized_tag 99 = false
  ∧ 99 ≠ ACL_UNDEFINED_TAG
  ∧ w_heap sample_world !! 3 = Some (Mk_obj 1 (Obj_Entry (Mk_Entry 2 (EREF 2 0))))
  ∧ ∃ w', Entry_set_tag_type 3 (Some (PyInt 99)) sample_world = Some (-1, w')
          ∧ w_err w' = Some (Mk_exc PyExc_IOError (Errno EINVAL))
          ∧ kind_of PyExc_IOError ≠ InvalidArgument.
Proof.
  split_and!; [reflexivity | discriminate | reflexivity |].
  eexists. split_and!; [vm_compute; reflexivity | reflexivity | discriminate].
Qed.

(** What [Entry_new] creates is an Entry without a record. *)
Lemma Entry_new_absent (w : world) :
  ∃ e w', Entry_new w = Some (e, w')
          ∧ e ≠ NULL
          ∧ w_heap w !! e = None
          ∧ w_heap w' !! e = Some (Mk_obj 1 (Obj_Entry (Mk_Entry NULL ENULL))).
Proof.
  destruct (fresh_heap_spec (w_heap w)) as [Hp0 Hpn].
  unfold Entry_new, PyType_GenericNew.
  assert (Ha : tp_alloc Entry_Type w
               = Some (fresh ({[NULL]} ∪ dom (w_heap w)),
                       set_heap (<[fresh ({[NULL]} ∪ dom (w_heap w))
                                   := Mk_obj 1 (zeroed Entry_Type)]> (w_heap w)) w))
    by done.
  rewrite (bind_Some _ _ _ _ _ Ha). rewrite decide_True by done.
  erewrite bind_Some by (apply store_body_Some; [done | wsimpl; apply lookup_insert_eq]).
  eexists _, _. split; [reflexivity|]. wsimpl. split_and!; try done.
  by rewrite lookup_insert_eq.
Qed.

(** C10. On an Entry whose record is absent the two getters raise an
    AttributeError (UninitializedState) without calling the library.
    The tag type setter, the text conversion, the Permset accessor and
    [Entry_copy] (and the qualifier setter) make their library call with
    the null descriptor; what they raise is the library's refusal, an
    IOError. *)
Theorem absent_record_checks (w : world) (e rc : Z) (ent : Entry_Object)
    (value : PyObject) (other rco : Z) (oent : Entry_Object) :
  e ≠ NULL →
  w_heap w !! e = Some (Mk_obj rc (Obj_Entry ent)) →
  entry ent = ENULL →
  PyInt_Check value = true →
  other ≠ NULL →
  w_heap w !! other = Some (Mk_obj rco (Obj_Entry oent)) →
  let uninitialized := Some (Mk_exc PyExc_AttributeError (Msg "entry attribute")) in
  let refused := Some (Mk_exc PyExc_IOError (Errno EINVAL)) in
  (∃ w', Entry_get_tag_type e w = Some (None, w')
         ∧ w_err w' = uninitialized ∧ w_calls w' = w_calls w)
  ∧ (∃ w', Entry_get_qualifier e w = Some (None, w')
           ∧ w_err w' = uninitialized ∧ w_calls w' = w_calls w)
  ∧ (∃ w', Entry_set_tag_type e (Some value) w = Some (-1, w')
           ∧ w_err w' = refused
           ∧ w_calls w' = w_calls w ++ [Call_set_tag_type ENULL (to_int (PyInt_AsLong value))])
  ∧ (∃ w', Entry_set_qualifier e (Some value) w = Some (-1, w')
           ∧ w_err w' = refused
           ∧ w_calls w'
             = w_calls w ++ [Call_set_qualifier ENULL (to_uint (to_int (PyInt_AsLong value)))])
  ∧ (∃ w', Entry_str e w = Some (None, w')
           ∧ w_err w' = refused
           ∧ w_calls w' = w_calls w ++ [Call_get_tag_type ENULL])
  ∧ (∃ w', Entry_get_permset e w = Some (None, w')
           ∧ w_err w' = refused
           ∧ w_calls w' = w_calls w ++ [Call_get_permset ENULL])
  ∧ (∃ w', Entry_copy e [PyRef other] w = Some (None, w')
           ∧ w_err w' = refused
           ∧ w_calls w' = w_calls w ++ [Call_copy_entry ENULL (entry oent)]).
Proof.
  intros He Hheap Hnull Hint Ho Hheapo uninitialized refused.
  pose proof (load_Entry_Some _ _ _ _ He Hheap) as Hload.
  split_and!.
  - unfold Entry_get_tag_type. rewrite (bind_Some _ _ _ _ _ Hload), Hnull.
    destruct (decide (ENULL = ENULL)) as [_|?]; [|done].
    eexists. split; [reflexivity|]. done.
  - unfold Entry_get_qualifier. rewrite (bind_Some _ _ _ _ _ Hload), Hnull.
    destruct (decide (ENULL = ENULL)) as [_|?]; [|done].
    eexists. split; [reflexivity|]. done.
  - rewrite (Entry_set_tag_type_int _ _ _ _ _ He Hheap Hint), Hnull.
    eexists. split; [reflexivity|]. done.
  - unfold Entry_set_qualifier. rewrite (bind_Some _ _ _ _ _ Hload), Hnull, Hint.
    eexists. split; [reflexivity|]. done.
  - unfold Entry_str. rewrite (bind_Some _ _ _ _ _ Hload), Hnull.
    eexists. split; [reflexivity|]. done.
  - unfold Entry_get_permset. rewrite (bind_Some _ _ _ _ _ Hload), Hnull.
    rewrite (bind_Some _ _ _ _ _ (Permset_new_spec w)).
    destruct (fresh_heap_spec (w_heap w)) as [Hp0 _].
    destruct (decide (fresh ({[NULL]} ∪ dom (w_heap w)) = NULL)) as [?|_]; [done|].
    eexists. split; [reflexivity|]. done.
  - unfold Entry_copy. rewrite (bind_Some _ _ _ _ _ Hload), Hnull.
    rewrite (bind_Some _ _ _ _ _ (parse_O_bang_Entry _ _ _ _ Hheapo)).
    rewrite (bind_Some _ _ _ _ _ (load_Entry_Some _ _ _ _ Ho Hheapo)).
    eexists. split; [reflexivity|]. done.
Qed.

(** ** The theorems at work on the sample worlds *)

(** The first ACL of [sample_world] is asked for its validity. *)
Lemma ACL_valid_iff_rules_witness :
  ∃ b w', ACL_valid 1 sample_world = Some (Some (Py_Bool b), w')
          ∧ w_err w' = w_err sample_world
          ∧ (b = true ↔ ValidationEngine (entry_set sample_world (Mk_ACL 1 ACL_FIRST_ENTRY))).
Proof.
  apply (ACL_valid_iff_rules sample_world 1 1 (Mk_ACL 1 ACL_FIRST_ENTRY));
    [discriminate | reflexivity].
Defined.

(** Two traversals of the first ACL of [sample_world], three records each. *)
Lemma iteration_exhaustion_witness :
  let o := Mk_acl (number (minimal_acl 7 7 7)) 0 3 in
  let views := (λ kr : Z * acl_entry_obj, Some (Mk_Entry 1 (EREF 1 kr.1))) <$> aentries o in
  ∃ w0 ps w1 ps' w2,
    ACL_iter 1 sample_world = Some (Some (PyRef 1), w0)
    ∧ view_ACL w0 1 = Some (Mk_ACL 1 ACL_FIRST_ENTRY)
    ∧ traverse 4 1 sample_world = Some ((ps, true), w1)
    ∧ length ps = length (aentries o)
    ∧ NoDup ps
    ∧ view_of w1 <$> ps = views
    ∧ w_err w1 = w_err sample_world
    ∧ traverse 4 1 w1 = Some ((ps', true), w2)
    ∧ length ps' = length (aentries o)
    ∧ view_of w2 <$> ps' = views.
Proof.
  apply (iteration_exhaustion sample_world 1 1 (Mk_ACL 1 ACL_FIRST_ENTRY)
           (Mk_acl (number (minimal_acl 7 7 7)) 0 3) 4);
    [discriminate | reflexivity | reflexivity | vm_compute; lia].
Defined.

(** Two Permset views of the Entry at 3 of [sample_world]; WRITE is set
    through one and read through the other. *)
Lemma permset_views_share_witness :
  ∃ p1 p2 w1 w2,
    Entry_get_permset 3 sample_world = Some (Some (PyRef p1), w1)
    ∧ Entry_get_permset 3 w1 = Some (Some (PyRef p2), w2)
    ∧ p1 ≠ p2
    ∧ w_heap sample_world !! p1 = None
    ∧ w_heap w1 !! p2 = None
    ∧ w_heap w2 !! p1 = Some (Mk_obj 1 (Obj_Permset (Mk_Permset 3 (EREF 2 0))))
    ∧ w_heap w2 !! p2 = Some (Mk_obj 1 (Obj_Permset (Mk_Permset 3 (EREF 2 0))))
    ∧ ∀ pa pb, pa ∈ [p1; p2] → pb ∈ [p1; p2] →
        ∃ w3, Permset_set_right pa (Some (Py_Bool true)) ACL_WRITE w2 = Some (0, w3)
              ∧ eval (Permset_get_right pb ACL_WRITE) w3 = Some (Some (Py_Bool true)).
Proof.
  apply (permset_views_share sample_world 3 1 (Mk_Entry 2 (EREF 2 0))
           (Mk_entry ACL_USER_OBJ ACL_UNDEFINED_ID 6) ACL_WRITE true);
    [discriminate | reflexivity | reflexivity | right; left; reflexivity].
Defined.

(** The first ACL of [sample_world] imports the exported form of another
    minimal ACL; so does the ACL object of [stale_world], whose handle
    the library cannot release. *)
Lemma ImportState_replaces_handle_witness :
  let buf := ref_copy_ext (minimal_acl 6 4 0) in
  match env_copy_int ref_env buf with
  | Some es =>
      (∃ ptr w1 w2 w',
         ACL_set_state ref_env 1 [PyString buf] sample_world = Some (Some Py_None, w')
         ∧ ptr ≠ NULL
         ∧ w_acls sample_world !! ptr = None
         ∧ view_ACL w' 1 = Some (Mk_ACL ptr ACL_FIRST_ENTRY)
         ∧ w_acls w'
           = delete 1 (<[ptr := Mk_acl (number es) 0 (Z.of_nat (length es))]>
                         (w_acls sample_world))
         ∧ w_calls w' = w_calls sample_world ++ [Call_copy_int buf; Call_free 1]
         ∧ acl_copy_int ref_env buf sample_world = Some (ptr, w1)
         ∧ acl_free 1 w1 = Some (0, w2)
         ∧ store_body 1 (Obj_ACL (Mk_ACL ptr ACL_FIRST_ENTRY)) w2 = Some (tt, w')
         ∧ (∀ h, holds_live w1 1 h ↔ holds_live sample_world 1 h)
         ∧ is_Some (w_acls w1 !! ptr)
         ∧ ¬ holds_live w1 1 ptr
         ∧ (∀ h, ¬ holds_live w2 1 h)
         ∧ is_Some (w_acls w2 !! ptr)
         ∧ (∀ h, holds_live w' 1 h ↔ h = ptr))
      ∧ (∃ ptr w' x,
           ACL_set_state ref_env 1 [PyString buf] stale_world = Some (None, w')
           ∧ w_err w' = Some x
           ∧ kind_of (exc_ty x) = BackendError
           ∧ w_heap w' = w_heap stale_world
           ∧ view_ACL w' 1 = Some (Mk_ACL 9 ACL_FIRST_ENTRY)
           ∧ ptr ≠ 9
           ∧ w_acls w' = <[ptr := Mk_acl (number es) 0 (Z.of_nat (length es))]>
                           (w_acls stale_world)
           ∧ w_calls w' = w_calls stale_world ++ [Call_copy_int buf; Call_free 9])
  | None => False
  end.
Proof.
  intros buf.
  destruct (ImportState_replaces_handle ref_env sample_world 1 1 (Mk_ACL 1 ACL_FIRST_ENTRY) buf)
    as [H1 _]; [discriminate | reflexivity |].
  destruct (ImportState_replaces_handle ref_env stale_world 1 1 (Mk_ACL 9 ACL_FIRST_ENTRY) buf)
    as [_ H2]; [discriminate | reflexivity |].
  specialize (H1 (or_intror (ex_intro _ _ eq_refl))).
  destruct (env_copy_int ref_env buf) as [es|] eqn:Hint; [|by vm_compute in Hint].
  split; [exact H1|].
  apply H2; [discriminate | reflexivity | vm_compute; discriminate | reflexivity].
Defined.

(** The state of the first ACL of [sample_world] goes into the second. *)
Lemma state_round_trip_witness :
  ∃ st w1 w2 text,
    ACL_get_state ref_env 1 sample_world = Some (Some (PyString st), w1)
    ∧ ACL_set_state ref_env 2 [PyString st] w1 = Some (Some Py_None, w2)
    ∧ eval (ACL_str ref_env 1) sample_world = Some (Some (PyString text))
    ∧ eval (ACL_str ref_env 2) w2 = Some (Some (PyString text)).
Proof.
  apply (state_round_trip ref_env sample_world 1 2 1 2 (Mk_ACL 1 ACL_FIRST_ENTRY)
           (Mk_ACL 2 ACL_NEXT_ENTRY) (Mk_acl (number (minimal_acl 7 7 7)) 0 3));
    [discriminate | discriminate | reflexivity | reflexivity | reflexivity
    | right; eexists; reflexivity
    | apply acl_check_spec; vm_compute; reflexivity
    | intros _; eexists; split; vm_compute; reflexivity].
Defined.

(** In [pending_world] the ACL at 2 is destroyed, directly and through the
    Entry at 3, with a TypeError pending. *)
Lemma teardown_keeps_error_witness :
  (∃ w', ACL_dealloc 2 pending_world = Some (tt, w')
         ∧ w_err w' = Some pending_error
         ∧ w_heap w' !! 2 = None
         ∧ w_acls w' !! 2 = None
         ∧ w_stderr w' = [])
  ∧ (∃ w', Entry_dealloc 3 pending_world = Some (tt, w')
           ∧ w_err w' = Some pending_error
           ∧ w_heap w' !! 3 = None
           ∧ w_heap w' !! 2 = None
           ∧ w_acls w' !! 2 = None
           ∧ w_stderr w' = []).
Proof.
  destruct (teardown_keeps_error pending_world pending_error 2 1 (Mk_ACL 2 ACL_NEXT_ENTRY))
    as [(w' & Hrun & Herr & Hheap & Hacls & Hlog) Hentry];
    [reflexivity | discriminate | reflexivity |].
  split.
  - exists w'. split_and!; [done | done | done | by apply Hacls | exact Hlog].
  - destruct (Hentry 3 1 (Mk_Entry 2 (EREF 2 0)))
      as (w'' & Hrun' & Herr' & Hheap3 & Hheap2 & Hacls' & Hlog');
      [discriminate | discriminate | reflexivity | reflexivity | reflexivity |].
    exists w''. split_and!; [done | done | done | done | by apply Hacls' | exact Hlog'].
Defined.

(** The first ACL of [sample_world] is constructed again from a file that
    does not exist. *)
Lemma Construct_not_atomic_witness :
  ∃ ret w',
    ACL_init ref_env 1 [] (Some [("file", PyString "missing")]) sample_world = Some (ret, w')
    ∧ w_calls w' = w_calls sample_world ++ [Call_free 1; Call_get_file "missing" ACL_TYPE_ACCESS]
    ∧ ret = -1
    ∧ w_err w' = Some (Mk_exc PyExc_IOError (Errno 2))
    ∧ kind_of PyExc_IOError = BackendError
    ∧ view_ACL w' 1 = Some (Mk_ACL NULL ACL_FIRST_ENTRY)
    ∧ w_acls w' = delete 1 (w_acls sample_world).
Proof.
  apply (Construct_not_atomic ref_env sample_world 1 1 (Mk_ACL 1 ACL_FIRST_ENTRY)
           (Mk_acl (number (minimal_acl 7 7 7)) 0 3)
           [("file", PyString "missing")] (Call_get_file "missing" ACL_TYPE_ACCESS)
           (Acq_fail 2));
    [discriminate | reflexivity | discriminate | reflexivity
    | apply (src_file ref_env sample_world 1 _ "missing"); reflexivity].
Defined.


(** On the Entry at 3 of [sample_world]: a string is refused as a tag type by
    the setter, the integer 99 by the library, and the attribute cannot
    be deleted. *)
Lemma TagType_set_errors_witness :
  PyInt_Check (PyInt 99) = true
  ∧ PyInt_Check (PyString "user") = false
  ∧ (∃ w' x, Entry_set_tag_type 3 (Some (PyString "user")) sample_world = Some (-1, w')
             ∧ w_err w' = Some x
             ∧ kind_of (exc_ty x) = InvalidArgument
             ∧ w_calls w' = w_calls sample_world)
  ∧ (∃ r wb, acl_set_tag_type (EREF 2 0) (to_int (PyInt_AsLong (PyInt 99))) sample_world
             = Some (r, wb)
             ∧ (r = -1 →
                ∃ w' x, Entry_set_tag_type 3 (Some (PyInt 99)) sample_world = Some (-1, w')
                        ∧ w_err w' = Some x
                        ∧ kind_of (exc_ty x) = BackendError)
             ∧ (r ≠ -1 → Entry_set_tag_type 3 (Some (PyInt 99)) sample_world = Some (0, wb)))
  ∧ (∃ w' x, Entry_set_tag_type 3 None sample_world = Some (-1, w')
             ∧ w_err w' = Some x
             ∧ kind_of (exc_ty x) = InvalidArgument
             ∧ w_calls w' = w_calls sample_world).
Proof.
  destruct (TagType_set_errors sample_world 3 1 (Mk_Entry 2 (EREF 2 0)) (PyString "user"))
    as (Hbad & _ & Hdel); [discriminate | reflexivity |].
  destruct (TagType_set_errors sample_world 3 1 (Mk_Entry 2 (EREF 2 0)) (PyInt 99))
    as (_ & Hint & _); [discriminate | reflexivity |].
  split_and!; [reflexivity | reflexivity | exact (Hbad eq_refl) | exact (Hint eq_refl)
              | exact Hdel].
Defined.

(** The accessors on the Entry at 4 of [sample_world], which has no record. *)
Lemma absent_record_checks_witness :
  let uninitialized := Some (Mk_exc PyExc_AttributeError (Msg "entry attribute")) in
  let refused := Some (Mk_exc PyExc_IOError (Errno EINVAL)) in
  (∃ w', Entry_get_tag_type 4 sample_world = Some (None, w')
         ∧ w_err w' = uninitialized ∧ w_calls w' = w_calls sample_world)
  ∧ (∃ w', Entry_get_qualifier 4 sample_world = Some (None, w')
           ∧ w_err w' = uninitialized ∧ w_calls w' = w_calls sample_world)
  ∧ (∃ w', Entry_set_tag_type 4 (Some (PyInt ACL_USER)) sample_world = Some (-1, w')
           ∧ w_err w' = refused
           ∧ w_calls w' = w_calls sample_world
                          ++ [Call_set_tag_type ENULL (to_int (PyInt_AsLong (PyInt ACL_USER)))])
  ∧ (∃ w', Entry_set_qualifier 4 (Some (PyInt ACL_USER)) sample_world = Some (-1, w')
           ∧ w_err w' = refused
           ∧ w_calls w'
             = w_calls sample_world
               ++ [Call_set_qualifier ENULL (to_uint (to_int (PyInt_AsLong (PyInt ACL_USER))))])
  ∧ (∃ w', Entry_str 4 sample_world = Some (None, w')
           ∧ w_err w' = refused
           ∧ w_calls w' = w_calls sample_world ++ [Call_get_tag_type ENULL])
  ∧ (∃ w', Entry_get_permset 4 sample_world = Some (None, w')
           ∧ w_err w' = refused
           ∧ w_calls w' = w_calls sample_world ++ [Call_get_permset ENULL])
  ∧ (∃ w', Entry_copy 4 [PyRef 3] sample_world = Some (None, w')
           ∧ w_err w' = refused
           ∧ w_calls w' = w_calls sample_world ++ [Call_copy_entry ENULL (EREF 2 0)]).
Proof.
  apply (absent_record_checks sample_world 4 1 (Mk_Entry NULL ENULL) (PyInt ACL_USER)
           3 1 (Mk_Entry 2 (EREF 2 0)));
    [discriminate | reflexivity | reflexivity | reflexivity | discriminate | reflexivity].
Defined.

(** * Further properties of the module *)

Ltac mrun :=
  unfold call, fail_with, skip, no_error, PyErr_SetFromErrno, PyErr_SetString;
  unfold mbind, M_bind, mret, M_ret, get, modify;
  cbv beta iota; wsimpl.

(** ** Creation and construction of ACL objects *)

Lemma ACL_new_spec (w : world) :
  let p := fresh ({[NULL]} ∪ dom (w_heap w)) in
  ACL_new w
  = Some (p, set_heap (<[p := Mk_obj 1 (Obj_ACL (Mk_ACL NULL ACL_FIRST_ENTRY))]> (w_heap w)) w).
Proof.
  intros p. destruct (fresh_heap_spec (w_heap w)) as [Hp0 Hpn]. fold p in Hp0, Hpn.
  unfold ACL_new.
  assert (Ha : tp_alloc ACL_Type w
               = Some (p, set_heap (<[p := Mk_obj 1 (zeroed ACL_Type)]> (w_heap w)) w))
    by done.
  rewrite (bind_Some _ _ _ _ _ Ha). rewrite decide_True by done.
  erewrite bind_Some by (apply store_body_Some; [done | wsimpl; apply lookup_insert_eq]).
  wsimpl. by rewrite insert_insert_eq.
Qed.

Lemma ACL_iternext_no_handle (w : world) (obj rc : Z) (self : ACL_Object) :
  obj ≠ NULL →
  w_heap w !! obj = Some (Mk_obj rc (Obj_ACL self)) →
  w_acls w !! acl self = None →
  ∃ w', ACL_iternext obj w = Some (None, w')
        ∧ w_err w' = Some (Mk_exc PyExc_IOError (Errno EINVAL))
        ∧ view_ACL w' obj = Some (Mk_ACL (acl self) ACL_NEXT_ENTRY)
        ∧ w_acls w' = w_acls w.
Proof.
  intros Hobj Hheap Hacl. unfold ACL_iternext.
  rewrite (bind_Some _ _ _ _ _ (load_ACL_Some _ _ _ _ Hobj Hheap)).
  assert (Hget : acl_get_entry (acl self) (entry_id self) w
                 = Some ((-1, ENULL),
                         set_errno EINVAL
                           (set_calls (w_calls w ++ [Call_get_entry (acl self) (entry_id self)]) w))).
  { unfold acl_get_entry. mrun. by rewrite Hacl. }
  rewrite (bind_Some _ _ _ _ _ Hget). wsimpl.
  erewrite bind_Some by (apply store_body_Some; [done | wsimpl; exact Hheap]).
  destruct (decide (-1 = -1)) as [_|?]; [|done].
  eexists. split; [reflexivity|]. wsimpl. split_and!; try done.
  unfold view_ACL. wsimpl. by rewrite lookup_insert_eq.
Qed.

Section Fresh.

Variable env : backend_env.

(** X1. What [ACL_new] creates, before any initialization, is a new
    object with a NULL handle and the cursor at the first entry.  It is
    not a valid ACL, and converting it to text, exporting its state or
    asking it for an entry raises an IOError instead of treating it as
    an empty ACL. *)
Theorem new_ACL_has_no_handle (w : world) :
  w_acls w !! NULL = None →
  ∃ obj w0,
    ACL_new w = Some (obj, w0)
    ∧ obj ≠ NULL
    ∧ w_heap w !! obj = None
    ∧ w_heap w0 !! obj = Some (Mk_obj 1 (Obj_ACL (Mk_ACL NULL ACL_FIRST_ENTRY)))
    ∧ eval (ACL_valid obj) w0 = Some (Some Py_False)
    ∧ (∃ w1, ACL_str env obj w0 = Some (None, w1)
             ∧ w_err w1 = Some (Mk_exc PyExc_IOError (Errno EINVAL)))
    ∧ (∃ w1, ACL_get_state env obj w0 = Some (None, w1)
             ∧ w_err w1 = Some (Mk_exc PyExc_IOError (Errno EINVAL)))
    ∧ (∃ w1, ACL_iternext obj w0 = Some (None, w1)
             ∧ w_err w1 = Some (Mk_exc PyExc_IOError (Errno EINVAL))).
Proof.
  intros Hnull. destruct (fresh_heap_spec (w_heap w)) as [Hp0 Hpn].
  set (p := fresh ({[NULL]} ∪ dom (w_heap w))) in *.
  eexists p, _. split; [apply ACL_new_spec|]. fold p.
  set (w0 := set_heap _ w).
  assert (Hheap0 : w_heap w0 !! p = Some (Mk_obj 1 (Obj_ACL (Mk_ACL NULL ACL_FIRST_ENTRY))))
    by (subst w0; wsimpl; apply lookup_insert_eq).
  assert (Hacl0 : w_acls w0 !! acl (Mk_ACL NULL ACL_FIRST_ENTRY) = None) by done.
  pose proof (load_ACL_Some _ _ _ _ Hp0 Hheap0) as Hload.
  split_and!; try done.
  - unfold eval, ACL_valid. rewrite (bind_Some _ _ _ _ _ Hload).
    unfold acl_valid. mrun. by rewrite Hacl0.
  - unfold ACL_str. rewrite (bind_Some _ _ _ _ _ Hload).
    unfold acl_to_text, PyErr_SetFromErrno. mrun. rewrite Hacl0.
    eexists. split; [reflexivity|]. done.
  - unfold ACL_get_state. rewrite (bind_Some _ _ _ _ _ Hload).
    unfold acl_size, PyErr_SetFromErrno. mrun. rewrite Hacl0. wsimpl.
    destruct (decide (-1 = -1)) as [_|?]; [|done].
    eexists. split; [reflexivity|]. done.
  - destruct (ACL_iternext_no_handle _ _ _ _ Hp0 Hheap0 Hacl0) as (w1 & Hrun & Herr & _).
    eauto.
Qed.

End Fresh.

Lemma convert_kw_kind (w : world) (a : init_args) (kw : string * PyObject) (t : exc_type) :
  convert_kw w a kw = inl t → kind_of t = InvalidArgument.
Proof.
  destruct kw as [k v]. unfold convert_kw, convert_s, convert_i, and_then.
  repeat case_decide; destruct v; cbn [PyInt_Check PyInt_AsLong];
    repeat (case_match || case_decide); intros; simplify_eq; done.
Qed.

Section Construct_more.

Variable env : backend_env.

(** X2. Positional arguments, more than one keyword argument, an unknown
    keyword or a keyword value of the wrong type make [ACL_init] fail
    with a ValueError, TypeError or OverflowError (all InvalidArgument)
    before it touches anything: the handle the object holds is neither
    released nor replaced and the library is not called. *)
Theorem ACL_init_rejects_before_release (w : world) (obj : Z) (args : list PyObject)
    (keywds : option (list (string * PyObject))) (t : exc_type) :
  rejected w args keywds t →
  ∃ msg, ACL_init env obj args keywds w
         = Some (-1, set_err (Some (Mk_exc t (Msg msg))) w)
         ∧ kind_of t = InvalidArgument.
Proof.
  intros [args' keywds' Hargs|d Hd|k v t' Hconv]; unfold ACL_init.
  - rewrite bool_decide_eq_true_2 by (by destruct args').
    eexists. split; [reflexivity | done].
  - rewrite bool_decide_eq_false_2 by (intros H; by apply H).
    rewrite (bool_decide_eq_true_2 (1 < length d)%nat) by done.
    eexists. split; [reflexivity | done].
  - rewrite bool_decide_eq_false_2 by (intros H; by apply H).
    rewrite (bool_decide_eq_false_2 (1 < length [(k, v)])%nat) by (simpl; lia).
    cbn [orb]. fold no_args.
    assert (Hparse : parse_init (Some [(k, v)]) no_args w
                     = Some (None, set_err (Some (Mk_exc t' (Msg "bad keyword argument"))) w)).
    { unfold parse_init. mrun. unfold id. cbn [default foldl and_then]. by rewrite Hconv. }
    rewrite (bind_Some _ _ _ _ _ Hparse). eexists. split; [reflexivity|].
    by eapply convert_kw_kind.
Qed.

(** X3. The value -1 for [fd] is the module's mark for "no descriptor
    given": constructing with [fd=-1] does exactly what constructing
    without arguments does (an empty ACL), and asks the system about no
    descriptor. *)
Theorem ACL_init_fd_minus_one (w : world) (obj : Z) :
  ACL_init env obj [] (Some [("fd", PyInt (-1))]) w = ACL_init env obj [] None w
  ∧ ACL_init env obj [] (Some [("fd", PyInt (-1))]) w = ACL_init env obj [] (Some []) w.
Proof.
  assert (H1 : parse_init (Some [("fd", PyInt (-1))]) no_args w = Some (Some no_args, w))
    by (by apply parse_init_fd).
  assert (H2 : parse_init None no_args w = Some (Some no_args, w)) by done.
  assert (H3 : parse_init (Some []) no_args w = Some (Some no_args, w)) by done.
  unfold ACL_init. cbn [length bool_decide orb]. fold no_args.
  rewrite !bool_decide_eq_false_2 by (simpl; first [lia | intros H; by apply H]).
  cbn [orb].
  by rewrite (bind_Some _ _ _ _ _ H1), (bind_Some _ _ _ _ _ H2), (bind_Some _ _ _ _ _ H3).
Qed.

(** X4. Constructing from another ACL copies it: an object without a
    handle that is initialized with [acl=src] gets a handle of its own,
    different from the one of [src], holding the records of [src].  The
    source keeps its handle and records, its reference count does not
    change, and no [acl_free] is called. *)
Theorem ACL_init_dup_is_a_copy (w : world) (obj rc p rcp : Z) (self src : ACL_Object)
    (o : acl_obj) :
  obj ≠ NULL → p ≠ NULL → obj ≠ p →
  w_heap w !! obj = Some (Mk_obj rc (Obj_ACL self)) →
  acl self = NULL →
  w_heap w !! p = Some (Mk_obj rcp (Obj_ACL src)) →
  w_acls w !! acl src = Some o →
  ∃ h w',
    ACL_init env obj [] (Some [("acl", PyRef p)]) w = Some (0, w')
    ∧ h ≠ NULL ∧ h ≠ acl src
    ∧ w_heap w' = <[obj := Mk_obj rc (Obj_ACL (Mk_ACL h (entry_id self)))]> (w_heap w)
    ∧ w_acls w' = <[h := Mk_acl (number (snd <$> aentries o)) 0
                           (Z.of_nat (length (snd <$> aentries o)))]> (w_acls w)
    ∧ entry_set w' (Mk_ACL h (entry_id self)) = entry_set w src
    ∧ entry_set w' src = entry_set w src
    ∧ w_calls w' = w_calls w ++ [Call_dup (acl src)]
    ∧ w_err w' = w_err w.
Proof.
  intros Hobj Hp Hne Hheap Hnull Hheapp Hacl. unfold ACL_init.
  rewrite !bool_decide_eq_false_2 by (simpl; first [lia | intros H; by apply H]).
  cbn [orb]. fold no_args.
  rewrite (bind_Some _ _ _ _ _ (parse_init_acl _ _ _ _ Hheapp)).
  rewrite (bind_Some _ _ _ _ _ (load_ACL_Some _ _ _ _ Hobj Hheap)).
  destruct (decide (acl self ≠ NULL)) as [?|_]; [done|].
  unfold skip at 1. unfold mbind at 1, M_bind at 1, mret at 1, M_ret at 1.
  cbn [a_file a_text a_filedef a_fd a_thesrc].
  destruct (decide (-1 ≠ -1)) as [?|_]; [done|].
  destruct (decide (p ≠ NULL)) as [_|?]; [|done].
  destruct (fresh_acls_spec (w_acls w)) as [Hh0 Hhn].
  set (h := fresh ({[NULL]} ∪ dom (w_acls w))) in *.
  assert (Hm : (thesrc ← load_ACL p; acl_dup (acl thesrc)) w
               = Some (h, set_acls (<[h := Mk_acl (number (snd <$> aentries o)) 0
                                            (Z.of_nat (length (snd <$> aentries o)))]> (w_acls w))
                            (set_calls (w_calls w ++ [Call_dup (acl src)]) w))).
  { rewrite (bind_Some _ _ _ _ _ (load_ACL_Some _ _ _ _ Hp Hheapp)).
    by rewrite (acl_dup_Some _ _ _ Hacl). }
  rewrite (bind_Some _ _ _ _ _ Hm).
  erewrite bind_Some by (apply store_body_Some; [done | wsimpl; exact Hheap]).
  destruct (decide (h = NULL)) as [?|_]; [done|].
  assert (Hhs : h ≠ acl src) by (intros Heq; rewrite Heq in Hhn; congruence).
  eexists h, _. split; [reflexivity|]. wsimpl. split_and!; try done.
  - unfold entry_set. wsimpl. rewrite lookup_insert_eq, Hacl. wsimpl. apply snd_number.
  - unfold entry_set. wsimpl. by rewrite lookup_insert_ne.
Qed.

End Construct_more.

(** ** State, text and validity *)

Section State_more.

Variable env : backend_env.

(** X5. Converting to text, testing validity and exporting the state only
    read: whatever handle the object holds, each of the three returns
    and leaves the Python heap and the library's memory as they were.
    Without a live handle the first and the last raise an IOError and
    the validity test answers False. *)
Theorem observers_only_read (w : world) (obj rc : Z) (self : ACL_Object) :
  obj ≠ NULL →
  w_heap w !! obj = Some (Mk_obj rc (Obj_ACL self)) →
  (∃ r w', ACL_str env obj w = Some (r, w')
           ∧ w_heap w' = w_heap w ∧ w_acls w' = w_acls w
           ∧ (w_acls w !! acl self = None →
              r = None ∧ w_err w' = Some (Mk_exc PyExc_IOError (Errno EINVAL))))
  ∧ (∃ r w', ACL_valid obj w = Some (r, w')
             ∧ w_heap w' = w_heap w ∧ w_acls w' = w_acls w ∧ w_err w' = w_err w
             ∧ (w_acls w !! acl self = None → r = Some Py_False))
  ∧ (∃ r w', ACL_get_state env obj w = Some (r, w')
             ∧ w_heap w' = w_heap w ∧ w_acls w' = w_acls w
             ∧ (w_acls w !! acl self = None →
                r = None ∧ w_err w' = Some (Mk_exc PyExc_IOError (Errno EINVAL)))).
Proof.
  intros Hobj Hheap. pose proof (load_ACL_Some _ _ _ _ Hobj Hheap) as Hload.
  split_and!.
  - unfold ACL_str. rewrite (bind_Some _ _ _ _ _ Hload).
    unfold acl_to_text, acl_free_buf. mrun.
    destruct (w_acls w !! acl self) as [o|] eqn:Hacl.
    + destruct (decide (0 ≠ 0)) as [?|_]; [done|].
      eexists _, _. split; [reflexivity|]. done.
    + eexists _, _. split; [reflexivity|]. done.
  - unfold ACL_valid. rewrite (bind_Some _ _ _ _ _ Hload).
    unfold acl_valid. mrun.
    destruct (w_acls w !! acl self) as [o|] eqn:Hacl.
    + destruct (acl_check _); wsimpl.
      * destruct (decide (0 = -1)) as [?|_]; [done|].
        eexists _, _. split; [reflexivity|]. done.
      * destruct (decide (-1 = -1)) as [_|?]; [|done].
        eexists _, _. split; [reflexivity|]. done.
    + destruct (decide (-1 = -1)) as [_|?]; [|done].
      eexists _, _. split; [reflexivity|]. done.
  - destruct (w_acls w !! acl self) as [o|] eqn:Hacl.
    + destruct (ACL_get_state_spec env _ _ _ _ _ Hobj Hheap Hacl) as (w' & Hrun & Hh & Ha & _).
      eexists _, w'. split; [exact Hrun|]. done.
    + unfold ACL_get_state. rewrite (bind_Some _ _ _ _ _ Hload).
      unfold acl_size. mrun. rewrite Hacl. wsimpl.
      destruct (decide (-1 = -1)) as [_|?]; [|done].
      eexists _, _. split; [reflexivity|]. done.
Qed.

End State_more.

(** ** Iteration, reference counts and deletion *)

Lemma Py_DECREF_shared (tp_dealloc : Z → M unit) (p rc : Z) (body : pybody) (w : world) :
  p ≠ NULL → rc ≠ 1 →
  w_heap w !! p = Some (Mk_obj rc body) →
  Py_DECREF tp_dealloc p w
  = Some (tt, set_heap (<[p := Mk_obj (rc - 1) body]> (w_heap w)) w).
Proof.
  intros Hp Hrc Hheap. unfold Py_DECREF.
  rewrite (bind_Some _ _ _ _ _ (load_Some _ _ _ Hp Hheap)). wsimpl.
  unfold store, modify, mbind, M_bind. destruct (decide (rc - 1 = 0)); [lia | done].
Qed.

Ltac heap_eq :=
  apply map_eq; intros ?q; rewrite ?lookup_insert, ?lookup_delete;
  repeat (case_decide; simplify_eq; try done).

(** One step of an iteration that has a record to produce, with the
    heap it leaves. *)
Lemma iternext_yields (w : world) (obj rc h eid : Z) l (cur : nat) (ser : Z) (i : nat) k r :
  obj ≠ NULL →
  w_heap w !! obj = Some (Mk_obj rc (Obj_ACL (Mk_ACL h eid))) →
  w_acls w !! h = Some (Mk_acl l cur ser) →
  (eid = ACL_FIRST_ENTRY ∧ i = 0%nat) ∨ (eid = ACL_NEXT_ENTRY ∧ i = cur) →
  l !! i = Some (k, r) →
  ∃ p w', ACL_iternext obj w = Some (Some (PyRef p), w')
          ∧ p ≠ NULL ∧ p ≠ obj
          ∧ w_heap w !! p = None
          ∧ w_heap w' = <[p := Mk_obj 1 (Obj_Entry (Mk_Entry obj (EREF h k)))]>
                          (<[obj := Mk_obj (rc + 1) (Obj_ACL (Mk_ACL h ACL_NEXT_ENTRY))]>
                             (w_heap w))
          ∧ w_acls w' = <[h := Mk_acl l (S i) ser]> (w_acls w)
          ∧ w_err w' = w_err w.
Proof.
  intros Hobj Hheap Hacl Hpos Hl. unfold ACL_iternext.
  rewrite (bind_Some _ _ _ _ _ (load_ACL_Some _ _ _ _ Hobj Hheap)). wsimpl.
  rewrite (bind_Some _ _ _ _ _ (acl_get_entry_Some _ _ _ _ i _ _ Hacl Hpos Hl)). wsimpl.
  erewrite bind_Some by (apply store_body_Some; [done | wsimpl; exact Hheap]). wsimpl.
  rewrite decide_False by done. rewrite decide_False by done.
  unfold PyType_GenericNew, tp_alloc. unfold mbind at 1, M_bind at 1. wsimpl.
  match goal with |- context [fresh ?X] => set (p := fresh X) end.
  destruct (fresh_heap_spec (<[obj:=Mk_obj rc (Obj_ACL (Mk_ACL h ACL_NEXT_ENTRY))]> (w_heap w)))
    as [Hp0 Hpn]. fold p in Hp0, Hpn.
  assert (Hpo : p ≠ obj) by (intros ->; by rewrite lookup_insert_eq in Hpn).
  rewrite lookup_insert_ne in Hpn by done.
  rewrite decide_False by done.
  erewrite bind_Some by (apply store_body_Some; [done | wsimpl; apply lookup_insert_eq]). wsimpl.
  erewrite bind_Some
    by (apply Py_INCREF_Some; [done | wsimpl; rewrite !lookup_insert_ne by done; apply lookup_insert_eq]).
  wsimpl. eexists p, _. split; [reflexivity|]. wsimpl. split_and!; try done.
  heap_eq.
Qed.

Lemma iternext_ends (w : world) (obj rc h eid : Z) l (cur : nat) (ser : Z) (i : nat) :
  obj ≠ NULL →
  w_heap w !! obj = Some (Mk_obj rc (Obj_ACL (Mk_ACL h eid))) →
  w_acls w !! h = Some (Mk_acl l cur ser) →
  (eid = ACL_FIRST_ENTRY ∧ i = 0%nat) ∨ (eid = ACL_NEXT_ENTRY ∧ i = cur) →
  l !! i = None →
  ∃ w', ACL_iternext obj w = Some (None, w')
        ∧ w_heap w' = <[obj := Mk_obj rc (Obj_ACL (Mk_ACL h ACL_NEXT_ENTRY))]> (w_heap w)
        ∧ w_acls w' = <[h := Mk_acl l i ser]> (w_acls w)
        ∧ w_err w' = w_err w.
Proof.
  intros Hobj Hheap Hacl Hpos Hl. unfold ACL_iternext.
  rewrite (bind_Some _ _ _ _ _ (load_ACL_Some _ _ _ _ Hobj Hheap)). wsimpl.
  rewrite (bind_Some _ _ _ _ _ (acl_get_entry_None _ _ _ _ i Hacl Hpos Hl)). wsimpl.
  erewrite bind_Some by (apply store_body_Some; [done | wsimpl; exact Hheap]). wsimpl.
  rewrite decide_False by done. rewrite decide_True by done.
  eexists. split; [reflexivity|]. done.
Qed.

Lemma iterate_refcount (obj h : Z) (l : list (Z * acl_entry_obj)) (ser : Z) (n : nat) :
  ∀ (i : nat) (w : world) (fuel : nat) (rc eid : Z) (cur : nat),
    obj ≠ NULL →
    w_heap w !! obj = Some (Mk_obj rc (Obj_ACL (Mk_ACL h eid))) →
    w_acls w !! h = Some (Mk_acl l cur ser) →
    (eid = ACL_FIRST_ENTRY ∧ i = 0%nat) ∨ (eid = ACL_NEXT_ENTRY ∧ i = cur) →
    length l = (i + n)%nat → (n < fuel)%nat →
    ∃ ps w', iterate fuel obj w = Some ((ps, true), w')
             ∧ length ps = n
             ∧ w_heap w' !! obj
               = Some (Mk_obj (rc + Z.of_nat n) (Obj_ACL (Mk_ACL h ACL_NEXT_ENTRY))).
Proof.
  induction n as [|n IH]; intros i w fuel rc eid cur Hobj Hheap Hacl Hpos Hlen Hfuel;
    (destruct fuel as [|fuel]; [lia|]); simpl.
  - assert (Hi : l !! i = None) by (apply lookup_ge_None; lia).
    destruct (iternext_ends _ _ _ _ _ _ _ _ _ Hobj Hheap Hacl Hpos Hi)
      as (w' & Hrun & Hheap' & _).
    rewrite (bind_Some _ _ _ _ _ Hrun). eexists [], w'. split; [reflexivity|].
    split; [done|]. rewrite Hheap', lookup_insert_eq. do 2 f_equal; lia.
  - destruct (lookup_lt_is_Some_2 l i) as [[k r] Hi]; [lia|].
    destruct (iternext_yields _ _ _ _ _ _ _ _ _ _ _ Hobj Hheap Hacl Hpos Hi)
      as (p & w1 & Hrun & Hp0 & Hpo & Hfresh & Hheap1 & Hacls1 & _).
    rewrite (bind_Some _ _ _ _ _ Hrun).
    destruct (IH (S i) w1 fuel (rc + 1) ACL_NEXT_ENTRY (S i) Hobj) as (ps & w' & Hrun' & Hlen' & Hheap');
      [by rewrite Hheap1, lookup_insert_ne, lookup_insert_eq
      | by rewrite Hacls1, lookup_insert_eq | by right | lia | lia |].
    rewrite (bind_Some _ _ _ _ _ Hrun'). eexists (p :: ps), w'. split; [reflexivity|].
    split; [simpl; lia|]. rewrite Hheap'. do 2 f_equal; lia.
Qed.

(** X6. Every Entry an iteration produces takes one reference to the
    ACL, and the iterator itself takes one: after a full traversal of an
    ACL with N records its reference count has grown by N + 1. *)
Theorem traversal_takes_references (w : world) (obj rc : Z) (self : ACL_Object) (o : acl_obj)
    (fuel : nat) :
  obj ≠ NULL →
  w_heap w !! obj = Some (Mk_obj rc (Obj_ACL self)) →
  w_acls w !! acl self = Some o →
  (length (aentries o) < fuel)%nat →
  ∃ ps w', traverse fuel obj w = Some ((ps, true), w')
           ∧ length ps = length (aentries o)
           ∧ w_heap w' !! obj
             = Some (Mk_obj (rc + 1 + Z.of_nat (length (aentries o)))
                       (Obj_ACL (Mk_ACL (acl self) ACL_NEXT_ENTRY))).
Proof.
  intros Hobj Hheap Hacl Hfuel.
  destruct (ACL_iter_spec _ _ _ _ _ Hobj Hheap Hacl) as (w0 & Hrun & Hheap0 & Hacls0 & _).
  unfold traverse. rewrite (bind_Some _ _ _ _ _ Hrun).
  destruct o as [l cur ser]. wsimpl.
  destruct (iterate_refcount obj (acl self) l ser (length l) 0 w0 fuel (rc + 1)
              ACL_FIRST_ENTRY cur Hobj Hheap0) as (ps & w' & Hrun' & Hlen & Hheap');
    [by rewrite Hacls0 | by left | lia | lia |].
  by exists ps, w'.
Qed.

(** Destroying an Entry whose ACL has other references. *)
Lemma Entry_dealloc_shared (w : world) (e rc p rcp : Z) (ent : Entry_Object) (body : pybody) :
  e ≠ NULL → p ≠ NULL → e ≠ p →
  w_heap w !! e = Some (Mk_obj rc (Obj_Entry ent)) →
  parent_acl ent = p →
  w_heap w !! p = Some (Mk_obj rcp body) →
  rcp ≠ 1 →
  ∃ w', Entry_dealloc e w = Some (tt, w')
        ∧ w_heap w' = delete e (<[p := Mk_obj (rcp - 1) body]> (w_heap w))
        ∧ w_acls w' = w_acls w
        ∧ w_err w' = w_err w
        ∧ w_stderr w' = w_stderr w
        ∧ w_calls w' = w_calls w.
Proof.
  intros He Hp Hep Hheap Hparent Hheapp Hrcp. unfold Entry_dealloc.
  rewrite (bind_Some _ _ _ _ _ (load_Entry_Some _ _ _ _ He Hheap)). rewrite Hparent.
  destruct (decide (p ≠ NULL)) as [_|?]; [|done].
  assert (Hinner : ∀ w0, w_heap w0 = w_heap w →
            (_ ← Py_DECREF ACL_dealloc p;
             store_body e (Obj_Entry (Mk_Entry NULL (entry ent)))) w0
            = Some (tt, set_heap (<[e := Mk_obj rc (Obj_Entry (Mk_Entry NULL (entry ent)))]>
                                    (<[p := Mk_obj (rcp - 1) body]> (w_heap w))) w0)).
  { intros w0 Hh0.
    erewrite bind_Some by (apply Py_DECREF_shared; [done | exact Hrcp | by rewrite Hh0]).
    erewrite store_body_Some
      by (try done; wsimpl; rewrite Hh0, lookup_insert_ne by done; exact Hheap).
    wsimpl. by rewrite Hh0. }
  rewrite guarded_run. unfold PyObject_DEL, modify.
  destruct (w_err w) as [x|] eqn:Herr.
  - rewrite Hinner by done. eexists. split; [reflexivity|]. wsimpl.
    split_and!; try done. by rewrite delete_insert_eq.
  - rewrite Hinner by done. eexists. split; [reflexivity|]. wsimpl.
    split_and!; try done. by rewrite delete_insert_eq.
Qed.

(** X7. Destroying an Entry that an iteration produced gives back exactly
    the reference it took: the ACL object has its reference count and
    its handle as before the step, the Entry is gone from the heap, and
    the library's memory is as the step left it. *)
Theorem yielded_Entry_returns_its_reference (w : world) (obj rc h eid : Z) l
    (cur : nat) (ser : Z) (i : nat) (k : Z) (r : acl_entry_obj) :
  obj ≠ NULL →
  rc ≠ 0 →
  w_heap w !! obj = Some (Mk_obj rc (Obj_ACL (Mk_ACL h eid))) →
  w_acls w !! h = Some (Mk_acl l cur ser) →
  (eid = ACL_FIRST_ENTRY ∧ i = 0%nat) ∨ (eid = ACL_NEXT_ENTRY ∧ i = cur) →
  l !! i = Some (k, r) →
  ∃ p w1 w2,
    ACL_iternext obj w = Some (Some (PyRef p), w1)
    ∧ view_of w1 p = Some (Mk_Entry obj (EREF h k))
    ∧ Entry_dealloc p w1 = Some (tt, w2)
    ∧ w_heap w2 = <[obj := Mk_obj rc (Obj_ACL (Mk_ACL h ACL_NEXT_ENTRY))]> (w_heap w)
    ∧ w_acls w2 = w_acls w1
    ∧ w_acls w2 !! h = Some (Mk_acl l (S i) ser)
    ∧ w_err w2 = w_err w.
Proof.
  intros Hobj Hrc Hheap Hacl Hpos Hl.
  destruct (iternext_yields _ _ _ _ _ _ _ _ _ _ _ Hobj Hheap Hacl Hpos Hl)
    as (p & w1 & Hrun & Hp0 & Hpo & Hfresh & Hheap1 & Hacls1 & Herr1).
  destruct (Entry_dealloc_shared w1 p 1 obj (rc + 1) (Mk_Entry obj (EREF h k))
              (Obj_ACL (Mk_ACL h ACL_NEXT_ENTRY)))
    as (w2 & Hrun2 & Hheap2 & Hacls2 & Herr2 & _); try done.
  { by rewrite Hheap1, lookup_insert_eq. }
  { by rewrite Hheap1, lookup_insert_ne, lookup_insert_eq. }
  { lia. }
  exists p, w1, w2. split_and!; try done.
  - unfold view_of. by rewrite Hheap1, lookup_insert_eq.
  - rewrite Hheap2, Hheap1. replace (rc + 1 - 1) with rc by lia.
    apply map_eq. intros q. rewrite !lookup_delete, !lookup_insert.
    repeat (case_decide; simplify_eq; try done).
  - by rewrite Hacls2, Hacls1, lookup_insert_eq.
  - congruence.
Qed.

Lemma length_alist_remove (k : Z) l :
  is_Some (alist_find k l) → S (length (alist_remove k l)) = length l.
Proof.
  induction l as [|[k' e] l IH]; simpl; [by intros [? ?]|].
  destruct (decide (k' = k)); [done|]. intros H. simpl. by rewrite IH.
Qed.

Lemma alist_remove_keys (k k' : Z) l :
  k' ∈ (alist_remove k l).*1 → k' ∈ l.*1.
Proof.
  induction l as [|[k0 e] l IH]; simpl; [done|].
  destruct (decide (k0 = k)); simpl.
  - intros H. by right.
  - intros [->|H]%elem_of_cons; [left | right; auto].
Qed.

Lemma alist_remove_gone (k : Z) l :
  NoDup l.*1 → k ∉ (alist_remove k l).*1.
Proof.
  induction l as [|[k0 e] l IH]; simpl; [intros _; apply not_elem_of_nil|].
  intros [Hnotin Hnd]%NoDup_cons. destruct (decide (k0 = k)) as [->|Hne]; simpl.
  - done.
  - intros [->|H]%elem_of_cons; [done | by apply IH].
Qed.

(** X8. After [ACL_delentry] has removed the record of an Entry, a
    traversal of the ACL produces one Entry less: views of the remaining
    records in their order, none of them of the deleted record. *)
Theorem deletion_is_visible (w : world) (obj rc e rce : Z) (self : ACL_Object)
    (ent : Entry_Object) (o : acl_obj) (k : Z) (fuel : nat) :
  obj ≠ NULL → e ≠ NULL →
  w_heap w !! obj = Some (Mk_obj rc (Obj_ACL self)) →
  w_heap w !! e = Some (Mk_obj rce (Obj_Entry ent)) →
  w_acls w !! acl self = Some o →
  entry ent = EREF (acl self) k →
  is_Some (alist_find k (aentries o)) →
  NoDup (aentries o).*1 →
  (length (aentries o) ≤ fuel)%nat →
  ∃ w1 ps w2,
    ACL_delentry obj [PyRef e] w = Some (Some Py_None, w1)
    ∧ traverse fuel obj w1 = Some ((ps, true), w2)
    ∧ S (length ps) = length (aentries o)
    ∧ view_of w2 <$> ps
      = (λ kr, Some (Mk_Entry obj (EREF (acl self) kr.1))) <$> alist_remove k (aentries o)
    ∧ Some (Mk_Entry obj (entry ent)) ∉ view_of w2 <$> ps.
Proof.
  intros Hobj He Hheap Hheape Hacl Hent Hk Hnd Hfuel.
  unfold ACL_delentry.
  rewrite (bind_Some _ _ _ _ _ (parse_O_bang_Entry _ _ _ _ Hheape)).
  rewrite (bind_Some _ _ _ _ _ (load_ACL_Some _ _ _ _ Hobj Hheap)).
  rewrite (bind_Some _ _ _ _ _ (load_Entry_Some _ _ _ _ He Hheape)). rewrite Hent.
  rewrite (bind_Some _ _ _ _ _ (acl_delete_entry_Some _ _ _ _ Hacl Hk)).
  destruct (decide (0 = -1)) as [?|_]; [done|].
  set (w1 := set_acls _ _).
  pose proof (length_alist_remove _ _ Hk) as Hlen.
  destruct (traverse_spec w1 obj rc self
              (Mk_acl (alist_remove k (aentries o)) (acurr o) (aserial o)) fuel Hobj)
    as (ps & w2 & rc' & self' & o' & Hrun & Hviews & _); try done.
  { subst w1. wsimpl. apply lookup_insert_eq. }
  { wsimpl. lia. }
  wsimpl. exists w1, ps, w2. split_and!; try done.
  - apply (f_equal length) in Hviews. rewrite !length_fmap in Hviews. lia.
  - rewrite Hviews. intros (kr & [= Hkr] & Hin)%list_elem_of_fmap.
    apply (alist_remove_gone k _ Hnd). rewrite Hkr at 1.
    apply list_elem_of_fmap. by exists kr.
Qed.

(** ** Arguments of the wrong type *)

Lemma parse_O_bang_fails (w : world) (t : pytype) (args : list PyObject) :
  not_an_instance w t args →
  ∃ msg, parse_O_bang t args w
         = Some (None, set_err (Some (Mk_exc PyExc_TypeError (Msg msg))) w).
Proof.
  intros Hnot. unfold parse_O_bang. mrun. unfold id.
  destruct args as [|[] [|v' args]]; try (eexists; reflexivity).
  destruct (decide _) as [Heq|_]; [by destruct (Hnot _ eq_refl) | eexists; reflexivity].
Qed.

(** X9. The methods that take an Entry or an ACL ([ACL_delentry],
    [Entry_copy], [Entry_init], [Permset_init]) refuse any other
    argument with a TypeError and do nothing else: no library call is
    made and neither the heap nor the library's memory changes. *)
Theorem typed_arguments_are_checked (w : world) (obj e rce p rcp : Z) (ent : Entry_Object)
    (ps : Permset_Object) (args : list PyObject) :
  e ≠ NULL → p ≠ NULL →
  w_heap w !! e = Some (Mk_obj rce (Obj_Entry ent)) →
  w_heap w !! p = Some (Mk_obj rcp (Obj_Permset ps)) →
  (not_an_instance w Entry_Type args →
   ∃ m1 m2 m3,
     ACL_delentry obj args w
     = Some (None, set_err (Some (Mk_exc PyExc_TypeError (Msg m1))) w)
     ∧ Entry_copy e args w
       = Some (None, set_err (Some (Mk_exc PyExc_TypeError (Msg m2))) w)
     ∧ Permset_init p args w
       = Some (-1, set_err (Some (Mk_exc PyExc_TypeError (Msg m3))) w))
  ∧ (not_an_instance w ACL_Type args →
     ∃ m, Entry_init e args w
          = Some (-1, set_err (Some (Mk_exc PyExc_TypeError (Msg m))) w)).
Proof.
  intros He Hp Hheape Hheapp. split.
  - intros Hnot. destruct (parse_O_bang_fails _ _ _ Hnot) as (m & Hparse).
    exists m, m, m. split_and!.
    + unfold ACL_delentry. by rewrite (bind_Some _ _ _ _ _ Hparse).
    + unfold Entry_copy. rewrite (bind_Some _ _ _ _ _ (load_Entry_Some _ _ _ _ He Hheape)).
      by rewrite (bind_Some _ _ _ _ _ Hparse).
    + unfold Permset_init. rewrite (bind_Some _ _ _ _ _ (load_Permset_Some _ _ _ _ Hp Hheapp)).
      by rewrite (bind_Some _ _ _ _ _ Hparse).
  - intros Hnot. destruct (parse_O_bang_fails _ _ _ Hnot) as (m & Hparse).
    exists m. unfold Entry_init. by rewrite (bind_Some _ _ _ _ _ Hparse).
Qed.

(** ** Entries *)

Lemma ret_bind {A B} (x : A) (f : A → M B) (w : world) : (mret x ≫= f) w = f x w.
Proof. done. Qed.

Lemma parse_O_bang_ACL (w : world) (p rc : Z) (self : ACL_Object) :
  w_heap w !! p = Some (Mk_obj rc (Obj_ACL self)) →
  parse_O_bang ACL_Type [PyRef p] w = Some (Some p, w).
Proof.
  intros Hheap. unfold parse_O_bang, get, mbind, M_bind, type_of, id. cbv beta iota.
  rewrite Hheap. by rewrite decide_True by done.
Qed.

Lemma acl_create_entry_Some (w : world) (p : Z) (o : acl_obj) :
  w_acls w !! p = Some o →
  acl_create_entry p w
  = Some ((0, EREF p (aserial o)),
          set_acls (<[p := Mk_acl (aentries o ++ [(aserial o, blank_entry)]) (acurr o)
                            (aserial o + 1)]> (w_acls w))
            (set_calls (w_calls w ++ [Call_create_entry p]) w)).
Proof.
  intros Ho. unfold acl_create_entry, call, get, modify, mbind, M_bind. wsimpl. by rewrite Ho.
Qed.

Lemma acl_create_entry_None (w : world) (p : Z) :
  w_acls w !! p = None →
  acl_create_entry p w
  = Some ((-1, ENULL),
          set_errno EINVAL (set_calls (w_calls w ++ [Call_create_entry p]) w)).
Proof.
  intros Ho. unfold acl_create_entry, call, get, modify, mbind, M_bind. wsimpl. by rewrite Ho.
Qed.

Lemma alist_find_app_new (k : Z) (e : acl_entry_obj) l :
  alist_find k l = None → alist_find k (l ++ [(k, e)]) = Some e.
Proof.
  induction l as [|[k' e'] l IH]; simpl.
  - intros _. by rewrite decide_True.
  - destruct (decide (k' = k)); [done | auto].
Qed.

Lemma alist_find_app_old (k : Z) (r : acl_entry_obj) l l' :
  alist_find k l = Some r → alist_find k (l ++ l') = Some r.
Proof.
  induction l as [|[k' e'] l IH]; simpl; [done|].
  destruct (decide (k' = k)); [done | auto].
Qed.

Lemma alist_find_alter_ne (f : acl_entry_obj → acl_entry_obj) (k k' : Z) l :
  k' ≠ k → alist_find k' (alist_alter f k l) = alist_find k' l.
Proof.
  intros Hne. induction l as [|[k0 e] l IH]; simpl; [done|].
  destruct (decide (k0 = k)) as [->|Hk]; simpl.
  - by rewrite !decide_False by done.
  - destruct (decide (k0 = k')); [done | exact IH].
Qed.

Lemma entry_obj_p_alter_ne (f : acl_entry_obj → acl_entry_obj) (t e : acl_entry_t) (w : world) :
  t ≠ e → entry_obj_p t (entry_alter f e w) = entry_obj_p t w.
Proof.
  intros Hne. destruct e as [|a k]; [done|]. destruct t as [|a' k']; [done|].
  simpl. destruct (w_acls w !! a) as [o|] eqn:Ho; [|done]. wsimpl.
  destruct (decide (a' = a)) as [->|Ha].
  - rewrite lookup_insert_eq, Ho. wsimpl. apply alist_find_alter_ne. congruence.
  - by rewrite lookup_insert_ne.
Qed.

Lemma entry_obj_p_live (t : acl_entry_t) (r : acl_entry_obj) (w : world) :
  entry_obj_p t w = Some r → t ≠ ENULL.
Proof. by destruct t. Qed.

Lemma acl_get_tag_type_Some (e : acl_entry_t) (r : acl_entry_obj) (w : world) :
  entry_obj_p e w = Some r →
  acl_get_tag_type e w
  = Some ((0, etag r), set_calls (w_calls w ++ [Call_get_tag_type e]) w).
Proof.
  intros Hrec. unfold acl_get_tag_type, call, get, modify, mbind, M_bind. wsimpl.
  unfold id. by rewrite (entry_obj_p_acls e _ w), Hrec.
Qed.

Lemma Entry_get_tag_type_live (w : world) (e rc : Z) (ent : Entry_Object) (r : acl_entry_obj) :
  e ≠ NULL →
  w_heap w !! e = Some (Mk_obj rc (Obj_Entry ent)) →
  entry_obj_p (entry ent) w = Some r →
  Entry_get_tag_type e w
  = Some (Some (PyInt (etag r)),
          set_calls (w_calls w ++ [Call_get_tag_type (entry ent)]) w).
Proof.
  intros He Hheap Hrec. unfold Entry_get_tag_type.
  rewrite (bind_Some _ _ _ _ _ (load_Entry_Some _ _ _ _ He Hheap)).
  destruct (decide (entry ent = ENULL)) as [Hn|_];
    [by destruct (entry_obj_p_live _ _ _ Hrec)|].
  rewrite (bind_Some _ _ _ _ _ (acl_get_tag_type_Some _ _ _ Hrec)).
  by destruct (decide (0 = -1)).
Qed.

(** X10. Initializing an Entry on an ACL with a live handle appends one
    blank record (undefined tag, undefined qualifier, no permission) to
    that ACL, binds the Entry to it and takes one reference on the ACL
    object.  The records the ACL had stay under their descriptors, the
    tag of the new Entry reads [ACL_UNDEFINED_TAG], and no other object
    changes: a parent the Entry was bound to before keeps the reference
    that was taken for it. *)
Theorem Entry_init_appends_blank_record (w : world) (e rc p rcp : Z) (ent : Entry_Object)
    (self : ACL_Object) (o : acl_obj) :
  e ≠ NULL → p ≠ NULL →
  w_heap w !! e = Some (Mk_obj rc (Obj_Entry ent)) →
  w_heap w !! p = Some (Mk_obj rcp (Obj_ACL self)) →
  w_acls w !! acl self = Some o →
  alist_find (aserial o) (aentries o) = None →
  ∃ t w',
    Entry_init e [PyRef p] w = Some (0, w')
    ∧ w_heap w' = <[p := Mk_obj (rcp + 1) (Obj_ACL self)]>
                    (<[e := Mk_obj rc (Obj_Entry (Mk_Entry p t))]> (w_heap w))
    ∧ entry_obj_p t w' = Some blank_entry
    ∧ entry_set w' self = entry_set w self ++ [blank_entry]
    ∧ (∀ t0 r, entry_obj_p t0 w = Some r → entry_obj_p t0 w' = Some r)
    ∧ eval (Entry_get_tag_type e) w' = Some (Some (PyInt ACL_UNDEFINED_TAG))
    ∧ w_err w' = w_err w.
Proof.
  intros He Hp Hheape Hheapp Hacl Hser.
  assert (Hep : e ≠ p) by (intros ->; congruence).
  unfold Entry_init.
  rewrite (bind_Some _ _ _ _ _ (parse_O_bang_ACL _ _ _ _ Hheapp)).
  rewrite (bind_Some _ _ _ _ _ (load_ACL_Some _ _ _ _ Hp Hheapp)).
  rewrite (bind_Some _ _ _ _ _ (acl_create_entry_Some _ _ _ Hacl)).
  destruct (decide (0 = -1)) as [?|_]; [done|].
  erewrite bind_Some by (apply store_body_Some; [done | wsimpl; exact Hheape]).
  erewrite bind_Some
    by (apply Py_INCREF_Some; [done | wsimpl; rewrite lookup_insert_ne by done; exact Hheapp]).
  wsimpl. eexists _, _. split; [reflexivity|]. wsimpl.
  assert (Hnew : ∀ w0, w_acls w0
                       = <[acl self := Mk_acl (aentries o ++ [(aserial o, blank_entry)])
                                         (acurr o) (aserial o + 1)]> (w_acls w) →
                       entry_obj_p (EREF (acl self) (aserial o)) w0 = Some blank_entry).
  { intros w0 Hw0. simpl. rewrite Hw0, lookup_insert_eq. wsimpl.
    by apply alist_find_app_new. }
  split_and!; try done.
  - by apply Hnew.
  - unfold entry_set. wsimpl. rewrite lookup_insert_eq, Hacl. wsimpl.
    by rewrite fmap_app.
  - intros [|a k] r; simpl; [done|]. destruct (decide (a = acl self)) as [->|Ha].
    + rewrite lookup_insert_eq, Hacl. wsimpl. apply alist_find_app_old.
    + by rewrite lookup_insert_ne.
  - unfold eval.
    rewrite (Entry_get_tag_type_live _ e rc (Mk_Entry p (EREF (acl self) (aserial o)))
               blank_entry); [done | done | | by apply Hnew].
    wsimpl. rewrite lookup_insert_ne by done. by rewrite lookup_insert_eq.
Qed.

(** X11. A binding that the library refuses takes no reference:
    [Entry_init] on an ACL without a live handle and [Permset_init] on
    an Entry without a live record return -1 with the IOError of the
    library's errno, and the objects of the heap are as before. *)
Theorem refused_binding_takes_no_reference (w : world) (e rc p rcp ps rcs : Z)
    (ent : Entry_Object) (self : ACL_Object) (pso : Permset_Object) :
  e ≠ NULL → p ≠ NULL → ps ≠ NULL →
  w_heap w !! e = Some (Mk_obj rc (Obj_Entry ent)) →
  w_heap w !! p = Some (Mk_obj rcp (Obj_ACL self)) →
  w_heap w !! ps = Some (Mk_obj rcs (Obj_Permset pso)) →
  (w_acls w !! acl self = None →
   ∃ w', Entry_init e [PyRef p] w = Some (-1, w')
         ∧ w_err w' = Some (Mk_exc PyExc_IOError (Errno EINVAL))
         ∧ w_heap w' = w_heap w ∧ w_acls w' = w_acls w)
  ∧ (entry_obj_p (entry ent) w = None →
     ∃ w', Permset_init ps [PyRef e] w = Some (-1, w')
           ∧ w_err w' = Some (Mk_exc PyExc_IOError (Errno EINVAL))
           ∧ w_heap w' = w_heap w ∧ w_acls w' = w_acls w).
Proof.
  intros He Hp Hps Hheape Hheapp Hheaps. split.
  - intros Hacl. unfold Entry_init.
    rewrite (bind_Some _ _ _ _ _ (parse_O_bang_ACL _ _ _ _ Hheapp)).
    rewrite (bind_Some _ _ _ _ _ (load_ACL_Some _ _ _ _ Hp Hheapp)).
    rewrite (bind_Some _ _ _ _ _ (acl_create_entry_None _ _ Hacl)).
    destruct (decide (-1 = -1)) as [_|?]; [|done].
    eexists. split; [reflexivity|]. by wsimpl.
  - intros Hrec. unfold Permset_init.
    rewrite (bind_Some _ _ _ _ _ (load_Permset_Some _ _ _ _ Hps Hheaps)).
    rewrite (bind_Some _ _ _ _ _ (parse_O_bang_Entry _ _ _ _ Hheape)).
    rewrite (bind_Some _ _ _ _ _ (load_Entry_Some _ _ _ _ He Hheape)).
    assert (Hrun : acl_get_permset (entry ent) w
                   = Some ((-1, ENULL),
                           set_errno EINVAL
                             (set_calls (w_calls w ++ [Call_get_permset (entry ent)]) w))).
    { unfold acl_get_permset, call, fail_with, get, modify, mbind, M_bind. wsimpl.
      unfold id. by rewrite (entry_obj_p_acls _ _ w), Hrec. }
    rewrite (bind_Some _ _ _ _ _ Hrun).
    destruct (decide (-1 = -1)) as [_|?]; [|done].
    eexists. split; [reflexivity|]. by wsimpl.
Qed.

Lemma to_int_small (q : Z) : -2147483648 ≤ q ≤ 2147483647 → to_int q = q.
Proof. intros Hq. unfold to_int. rewrite Z.mod_small by lia. lia. Qed.

Lemma to_int_to_uint (q : Z) : to_int (to_uint q) = to_int q.
Proof. unfold to_int, to_uint. by rewrite Zplus_mod_idemp_l. Qed.

Lemma recognized_tag_small (t : Z) : recognized_tag t = true → to_int t = t.
Proof.
  unfold recognized_tag. intros H%bool_decide_eq_true_1.
  repeat (apply elem_of_cons in H as [->|H]; [done|]). by apply elem_of_nil in H.
Qed.

Lemma acl_set_tag_type_Some (e : acl_entry_t) (r : acl_entry_obj) (t : Z) (w : world) :
  entry_obj_p e w = Some r →
  recognized_tag t = true →
  acl_set_tag_type e t w
  = Some (0, entry_alter (λ r, Mk_entry t (eid r) (eperm r)) e
               (set_calls (w_calls w ++ [Call_set_tag_type e t]) w)).
Proof.
  intros Hrec Ht. unfold acl_set_tag_type, call, get, modify, mbind, M_bind. wsimpl.
  unfold id. by rewrite (entry_obj_p_acls e _ w), Hrec, Ht.
Qed.

Lemma entry_alter_err f e w : w_err (entry_alter f e w) = w_err w.
Proof. destruct e as [|a k]; simpl; [done|]. by destruct (w_acls w !! a). Qed.

(** X12. A recognized tag type set on an Entry with a live record is the
    tag type read back; the qualifier and the permissions of the record
    are untouched, and so are the heap and the error indicator. *)
Theorem tag_type_round_trip (w : world) (e rc : Z) (ent : Entry_Object)
    (r : acl_entry_obj) (t : Z) :
  e ≠ NULL →
  w_heap w !! e = Some (Mk_obj rc (Obj_Entry ent)) →
  entry_obj_p (entry ent) w = Some r →
  recognized_tag t = true →
  ∃ w', Entry_set_tag_type e (Some (PyInt t)) w = Some (0, w')
        ∧ eval (Entry_get_tag_type e) w' = Some (Some (PyInt t))
        ∧ entry_obj_p (entry ent) w' = Some (Mk_entry t (eid r) (eperm r))
        ∧ w_heap w' = w_heap w
        ∧ w_err w' = w_err w.
Proof.
  intros He Hheap Hrec Ht.
  rewrite (Entry_set_tag_type_int _ _ _ _ (PyInt t) He Hheap) by done.
  cbn [PyInt_AsLong]. rewrite (recognized_tag_small _ Ht).
  rewrite (bind_Some _ _ _ _ _ (acl_set_tag_type_Some _ _ _ _ Hrec Ht)).
  destruct (decide (0 = -1)) as [?|_]; [done|].
  eexists. split; [reflexivity|].
  assert (Hrec' : entry_obj_p (entry ent)
                    (entry_alter (λ r0, Mk_entry t (eid r0) (eperm r0)) (entry ent)
                       (set_calls (w_calls w ++ [Call_set_tag_type (entry ent) t]) w))
                  = Some (Mk_entry t (eid r) (eperm r))).
  { by rewrite entry_obj_p_alter, (entry_obj_p_acls _ _ w), Hrec. }
  split_and!.
  - unfold eval.
    rewrite (Entry_get_tag_type_live _ e rc ent (Mk_entry t (eid r) (eperm r)) He);
      [done | | exact Hrec'].
    rewrite entry_alter_heap. exact Hheap.
  - exact Hrec'.
  - by rewrite entry_alter_heap.
  - by rewrite entry_alter_err.
Qed.

Lemma acl_set_qualifier_Some (e : acl_entry_t) (r : acl_entry_obj) (q : Z) (w : world) :
  entry_obj_p e w = Some r →
  acl_set_qualifier e q w
  = Some (0, entry_alter (λ r, Mk_entry (etag r) q (eperm r)) e
               (set_calls (w_calls w ++ [Call_set_qualifier e q]) w)).
Proof.
  intros Hrec. unfold acl_set_qualifier, call, get, modify, mbind, M_bind. wsimpl.
  unfold id. by rewrite (entry_obj_p_acls e _ w), Hrec.
Qed.

Lemma acl_get_qualifier_Some (e : acl_entry_t) (r : acl_entry_obj) (w : world) :
  entry_obj_p e w = Some r →
  etag r = ACL_USER ∨ etag r = ACL_GROUP →
  acl_get_qualifier e w
  = Some (Some (eid r), set_calls (w_calls w ++ [Call_get_qualifier e]) w).
Proof.
  intros Hrec Htag. unfold acl_get_qualifier, call, get, modify, mbind, M_bind. wsimpl.
  unfold id. rewrite (entry_obj_p_acls e _ w), Hrec by done.
  by destruct (decide (etag r = ACL_USER ∨ etag r = ACL_GROUP)).
Qed.

(** X13. On a USER or GROUP record, a qualifier that fits a C [int] is
    read back as it was set, and the record keeps it as an unsigned id
    (so -1 is stored as [ACL_UNDEFINED_ID]); tag and permissions are
    untouched. *)
Theorem qualifier_round_trip (w : world) (e rc : Z) (ent : Entry_Object)
    (r : acl_entry_obj) (q : Z) :
  e ≠ NULL →
  w_heap w !! e = Some (Mk_obj rc (Obj_Entry ent)) →
  entry_obj_p (entry ent) w = Some r →
  etag r = ACL_USER ∨ etag r = ACL_GROUP →
  -2147483648 ≤ q ≤ 2147483647 →
  ∃ w', Entry_set_qualifier e (Some (PyInt q)) w = Some (0, w')
        ∧ eval (Entry_get_qualifier e) w' = Some (Some (PyInt q))
        ∧ entry_obj_p (entry ent) w' = Some (Mk_entry (etag r) (to_uint q) (eperm r))
        ∧ w_heap w' = w_heap w
        ∧ w_err w' = w_err w.
Proof.
  intros He Hheap Hrec Htag Hq. unfold Entry_set_qualifier.
  rewrite (bind_Some _ _ _ _ _ (load_Entry_Some _ _ _ _ He Hheap)).
  cbn [PyInt_Check negb PyInt_AsLong]. rewrite (to_int_small _ Hq).
  rewrite (bind_Some _ _ _ _ _ (acl_set_qualifier_Some _ _ _ _ Hrec)).
  destruct (decide (0 = -1)) as [?|_]; [done|].
  eexists. split; [reflexivity|].
  set (w' := entry_alter _ _ _).
  assert (Hrec' : entry_obj_p (entry ent) w' = Some (Mk_entry (etag r) (to_uint q) (eperm r))).
  { subst w'. by rewrite entry_obj_p_alter, (entry_obj_p_acls _ _ w), Hrec. }
  assert (Hheap' : w_heap w' = w_heap w) by (subst w'; by rewrite entry_alter_heap).
  split_and!; try done.
  - unfold eval, Entry_get_qualifier.
    erewrite bind_Some by (apply (load_Entry_Some _ rc); [done | by rewrite Hheap']).
    destruct (decide (entry ent = ENULL)) as [Hn|_];
      [by destruct (entry_obj_p_live _ _ _ Hrec)|].
    rewrite (bind_Some _ _ _ _ _ (acl_get_qualifier_Some _ _ _ Hrec' Htag)).
    wsimpl. unfold acl_free_buf. cbn. by rewrite to_int_to_uint, to_int_small.
  - subst w'. by rewrite entry_alter_err.
Qed.

Lemma acl_copy_entry_Some (dst src : acl_entry_t) (r s : acl_entry_obj) (w : world) :
  entry_obj_p dst w = Some r →
  entry_obj_p src w = Some s →
  acl_copy_entry dst src w
  = Some (0, entry_alter (λ _, s) dst
               (set_calls (w_calls w ++ [Call_copy_entry dst src]) w)).
Proof.
  intros Hr Hs. unfold acl_copy_entry, call, get, modify, mbind, M_bind. wsimpl.
  unfold id. by rewrite (entry_obj_p_acls dst _ w), Hr, (entry_obj_p_acls src _ w), Hs.
Qed.

(** X14. [Entry_copy] makes the record of the Entry equal to the record
    of the argument (tag, qualifier and permissions), leaves the record
    of the argument and every other record as they were, and changes no
    object of the heap: the two Entry objects stay views of two
    records. *)
Theorem Entry_copy_copies_the_record (w : world) (e1 rc1 e2 rc2 : Z)
    (ent1 ent2 : Entry_Object) (r1 r2 : acl_entry_obj) :
  e1 ≠ NULL → e2 ≠ NULL →
  w_heap w !! e1 = Some (Mk_obj rc1 (Obj_Entry ent1)) →
  w_heap w !! e2 = Some (Mk_obj rc2 (Obj_Entry ent2)) →
  entry_obj_p (entry ent1) w = Some r1 →
  entry_obj_p (entry ent2) w = Some r2 →
  ∃ w', Entry_copy e1 [PyRef e2] w = Some (Some Py_None, w')
        ∧ entry_obj_p (entry ent1) w' = Some r2
        ∧ entry_obj_p (entry ent2) w' = Some r2
        ∧ (∀ t, t ≠ entry ent1 → entry_obj_p t w' = entry_obj_p t w)
        ∧ w_heap w' = w_heap w
        ∧ w_err w' = w_err w.
Proof.
  intros He1 He2 Hheap1 Hheap2 Hrec1 Hrec2. unfold Entry_copy.
  rewrite (bind_Some _ _ _ _ _ (load_Entry_Some _ _ _ _ He1 Hheap1)).
  rewrite (bind_Some _ _ _ _ _ (parse_O_bang_Entry _ _ _ _ Hheap2)).
  rewrite (bind_Some _ _ _ _ _ (load_Entry_Some _ _ _ _ He2 Hheap2)).
  rewrite (bind_Some _ _ _ _ _ (acl_copy_entry_Some _ _ _ _ _ Hrec1 Hrec2)).
  destruct (decide (0 = -1)) as [?|_]; [done|].
  eexists. split; [reflexivity|].
  set (w' := entry_alter _ _ _).
  assert (H1 : entry_obj_p (entry ent1) w' = Some r2).
  { subst w'. by rewrite entry_obj_p_alter, (entry_obj_p_acls _ _ w), Hrec1. }
  assert (Hothers : ∀ t, t ≠ entry ent1 → entry_obj_p t w' = entry_obj_p t w).
  { intros t Ht. subst w'. rewrite entry_obj_p_alter_ne by done.
    by apply entry_obj_p_acls. }
  split_and!; try done.
  - destruct (decide (entry ent2 = entry ent1)) as [Heq|Hne].
    + by rewrite Heq.
    + by rewrite Hothers.
  - subst w'. by rewrite entry_alter_heap.
  - subst w'. by rewrite entry_alter_err.
Qed.

Lemma acl_set_permset_Some (e p : acl_entry_t) (r s : acl_entry_obj) (w : world) :
  entry_obj_p e w = Some r →
  entry_obj_p p w = Some s →
  acl_set_permset e p w
  = Some (0, entry_alter (λ r, Mk_entry (etag r) (eid r) (eperm s)) e
               (set_calls (w_calls w ++ [Call_set_permset e p]) w)).
Proof.
  intros Hr Hs. unfold acl_set_permset, call, get, modify, mbind, M_bind. wsimpl.
  unfold id. by rewrite (entry_obj_p_acls e _ w), Hr, (entry_obj_p_acls p _ w), Hs.
Qed.

Lemma Permset_set_right_run (w : world) (p rc : Z) (ps : Permset_Object)
    (r : acl_entry_obj) (right : Z) (on : bool) :
  p ≠ NULL →
  w_heap w !! p = Some (Mk_obj rc (Obj_Permset ps)) →
  entry_obj_p (permset ps) w = Some r →
  is_right right →
  ∃ c, Permset_set_right p (Some (Py_Bool on)) right w
       = Some (0, entry_alter
                    (λ r, Mk_entry (etag r) (eid r)
                            (if on then Z.lor (eperm r) right
                             else Z.land (eperm r) (Z.lnot right)))
                    (permset ps) (set_calls (w_calls w ++ [c]) w)).
Proof.
  intros Hp Hheap Hrec Hright. unfold Permset_set_right.
  rewrite (bind_Some _ _ _ _ _ (load_Permset_Some _ _ _ _ Hp Hheap)).
  assert (Hint : to_int right = right) by (destruct Hright as [->|[->| ->]]; done).
  assert (Hok : Z.land right (Z.lnot all_perms) = 0) by (destruct Hright as [->|[->| ->]]; done).
  cbn [PyInt_Check negb PyInt_AsLong]. rewrite Hint.
  destruct on.
  - change (to_int 1) with 1. rewrite decide_True by done.
    unfold acl_add_perm, call, get, modify, mbind, M_bind. wsimpl.
    rewrite (entry_obj_p_acls _ _ w), Hrec by done.
    rewrite decide_True by done. cbn [mret M_ret]. rewrite decide_False by done.
    by eexists.
  - change (to_int 0) with 0. rewrite decide_False by (intros H; by apply H).
    unfold acl_delete_perm, call, get, modify, mbind, M_bind. wsimpl.
    rewrite (entry_obj_p_acls _ _ w), Hrec by done.
    rewrite decide_True by done. cbn [mret M_ret]. rewrite decide_False by done.
    by eexists.
Qed.

(** X15. Assigning a Permset to an Entry copies the permission bits into
    the record of the Entry and shares nothing: tag and qualifier of the
    record stay, the record the Permset reads is unchanged, and a right
    set or cleared through that Permset afterwards does not reach the
    Entry. *)
Theorem Entry_set_permset_copies_the_bits (w : world) (e rc p rcp : Z)
    (ent : Entry_Object) (ps : Permset_Object) (r s : acl_entry_obj)
    (right : Z) (on : bool) :
  e ≠ NULL → p ≠ NULL →
  w_heap w !! e = Some (Mk_obj rc (Obj_Entry ent)) →
  w_heap w !! p = Some (Mk_obj rcp (Obj_Permset ps)) →
  entry_obj_p (entry ent) w = Some r →
  entry_obj_p (permset ps) w = Some s →
  entry ent ≠ permset ps →
  is_right right →
  ∃ w1 w2,
    Entry_set_permset e (Some (PyRef p)) w = Some (0, w1)
    ∧ entry_obj_p (entry ent) w1 = Some (Mk_entry (etag r) (eid r) (eperm s))
    ∧ entry_obj_p (permset ps) w1 = Some s
    ∧ w_heap w1 = w_heap w
    ∧ Permset_set_right p (Some (Py_Bool on)) right w1 = Some (0, w2)
    ∧ entry_obj_p (entry ent) w2 = Some (Mk_entry (etag r) (eid r) (eperm s)).
Proof.
  intros He Hp Hheape Hheapp Hr Hs Hne Hright. unfold Entry_set_permset.
  rewrite (bind_Some _ _ _ _ _ (load_Entry_Some _ _ _ _ He Hheape)).
  unfold get at 1. unfold mbind at 1, M_bind at 1. unfold id. cbv beta iota.
  destruct (decide (type_of w (PyRef p) = Some Permset_Type)) as [_|Hty];
    [|destruct Hty; unfold type_of; by rewrite Hheapp].
  rewrite (bind_Some _ _ _ _ _ (load_Permset_Some _ _ _ _ Hp Hheapp)).
  rewrite (bind_Some _ _ _ _ _ (acl_set_permset_Some _ _ _ _ _ Hr Hs)).
  destruct (decide (0 = -1)) as [?|_]; [done|].
  set (w1 := entry_alter _ _ _).
  assert (H1 : entry_obj_p (entry ent) w1 = Some (Mk_entry (etag r) (eid r) (eperm s))).
  { subst w1. by rewrite entry_obj_p_alter, (entry_obj_p_acls _ _ w), Hr. }
  assert (H2 : entry_obj_p (permset ps) w1 = Some s).
  { subst w1. rewrite entry_obj_p_alter_ne by done.
    by rewrite (entry_obj_p_acls _ _ w). }
  assert (Hh : w_heap w1 = w_heap w) by (subst w1; by rewrite entry_alter_heap).
  destruct (Permset_set_right_run w1 p rcp ps s right on Hp) as [c Hrun]; try done.
  { by rewrite Hh. }
  eexists w1, _. split_and!; try done.
  rewrite entry_obj_p_alter_ne by done.
  by rewrite (entry_obj_p_acls _ _ w1).
Qed.

(** X16. The setters look at the type of the value before anything else:
    a value that is not an integer (for the qualifier and for a right),
    a deleted qualifier, or a value that is not a Permset (for the
    permission set) is refused with an InvalidArgument error, and
    nothing but the error indicator changes: no library call is made.
    The qualifier setter reports it with the message of the tag type
    setter, and the right setter with a ValueError. *)
Theorem setters_check_the_value_first (w : world) (e rc p rcp : Z)
    (ent : Entry_Object) (ps : Permset_Object) (v : PyObject) (right : Z) :
  e ≠ NULL → p ≠ NULL →
  w_heap w !! e = Some (Mk_obj rc (Obj_Entry ent)) →
  w_heap w !! p = Some (Mk_obj rcp (Obj_Permset ps)) →
  (Entry_set_qualifier e None w
   = Some (-1, set_err (Some (Mk_exc PyExc_TypeError
                                (Msg "qualifier deletion is not supported"))) w))
  ∧ (PyInt_Check v = false →
     Entry_set_qualifier e (Some v) w
     = Some (-1, set_err (Some (Mk_exc PyExc_TypeError (Msg "tag type must be integer"))) w)
     ∧ Permset_set_right p (Some v) right w
       = Some (-1, set_err (Some (Mk_exc PyExc_ValueError
                                    (Msg "a maximum of one argument must be passed"))) w)
     ∧ kind_of PyExc_ValueError = InvalidArgument)
  ∧ (type_of w v ≠ Some Permset_Type →
     Entry_set_permset e (Some v) w
     = Some (-1, set_err (Some (Mk_exc PyExc_TypeError
                                  (Msg "argument 1 must be posix1e.Permset"))) w)
     ∧ kind_of PyExc_TypeError = InvalidArgument).
Proof.
  intros He Hp Hheape Hheapp. split_and!.
  - unfold Entry_set_qualifier.
    by rewrite (bind_Some _ _ _ _ _ (load_Entry_Some _ _ _ _ He Hheape)).
  - intros Hv. split_and!; [| |done].
    + unfold Entry_set_qualifier.
      rewrite (bind_Some _ _ _ _ _ (load_Entry_Some _ _ _ _ He Hheape)).
      by rewrite Hv.
    + unfold Permset_set_right.
      rewrite (bind_Some _ _ _ _ _ (load_Permset_Some _ _ _ _ Hp Hheapp)).
      by rewrite Hv.
  - intros Hv. split; [|done]. unfold Entry_set_permset.
    rewrite (bind_Some _ _ _ _ _ (load_Entry_Some _ _ _ _ He Hheape)).
    unfold get at 1. unfold mbind at 1, M_bind at 1. unfold id. cbv beta iota.
    destruct v; try done.
    by destruct (decide _).
Qed.

Lemma describe_other (tag q : Z) :
  ¬ (tag = ACL_USER ∨ tag = ACL_GROUP) → describe tag q = describe tag 0.
Proof.
  intros Hn. unfold describe. repeat case_decide; try done; destruct Hn; auto.
Qed.

Lemma to_int_large (q : Z) : 2147483648 ≤ q ≤ 4294967295 → to_int q = q - 4294967296.
Proof.
  intros Hq. unfold to_int.
  replace (q + 2147483648) with ((q - 2147483648) + 1 * 4294967296) by lia.
  rewrite Z_mod_plus_full, Z.mod_small by lia. lia.
Qed.

Lemma to_int_nonneg (q : Z) : 0 ≤ q ≤ 2147483647 → to_int q = q.
Proof. intros Hq. apply to_int_small. lia. Qed.

(** X17. The text of an Entry with a live record is fixed by the tag of
    the record: one text for each of the undefined tag, the owner, the
    owning group, the others and the mask, a text with the qualifier for
    a USER and for a GROUP record, and one text for every other value of
    the tag.  The qualifier is printed as a signed C [int]: an id up to
    2147483647 shows as it is, a larger one as a negative number.
    Producing the text changes neither the heap, the library's memory
    nor the error indicator; the library is asked for the tag and, for a
    USER or GROUP record only, for the qualifier. *)
Theorem Entry_str_reads_the_record (w : world) (e rc : Z) (ent : Entry_Object)
    (r : acl_entry_obj) :
  e ≠ NULL →
  w_heap w !! e = Some (Mk_obj rc (Obj_Entry ent)) →
  entry_obj_p (entry ent) w = Some r →
  ∃ text w',
    Entry_str e w = Some (Some (PyString ("ACL entry for " +:+ text)), w')
    ∧ w_heap w' = w_heap w
    ∧ w_acls w' = w_acls w
    ∧ w_err w' = w_err w
    ∧ (etag r = ACL_UNDEFINED_TAG → text = "undefined type")
    ∧ (etag r = ACL_USER_OBJ → text = "the owner")
    ∧ (etag r = ACL_GROUP_OBJ → text = "the group")
    ∧ (etag r = ACL_OTHER → text = "the others")
    ∧ (etag r = ACL_MASK → text = "the mask")
    ∧ (etag r ∉ [ACL_UNDEFINED_TAG; ACL_USER_OBJ; ACL_USER; ACL_GROUP_OBJ; ACL_GROUP;
                  ACL_MASK; ACL_OTHER] →
       text = "UNKNOWN_TAG_TYPE!")
    ∧ (etag r = ACL_USER → 0 ≤ eid r ≤ 2147483647 →
       text = "user with uid " +:+ pretty (eid r))
    ∧ (etag r = ACL_USER → 2147483648 ≤ eid r ≤ 4294967295 →
       text = "user with uid " +:+ pretty (eid r - 4294967296))
    ∧ (etag r = ACL_GROUP → 0 ≤ eid r ≤ 2147483647 →
       text = "group with gid " +:+ pretty (eid r))
    ∧ (etag r = ACL_GROUP → 2147483648 ≤ eid r ≤ 4294967295 →
       text = "group with gid " +:+ pretty (eid r - 4294967296))
    ∧ (¬ (etag r = ACL_USER ∨ etag r = ACL_GROUP) →
       w_calls w' = w_calls w ++ [Call_get_tag_type (entry ent)])
    ∧ (etag r = ACL_USER ∨ etag r = ACL_GROUP →
       w_calls w' = w_calls w ++ [Call_get_tag_type (entry ent);
                                  Call_get_qualifier (entry ent)]).
Proof.
  intros He Hheap Hrec.
  assert (Htext :
    (etag r = ACL_UNDEFINED_TAG → describe (etag r) (eid r) = "undefined type")
    ∧ (etag r = ACL_USER_OBJ → describe (etag r) (eid r) = "the owner")
    ∧ (etag r = ACL_GROUP_OBJ → describe (etag r) (eid r) = "the group")
    ∧ (etag r = ACL_OTHER → describe (etag r) (eid r) = "the others")
    ∧ (etag r = ACL_MASK → describe (etag r) (eid r) = "the mask")
    ∧ (etag r ∉ [ACL_UNDEFINED_TAG; ACL_USER_OBJ; ACL_USER; ACL_GROUP_OBJ; ACL_GROUP;
                  ACL_MASK; ACL_OTHER] →
       describe (etag r) (eid r) = "UNKNOWN_TAG_TYPE!")
    ∧ (etag r = ACL_USER → 0 ≤ eid r ≤ 2147483647 →
       describe (etag r) (eid r) = "user with uid " +:+ pretty (eid r))
    ∧ (etag r = ACL_USER → 2147483648 ≤ eid r ≤ 4294967295 →
       describe (etag r) (eid r) = "user with uid " +:+ pretty (eid r - 4294967296))
    ∧ (etag r = ACL_GROUP → 0 ≤ eid r ≤ 2147483647 →
       describe (etag r) (eid r) = "group with gid " +:+ pretty (eid r))
    ∧ (etag r = ACL_GROUP → 2147483648 ≤ eid r ≤ 4294967295 →
       describe (etag r) (eid r) = "group with gid " +:+ pretty (eid r - 4294967296))).
  { split_and!.
    1-5: intros ->; reflexivity.
    - intros Hnot. unfold describe.
      repeat (case_decide; [destruct Hnot; set_solver|]). done.
    - intros -> Hq. unfold describe. repeat (case_decide; [done|]).
      case_decide; [|done]. by rewrite to_int_nonneg.
    - intros -> Hq. unfold describe. repeat (case_decide; [done|]).
      case_decide; [|done]. by rewrite to_int_large.
    - intros -> Hq. unfold describe. repeat (case_decide; [done|]).
      case_decide; [|done]. by rewrite to_int_nonneg.
    - intros -> Hq. unfold describe. repeat (case_decide; [done|]).
      case_decide; [|done]. by rewrite to_int_large. }
  unfold Entry_str.
  rewrite (bind_Some _ _ _ _ _ (load_Entry_Some _ _ _ _ He Hheap)).
  rewrite (bind_Some _ _ _ _ _ (acl_get_tag_type_Some _ _ _ Hrec)).
  destruct (decide (0 = -1)) as [?|_]; [done|].
  exists (describe (etag r) (eid r)).
  destruct (decide (etag r = ACL_USER ∨ etag r = ACL_GROUP)) as [Htag|Htag].
  - assert (Hrec1 : entry_obj_p (entry ent)
                      (set_calls (w_calls w ++ [Call_get_tag_type (entry ent)]) w) = Some r)
      by (by rewrite (entry_obj_p_acls _ _ w)).
    assert (Hm : (p ← acl_get_qualifier (entry ent);
                  match p with
                  | None => mret None
                  | Some qualifier => _ ← acl_free_buf; mret (Some qualifier)
                  end) (set_calls (w_calls w ++ [Call_get_tag_type (entry ent)]) w)
                 = Some (Some (eid r),
                         set_calls ((w_calls w ++ [Call_get_tag_type (entry ent)])
                                    ++ [Call_get_qualifier (entry ent)]) w)).
    { by rewrite (bind_Some _ _ _ _ _ (acl_get_qualifier_Some _ _ _ Hrec1 Htag)). }
    rewrite (bind_Some _ _ _ _ _ Hm).
    eexists. split; [reflexivity|]. wsimpl.
    destruct Htext as (H1 & H2 & H3 & H4 & H5 & H6 & H7 & H8 & H9 & H10).
    split_and!; try done. intros _. by rewrite <- app_assoc.
  - rewrite !ret_bind.
    eexists. split; [by rewrite (describe_other _ (eid r))|]. wsimpl.
    destruct Htext as (H1 & H2 & H3 & H4 & H5 & H6 & H7 & H8 & H9 & H10).
    split_and!; try done.
Qed.

(** ** Permission sets *)

(** X18. Initializing a Permset on an Entry with a live record binds it
    as the accessor of the Entry does: to that Entry and to the
    permission bits of its record, with one reference taken on the
    Entry; each right then reads as the record has it.  The library's
    memory is not changed. *)
Theorem Permset_init_binds_to_the_record (w : world) (p rcp e rc : Z)
    (ps : Permset_Object) (ent : Entry_Object) (r : acl_entry_obj) (right : Z) :
  p ≠ NULL → e ≠ NULL →
  w_heap w !! p = Some (Mk_obj rcp (Obj_Permset ps)) →
  w_heap w !! e = Some (Mk_obj rc (Obj_Entry ent)) →
  entry_obj_p (entry ent) w = Some r →
  is_right right →
  ∃ w', Permset_init p [PyRef e] w = Some (0, w')
        ∧ w_heap w' = <[e := Mk_obj (rc + 1) (Obj_Entry ent)]>
                        (<[p := Mk_obj rcp (Obj_Permset (Mk_Permset e (entry ent)))]>
                           (w_heap w))
        ∧ w_acls w' = w_acls w
        ∧ w_err w' = w_err w
        ∧ eval (Permset_get_right p right) w'
          = Some (Some (Py_Bool (bool_decide (Z.land (eperm r) right ≠ 0)))).
Proof.
  intros Hp He Hheapp Hheape Hrec Hright.
  assert (Hpe : p ≠ e) by (intros ->; congruence).
  unfold Permset_init.
  rewrite (bind_Some _ _ _ _ _ (load_Permset_Some _ _ _ _ Hp Hheapp)).
  rewrite (bind_Some _ _ _ _ _ (parse_O_bang_Entry _ _ _ _ Hheape)).
  rewrite (bind_Some _ _ _ _ _ (load_Entry_Some _ _ _ _ He Hheape)).
  rewrite (bind_Some _ _ _ _ _ (acl_get_permset_Some _ _ _ Hrec)).
  destruct (decide (0 = -1)) as [?|_]; [done|].
  erewrite bind_Some by (apply store_body_Some; [done | wsimpl; exact Hheapp]).
  erewrite bind_Some
    by (apply Py_INCREF_Some; [done | wsimpl; rewrite lookup_insert_ne by done; exact Hheape]).
  wsimpl. eexists. split; [reflexivity|]. wsimpl. split_and!; try done.
  apply (Permset_get_right_spec _ p rcp (Mk_Permset e (entry ent))); try done.
  wsimpl. rewrite lookup_insert_ne by done. by rewrite lookup_insert_eq.
Qed.

Lemma get_perm_run (p : acl_permset_t) (perm : Z) (w : world) :
  ∃ w', get_perm p perm w
        = Some (match entry_obj_p p w with
                | Some r => if decide (Z.land (eperm r) perm = 0) then 0 else 1
                | None => -1
                end, w')
        ∧ w_heap w' = w_heap w ∧ w_acls w' = w_acls w ∧ w_err w' = w_err w.
Proof.
  unfold get_perm, call, fail_with, get, modify, mbind, M_bind. wsimpl. unfold id.
  rewrite (entry_obj_p_acls p _ w) by done.
  destruct (entry_obj_p p w) as [r|]; by eexists.
Qed.

Lemma Permset_get_right_run (w : world) (p rc : Z) (ps : Permset_Object) (right : Z) :
  p ≠ NULL →
  w_heap w !! p = Some (Mk_obj rc (Obj_Permset ps)) →
  is_right right →
  eval (Permset_get_right p right) w
  = Some (Some (Py_Bool (match entry_obj_p (permset ps) w with
                         | Some r => bool_decide (Z.land (eperm r) right ≠ 0)
                         | None => true
                         end))).
Proof.
  intros Hp Hheap Hright. unfold eval, Permset_get_right.
  rewrite (bind_Some _ _ _ _ _ (load_Permset_Some _ _ _ _ Hp Hheap)).
  assert (Hint : to_int right = right) by (destruct Hright as [->|[->| ->]]; done).
  rewrite Hint.
  destruct (get_perm_run (permset ps) right w) as (w' & Hrun & _).
  rewrite (bind_Some _ _ _ _ _ Hrun).
  destruct (entry_obj_p (permset ps) w) as [r|]; [|done].
  destruct (decide (Z.land (eperm r) right = 0)) as [Hz|Hz].
  - rewrite bool_decide_eq_false_2 by (intros H; by apply H). done.
  - rewrite bool_decide_eq_true_2 by done. done.
Qed.

Lemma Permset_str_run (w : world) (p rc : Z) (ps : Permset_Object) :
  p ≠ NULL →
  w_heap w !! p = Some (Mk_obj rc (Obj_Permset ps)) →
  ∃ w', Permset_str p w
        = Some (Some (PyString
                        (match entry_obj_p (permset ps) w with
                         | Some r => rwx (bool_decide (Z.land (eperm r) ACL_READ ≠ 0))
                                         (bool_decide (Z.land (eperm r) ACL_WRITE ≠ 0))
                                         (bool_decide (Z.land (eperm r) ACL_EXECUTE ≠ 0))
                         | None => rwx true true true
                         end)), w')
        ∧ w_heap w' = w_heap w ∧ w_acls w' = w_acls w ∧ w_err w' = w_err w.
Proof.
  intros Hp Hheap. unfold Permset_str.
  rewrite (bind_Some _ _ _ _ _ (load_Permset_Some _ _ _ _ Hp Hheap)).
  destruct (get_perm_run (permset ps) ACL_READ w) as (w1 & Hrun1 & Hh1 & Ha1 & He1).
  rewrite (bind_Some _ _ _ _ _ Hrun1).
  destruct (get_perm_run (permset ps) ACL_WRITE w1) as (w2 & Hrun2 & Hh2 & Ha2 & He2).
  rewrite (bind_Some _ _ _ _ _ Hrun2).
  destruct (get_perm_run (permset ps) ACL_EXECUTE w2) as (w3 & Hrun3 & Hh3 & Ha3 & He3).
  rewrite (bind_Some _ _ _ _ _ Hrun3).
  rewrite (entry_obj_p_acls _ w2 w), (entry_obj_p_acls _ w1 w) by congruence.
  exists w3. split; [|split_and!; congruence].
  cbn [mret M_ret]. do 3 f_equal. unfold rwx.
  destruct (entry_obj_p (permset ps) w) as [r|]; [|done].
  repeat match goal with
         | |- context [decide (Z.land ?a ?b = 0)] =>
             destruct (decide (Z.land a b = 0)) as [?|?]
         end;
    repeat first [rewrite bool_decide_eq_false_2 by (intros H; by apply H)
                 | rewrite bool_decide_eq_true_2 by done];
    done.
Qed.

(** X19. The text of a Permset and its three rights agree: the text has
    a letter exactly where the right reads True, whatever the Permset is
    bound to.  A Permset that is bound to no live record (never
    initialized, or its record is gone) reads True for every right and
    prints as [rwx], and raises nothing: the library's error answer is
    taken for a set bit. *)
Theorem Permset_str_agrees_with_rights (w : world) (p rc : Z) (ps : Permset_Object) :
  p ≠ NULL →
  w_heap w !! p = Some (Mk_obj rc (Obj_Permset ps)) →
  ∃ br bw bx w',
    eval (Permset_get_right p ACL_READ) w = Some (Some (Py_Bool br))
    ∧ eval (Permset_get_right p ACL_WRITE) w = Some (Some (Py_Bool bw))
    ∧ eval (Permset_get_right p ACL_EXECUTE) w = Some (Some (Py_Bool bx))
    ∧ Permset_str p w = Some (Some (PyString (rwx br bw bx)), w')
    ∧ w_err w' = w_err w
    ∧ (entry_obj_p (permset ps) w = None → br = true ∧ bw = true ∧ bx = true).
Proof.
  intros Hp Hheap.
  destruct (Permset_str_run w p rc ps Hp Hheap) as (w' & Hstr & _ & _ & Herr).
  rewrite !(Permset_get_right_run w p rc ps) by (unfold is_right; auto).
  destruct (entry_obj_p (permset ps) w) as [r|]; eexists _, _, _, w'; split_and!; done.
Qed.

Lemma acl_clear_perms_Some (p : acl_permset_t) (r : acl_entry_obj) (w : world) :
  entry_obj_p p w = Some r →
  acl_clear_perms p w
  = Some (0, entry_alter (λ r, Mk_entry (etag r) (eid r) 0) p
               (set_calls (w_calls w ++ [Call_clear_perms p]) w)).
Proof.
  intros Hrec. unfold acl_clear_perms, call, get, modify, mbind, M_bind. wsimpl.
  unfold id. by rewrite (entry_obj_p_acls p _ w), Hrec.
Qed.

(** X20. After [Permset_clear] on a Permset bound to a live record the
    three rights read False and the text is [---]; the tag and the
    qualifier of the record are kept, and every other record is as it
    was. *)
Theorem Permset_clear_clears_all (w : world) (p rc : Z) (ps : Permset_Object)
    (r : acl_entry_obj) :
  p ≠ NULL →
  w_heap w !! p = Some (Mk_obj rc (Obj_Permset ps)) →
  entry_obj_p (permset ps) w = Some r →
  ∃ w', Permset_clear p w = Some (Some Py_None, w')
        ∧ entry_obj_p (permset ps) w' = Some (Mk_entry (etag r) (eid r) 0)
        ∧ (∀ t, t ≠ permset ps → entry_obj_p t w' = entry_obj_p t w)
        ∧ (∀ right, is_right right →
           eval (Permset_get_right p right) w' = Some (Some Py_False))
        ∧ eval (Permset_str p) w' = Some (Some (PyString "---"))
        ∧ w_heap w' = w_heap w.
Proof.
  intros Hp Hheap Hrec. unfold Permset_clear.
  rewrite (bind_Some _ _ _ _ _ (load_Permset_Some _ _ _ _ Hp Hheap)).
  rewrite (bind_Some _ _ _ _ _ (acl_clear_perms_Some _ _ _ Hrec)).
  destruct (decide (0 = -1)) as [?|_]; [done|].
  eexists. split; [reflexivity|].
  set (w' := entry_alter _ _ _).
  assert (Hrec' : entry_obj_p (permset ps) w' = Some (Mk_entry (etag r) (eid r) 0)).
  { subst w'. by rewrite entry_obj_p_alter, (entry_obj_p_acls _ _ w), Hrec. }
  assert (Hheap' : w_heap w' !! p = Some (Mk_obj rc (Obj_Permset ps))).
  { subst w'. by rewrite entry_alter_heap. }
  split_and!; try done.
  - intros t Ht. subst w'. rewrite entry_obj_p_alter_ne by done.
    by apply entry_obj_p_acls.
  - intros right Hright. by rewrite (Permset_get_right_run w' p rc ps), Hrec'.
  - destruct (Permset_str_run w' p rc ps Hp Hheap') as (w2 & Hstr & _).
    unfold eval. rewrite Hstr, Hrec'. done.
  - subst w'. by rewrite entry_alter_heap.
Qed.

Lemma other_right_lor (a right right' : Z) :
  is_right right → is_right right' → right' ≠ right →
  Z.land (Z.lor a right) right' = Z.land a right'.
Proof.
  intros Hr Hr' Hne. rewrite Z.land_lor_distr_l.
  replace (Z.land right right') with 0; [apply Z.lor_0_r|].
  destruct Hr as [->|[->| ->]], Hr' as [->|[->| ->]]; done.
Qed.

Lemma other_right_lnot (a right right' : Z) :
  is_right right → is_right right' → right' ≠ right →
  Z.land (Z.land a (Z.lnot right)) right' = Z.land a right'.
Proof.
  intros Hr Hr' Hne. rewrite <- Z.land_assoc.
  replace (Z.land (Z.lnot right) right') with right'; [done|].
  destruct Hr as [->|[->| ->]], Hr' as [->|[->| ->]]; done.
Qed.

(** X21. The three rights of a permission set are independent: setting
    or clearing one of them through a Permset leaves what the other two
    read, and the tag and the qualifier of the record, as they were. *)
Theorem rights_are_independent (w : world) (p rc : Z) (ps : Permset_Object)
    (r : acl_entry_obj) (right right' : Z) (on : bool) :
  p ≠ NULL →
  w_heap w !! p = Some (Mk_obj rc (Obj_Permset ps)) →
  entry_obj_p (permset ps) w = Some r →
  is_right right → is_right right' → right' ≠ right →
  ∃ w' r', Permset_set_right p (Some (Py_Bool on)) right w = Some (0, w')
           ∧ eval (Permset_get_right p right') w' = eval (Permset_get_right p right') w
           ∧ entry_obj_p (permset ps) w' = Some r'
           ∧ etag r' = etag r ∧ eid r' = eid r.
Proof.
  intros Hp Hheap Hrec Hr Hr' Hne.
  destruct (Permset_set_right_spec w p rc ps r right on Hp Hheap Hrec Hr)
    as (w' & Hrun & Hh & Hrec').
  eexists w', _. split_and!; [done | | exact Hrec' | done | done].
  rewrite (Permset_get_right_run w p rc ps), (Permset_get_right_run w' p rc ps), Hrec, Hrec';
    [|done | by rewrite Hh | done ..].
  wsimpl. cbn [eperm]. destruct on.
  - by rewrite other_right_lor.
  - by rewrite other_right_lnot.
Qed.

(** X22. Destroying a Permset that holds the last reference to its Entry,
    which holds the last reference to its ACL, releases the whole chain:
    the three objects leave the heap, the handle of the ACL is released
    in the library, and an error that was pending is still the pending
    error. *)
Theorem last_Permset_releases_the_chain (w : world) (p rcp e a : Z)
    (pso : Permset_Object) (ent : Entry_Object) (self : ACL_Object) :
  p ≠ NULL → e ≠ NULL → a ≠ NULL →
  w_heap w !! p = Some (Mk_obj rcp (Obj_Permset pso)) →
  parent_entry pso = e →
  w_heap w !! e = Some (Mk_obj 1 (Obj_Entry ent)) →
  parent_acl ent = a →
  w_heap w !! a = Some (Mk_obj 1 (Obj_ACL self)) →
  ∃ w', Permset_dealloc p w = Some (tt, w')
        ∧ w_heap w' = delete p (delete e (delete a (w_heap w)))
        ∧ w_acls w' = (if decide (acl self = NULL) then w_acls w
                       else delete (acl self) (w_acls w))
        ∧ w_err w' = w_err w.
Proof.
  intros Hp He Ha Hheapp Hpar Hheape Hpar' Hheapa.
  assert (Hpe : p ≠ e) by (intros ->; congruence).
  assert (Hpa : p ≠ a) by (intros ->; congruence).
  assert (Hea : e ≠ a) by (intros ->; congruence).
  unfold Permset_dealloc.
  rewrite (bind_Some _ _ _ _ _ (load_Permset_Some _ _ _ _ Hp Hheapp)). rewrite Hpar.
  destruct (decide (e ≠ NULL)) as [_|?]; [|done].
  assert (Hinner : ∀ w0, w_heap w0 = w_heap w → w_acls w0 = w_acls w →
            ∃ w1, (_ ← Py_DECREF Entry_dealloc e;
                   store_body p (Obj_Permset (Mk_Permset NULL (permset pso)))) w0
                  = Some (tt, w1)
                  ∧ w_err w1 = w_err w0
                  ∧ w_heap w1
                    = <[p := Mk_obj rcp (Obj_Permset (Mk_Permset NULL (permset pso)))]>
                        (delete e (delete a (w_heap w)))
                  ∧ w_acls w1 = (if decide (acl self = NULL) then w_acls w
                                 else delete (acl self) (w_acls w))).
  { intros w0 Hh0 Ha0.
    assert (Hdec : Py_DECREF Entry_dealloc e w0
                   = Entry_dealloc e (set_heap (<[e := Mk_obj 0 (Obj_Entry ent)]> (w_heap w0)) w0))
      by (apply Py_DECREF_last; [done | by rewrite Hh0]).
    destruct (Entry_dealloc_last
                (set_heap (<[e := Mk_obj 0 (Obj_Entry ent)]> (w_heap w0)) w0)
                e 0 a ent self He Ha Hea)
      as (w1 & Hrun & Herr1 & Hheap1 & Hacls1 & _).
    { wsimpl. apply lookup_insert_eq. }
    { done. }
    { wsimpl. rewrite lookup_insert_ne by done. by rewrite Hh0. }
    rewrite <- Hdec in Hrun. rewrite (bind_Some _ _ _ _ _ Hrun).
    wsimpl.
    assert (Hheap1' : w_heap w1 = delete e (delete a (w_heap w))).
    { rewrite Hheap1, Hh0. apply map_eq. intros q.
      rewrite !lookup_delete, !lookup_insert, ?lookup_delete.
      repeat (case_decide; simplify_eq; try done). }
    erewrite store_body_Some
      by (try done; rewrite Hheap1', !lookup_delete_ne by done; exact Hheapp).
    eexists. split; [reflexivity|]. wsimpl. split_and!; try done.
    - by rewrite Hheap1'.
    - by rewrite Hacls1, Ha0. }
  rewrite guarded_run. unfold PyObject_DEL, modify.
  destruct (w_err w) as [x|] eqn:Herr.
  - destruct (Hinner (set_err None w)) as (w1 & Hrun & Herr1 & Hheap1 & Hacls1); [done..|].
    rewrite Hrun. eexists. split; [reflexivity|]. wsimpl. split_and!; try done.
    rewrite Hheap1. by rewrite delete_insert_eq.
  - destruct (Hinner w) as (w1 & Hrun & Herr1 & Hheap1 & Hacls1); [done..|].
    rewrite Hrun. eexists. split; [reflexivity|]. wsimpl. split_and!; try done.
    + rewrite Hheap1. by rewrite delete_insert_eq.
    + congruence.
Qed.

(** X23. The parent accessor of an Entry hands out the parent with one
    more reference and changes nothing else.  It makes no test of its
    own: on an Entry that was created but never initialized it
    dereferences the null parent pointer. *)
Theorem Entry_get_parent_takes_a_reference (w : world) (e rc : Z) (ent : Entry_Object) :
  e ≠ NULL →
  w_heap w !! e = Some (Mk_obj rc (Obj_Entry ent)) →
  (∀ rcp body,
     parent_acl ent ≠ NULL →
     w_heap w !! parent_acl ent = Some (Mk_obj rcp body) →
     Entry_get_parent e w
     = Some (Some (PyRef (parent_acl ent)),
             set_heap (<[parent_acl ent := Mk_obj (rcp + 1) body]> (w_heap w)) w))
  ∧ (parent_acl ent = NULL → Entry_get_parent e w = None).
Proof.
  intros He Hheap. split.
  - intros rcp body Hpar Hheapp. unfold Entry_get_parent.
    rewrite (bind_Some _ _ _ _ _ (load_Entry_Some _ _ _ _ He Hheap)).
    by rewrite (bind_Some _ _ _ _ _ (Py_INCREF_Some _ _ _ Hpar Hheapp)).
  - intros Hpar. unfold Entry_get_parent.
    rewrite (bind_Some _ _ _ _ _ (load_Entry_Some _ _ _ _ He Hheap)).
    rewrite Hpar. unfold Py_INCREF, load, mbind, M_bind.
    by destruct (decide (NULL = NULL)).
Qed.

(** ** Applying an ACL, deleting a default ACL *)

Lemma c_str_idemp (s : string) : c_str (c_str s) = c_str s.
Proof.
  induction s as [|c s IH]; simpl; [done|].
  destruct (decide (c = Ascii.zero)) as [?|Hc]; simpl; [done|].
  destruct (decide (c = Ascii.zero)); [done | by rewrite IH].
Qed.

Lemma bind_ext {A B} (m : M A) (f g : A → M B) (w : world) :
  (∀ x w', f x w' = g x w') → (m ≫= f) w = (m ≫= g) w.
Proof.
  intros H. unfold mbind, M_bind. destruct (m w) as [[x w']|]; [apply H | done].
Qed.

Section Targets_more.

Variable tgt : target_env.

(** X24. For a target that is not a string the kind of ACL given as
    second argument is not used: the ACL is applied through the
    descriptor in the same way whatever kind is asked for. *)
Theorem applyto_descriptor_ignores_type (w : world) (obj : Z) (myarg : PyObject) (t : Z) :
  (∀ s, myarg ≠ PyString s) →
  -2147483648 ≤ t ≤ 2147483647 →
  ACL_applyto tgt obj [myarg; PyInt t] w = ACL_applyto tgt obj [myarg] w.
Proof.
  intros Hns Ht. unfold ACL_applyto. apply bind_ext. intros self w'.
  unfold parse_O_i, convert_i. cbn [PyInt_Check PyInt_AsLong].
  destruct (decide (-2147483648 ≤ t ≤ 2147483647)) as [_|?]; [|done].
  rewrite !ret_bind. destruct myarg; try done. by destruct (Hns s).
Qed.

(** X25. A target that is neither a string nor something the runtime
    finds a descriptor in (None, an object of the module, a negative or
    too large integer, an object without a usable [fileno()]) is
    refused with the TypeError of the module, which replaces whatever
    the runtime had raised; nothing else changes. *)
Theorem applyto_unusable_target (w : world) (obj rc : Z) (self : ACL_Object)
    (myarg : PyObject) :
  obj ≠ NULL →
  w_heap w !! obj = Some (Mk_obj rc (Obj_ACL self)) →
  (∀ s, myarg ≠ PyString s) →
  eval (PyObject_AsFileDescriptor tgt myarg) w = Some (-1) →
  ACL_applyto tgt obj [myarg] w
  = Some (None,
          set_err (Some (Mk_exc PyExc_TypeError
                           (Msg "argument 1 must be string, int, or file-like object"))) w).
Proof.
  intros Hobj Hheap Hns Hfd. unfold ACL_applyto.
  rewrite (bind_Some _ _ _ _ _ (load_ACL_Some _ _ _ _ Hobj Hheap)).
  unfold parse_O_i. unfold mbind at 1, M_bind at 1, mret at 1, M_ret at 1.
  unfold eval in Hfd.
  destruct myarg; try (by destruct (Hns s)); revert Hfd;
    unfold PyObject_AsFileDescriptor; mrun; repeat case_decide; try done.
  all: intros [= Hfd]; cbn [PyInt_AsLong] in *; try destruct b; lia.
Qed.

(** X26. A string target is read as a C string, up to its first null
    byte, and without a second argument the access ACL is set. *)
Theorem applyto_path_is_a_C_string (w : world) (obj : Z) (s : string) :
  ACL_applyto tgt obj [PyString s] w
  = ACL_applyto tgt obj [PyString (c_str s); PyInt ACL_TYPE_ACCESS] w.
Proof.
  unfold ACL_applyto. apply bind_ext. intros self w'.
  unfold parse_O_i, convert_i. cbn [PyInt_Check PyInt_AsLong].
  destruct (decide (-2147483648 ≤ ACL_TYPE_ACCESS ≤ 2147483647)) as [_|Hn];
    [|unfold ACL_TYPE_ACCESS in Hn; lia].
  rewrite !ret_bind. by rewrite c_str_idemp.
Qed.

Lemma acl_set_file_run (name : string) (type p : Z) (w : world) :
  ∃ r w', acl_set_file tgt name type p w = Some (r, w')
          ∧ w_heap w' = w_heap w ∧ w_acls w' = w_acls w ∧ w_err w' = w_err w
          ∧ (r = 0 ∧ w' = w ∧ is_Some (w_acls w !! p) ∨ r = -1).
Proof.
  unfold acl_set_file. mrun.
  destruct (w_acls w !! p) as [o|]; [|by eexists _, _; split_and!; [done..|right]].
  destruct (decide _); eexists _, _; split_and!; try done; [left | right]; done.
Qed.

Lemma acl_set_fd_run (fd p : Z) (w : world) :
  ∃ r w', acl_set_fd tgt fd p w = Some (r, w')
          ∧ w_heap w' = w_heap w ∧ w_acls w' = w_acls w ∧ w_err w' = w_err w
          ∧ (r = 0 ∧ w' = w ∧ is_Some (w_acls w !! p) ∨ r = -1).
Proof.
  unfold acl_set_fd. mrun.
  destruct (w_acls w !! p) as [o|]; [|by eexists _, _; split_and!; [done..|right]].
  destruct (decide _); eexists _, _; split_and!; try done; [left | right]; done.
Qed.

Lemma PyObject_AsFileDescriptor_run (o : PyObject) (w : world) :
  ∃ fd w', PyObject_AsFileDescriptor tgt o w = Some (fd, w')
           ∧ w_heap w' = w_heap w ∧ w_acls w' = w_acls w
           ∧ (fd ≠ -1 → w' = w).
Proof.
  unfold PyObject_AsFileDescriptor. mrun.
  destruct o; repeat case_decide; eexists _, _; split_and!; done.
Qed.

Lemma parse_O_i_run (args : list PyObject) (type0 : Z) (w : world) :
  parse_O_i args type0 w = None → False.
Proof.
  unfold parse_O_i. mrun. destruct args as [|a [|t [|]]]; try done.
  by destruct (convert_i t).
Qed.

(** X27. Applying an ACL only reads it: whatever the arguments, the call
    returns, and the Python heap and the library's memory are as before.
    It either returns None, and then the error indicator is untouched
    and the ACL has a live handle, or returns NULL with an exception
    set; an ACL object without a live handle is never applied. *)
Theorem applyto_only_reads (w : world) (obj rc : Z) (self : ACL_Object)
    (args : list PyObject) :
  obj ≠ NULL →
  w_heap w !! obj = Some (Mk_obj rc (Obj_ACL self)) →
  ∃ r w', ACL_applyto tgt obj args w = Some (r, w')
          ∧ w_heap w' = w_heap w
          ∧ w_acls w' = w_acls w
          ∧ (r = Some Py_None ∧ w' = w ∧ is_Some (w_acls w !! acl self)
             ∨ r = None ∧ is_Some (w_err w')).
Proof.
  intros Hobj Hheap. unfold ACL_applyto.
  rewrite (bind_Some _ _ _ _ _ (load_ACL_Some _ _ _ _ Hobj Hheap)).
  assert (Hcore : ∀ myarg type,
            ∃ r w',
              match myarg with
              | PyString s =>
                  nret ← acl_set_file tgt (c_str s) type (acl self);
                  if decide (nret = -1) then PyErr_SetFromErrno PyExc_IOError
                  else mret (Some Py_None)
              | _ =>
                  fd ← PyObject_AsFileDescriptor tgt myarg;
                  if decide (fd ≠ -1) then
                    nret ← acl_set_fd tgt fd (acl self);
                    if decide (nret = -1) then PyErr_SetFromErrno PyExc_IOError
                    else mret (Some Py_None)
                  else
                    _ ← PyErr_SetString PyExc_TypeError
                          "argument 1 must be string, int, or file-like object";
                    mret None
              end w = Some (r, w')
              ∧ w_heap w' = w_heap w ∧ w_acls w' = w_acls w
              ∧ (r = Some Py_None ∧ w' = w ∧ is_Some (w_acls w !! acl self)
                 ∨ r = None ∧ is_Some (w_err w'))).
  { intros myarg type.
    assert (Hfile : ∀ s, ∃ r w',
              (nret ← acl_set_file tgt (c_str s) type (acl self);
               if decide (nret = -1) then PyErr_SetFromErrno PyExc_IOError
               else mret (Some Py_None)) w = Some (r, w')
              ∧ w_heap w' = w_heap w ∧ w_acls w' = w_acls w
              ∧ (r = Some Py_None ∧ w' = w ∧ is_Some (w_acls w !! acl self)
                 ∨ r = None ∧ is_Some (w_err w'))).
    { intros s.
      destruct (acl_set_file_run (c_str s) type (acl self) w)
        as (r & w1 & Hrun & Hh & Ha & He & [(-> & -> & Hlive)| ->]);
        rewrite (bind_Some _ _ _ _ _ Hrun).
      - destruct (decide (0 = -1)) as [?|_]; [done|].
        eexists _, _. split_and!; [done..|]. by left.
      - destruct (decide (-1 = -1)) as [_|?]; [|done].
        eexists _, _. split; [reflexivity|]. wsimpl. split_and!; [done..|]. by right. }
    assert (Hfd : ∃ r w',
              (fd ← PyObject_AsFileDescriptor tgt myarg;
               if decide (fd ≠ -1) then
                 nret ← acl_set_fd tgt fd (acl self);
                 if decide (nret = -1) then PyErr_SetFromErrno PyExc_IOError
                 else mret (Some Py_None)
               else
                 _ ← PyErr_SetString PyExc_TypeError
                       "argument 1 must be string, int, or file-like object";
                 mret None) w = Some (r, w')
              ∧ w_heap w' = w_heap w ∧ w_acls w' = w_acls w
              ∧ (r = Some Py_None ∧ w' = w ∧ is_Some (w_acls w !! acl self)
                 ∨ r = None ∧ is_Some (w_err w'))).
    { destruct (PyObject_AsFileDescriptor_run myarg w) as (fd & w1 & Hrun & Hh1 & Ha1 & Hsame).
      rewrite (bind_Some _ _ _ _ _ Hrun).
      destruct (decide (fd ≠ -1)) as [Hfd|Hfd].
      - rewrite (Hsame Hfd).
        destruct (acl_set_fd_run fd (acl self) w)
          as (r & w2 & Hrun2 & Hh & Ha & He & [(-> & -> & Hlive)| ->]);
          rewrite (bind_Some _ _ _ _ _ Hrun2).
        + destruct (decide (0 = -1)) as [?|_]; [done|].
          eexists _, _. split_and!; [done..|]. by left.
        + destruct (decide (-1 = -1)) as [_|?]; [|done].
          eexists _, _. split; [reflexivity|]. wsimpl. split_and!; [done..|]. by right.
      - eexists _, _. split; [reflexivity|]. wsimpl. split_and!; [done..|]. by right. }
    destruct myarg; [exact Hfd.. | apply Hfile | exact Hfd | exact Hfd]. }
  unfold parse_O_i.
  destruct args as [|a [|t [|t' args]]].
  - eexists _, _. split; [reflexivity|]. wsimpl. split_and!; [done..|]. by right.
  - unfold mbind at 1, M_bind at 1, mret at 1, M_ret at 1. apply Hcore.
  - destruct (convert_i t) as [x|n].
    + eexists _, _. split; [reflexivity|]. wsimpl. split_and!; [done..|]. by right.
    + unfold mbind at 1, M_bind at 1, mret at 1, M_ret at 1. apply Hcore.
  - eexists _, _. split; [reflexivity|]. wsimpl. split_and!; [done..|]. by right.
Qed.

(** X28. [delete_default] returns None exactly when its argument is one
    string without a null byte and the system removes the default ACL
    of that path; the world is then unchanged.  In every other case it
    returns NULL with an exception set: a TypeError for the argument, an
    IOError with the errno of the system otherwise.  It never touches
    the Python heap or the library's ACLs. *)
Theorem delete_default_outcomes (w : world) (args : list PyObject) :
  ∃ r w', aclmodule_delete_default tgt args w = Some (r, w')
          ∧ w_heap w' = w_heap w
          ∧ w_acls w' = w_acls w
          ∧ ((r = Some Py_None ∧ w' = w
              ∧ ∃ s, args = [PyString s] ∧ has_nul s = false
                     ∧ tgt_delete_def_file tgt s = 0)
             ∨ (r = None
                ∧ ((∃ m, w_err w' = Some (Mk_exc PyExc_TypeError (Msg m))
                         ∧ ∀ s, args = [PyString s] → has_nul s = true)
                   ∨ (∃ s, args = [PyString s] ∧ has_nul s = false
                           ∧ tgt_delete_def_file tgt s ≠ 0
                           ∧ w_err w'
                             = Some (Mk_exc PyExc_IOError
                                       (Errno (tgt_delete_def_file tgt s))))))).
Proof.
  unfold aclmodule_delete_default, parse_s, acl_delete_def_file.
  destruct args as [|v [|v' args]].
  - eexists _, _. split; [reflexivity|]. wsimpl. split_and!; [done..|].
    right. split; [done|]. left. eexists. split; [done|]. by intros s.
  - unfold convert_s. destruct v as [| | | s | |].
    1-3, 5-6: eexists _, _; (split; [reflexivity|]); wsimpl; (split_and!; [done..|]);
      right; (split; [done|]); left; eexists; (split; [done|]); by intros s.
    destruct (has_nul s) eqn:Hnul.
    + eexists _, _. split; [reflexivity|]. wsimpl. split_and!; [done..|].
      right. split; [done|]. left. eexists. split; [done|]. by intros s' [= <-].
    + unfold mbind at 1, M_bind at 1, mret at 1, M_ret at 1.
      destruct (decide (tgt_delete_def_file tgt s = 0)) as [Hz|Hz].
      * unfold mbind, M_bind, mret, M_ret. destruct (decide (0 = -1)) as [?|_]; [done|].
        eexists _, _. split; [reflexivity|]. split_and!; [done..|]. left.
        split_and!; [done..|]. by exists s.
      * mrun. destruct (decide (-1 = -1)) as [_|?]; [|done].
        eexists _, _. split; [reflexivity|]. wsimpl. split_and!; [done..|].
        right. split; [done|]. right. by exists s.
  - eexists _, _. split; [reflexivity|]. wsimpl. split_and!; [done..|].
    right. split; [done|]. left. eexists. split; [done|]. by intros s.
Qed.

End Targets_more.

(** ** The further properties on the sample worlds *)

(** A new ACL object in [sample_world]. *)
Lemma new_ACL_has_no_handle_witness :
  ∃ obj w0,
    ACL_new sample_world = Some (obj, w0)
    ∧ obj ≠ NULL
    ∧ w_heap sample_world !! obj = None
    ∧ w_heap w0 !! obj = Some (Mk_obj 1 (Obj_ACL (Mk_ACL NULL ACL_FIRST_ENTRY)))
    ∧ eval (ACL_valid obj) w0 = Some (Some Py_False)
    ∧ (∃ w1, ACL_str ref_env obj w0 = Some (None, w1)
             ∧ w_err w1 = Some (Mk_exc PyExc_IOError (Errno EINVAL)))
    ∧ (∃ w1, ACL_get_state ref_env obj w0 = Some (None, w1)
             ∧ w_err w1 = Some (Mk_exc PyExc_IOError (Errno EINVAL)))
    ∧ (∃ w1, ACL_iternext obj w0 = Some (None, w1)
             ∧ w_err w1 = Some (Mk_exc PyExc_IOError (Errno EINVAL))).
Proof.
  apply (new_ACL_has_no_handle ref_env sample_world). reflexivity.
Defined.

(** A positional argument given to the constructor of the first ACL. *)
Lemma ACL_init_rejects_before_release_witness :
  ∃ msg, ACL_init ref_env 1 [Py_None] None sample_world
         = Some (-1, set_err (Some (Mk_exc PyExc_ValueError (Msg msg))) sample_world)
         ∧ kind_of PyExc_ValueError = InvalidArgument.
Proof.
  apply (ACL_init_rejects_before_release ref_env sample_world 1 [Py_None] None
           PyExc_ValueError).
  apply rej_positional. discriminate.
Defined.

(** The ACL object at 7 of [family_world] constructed as a copy of the
    one at 2. *)
Lemma ACL_init_dup_is_a_copy_witness :
  let o := Mk_acl (number (minimal_acl 6 4 0)) 1 3 in
  let src := Mk_ACL 2 ACL_NEXT_ENTRY in
  ∃ h w',
    ACL_init ref_env 7 [] (Some [("acl", PyRef 2)]) family_world = Some (0, w')
    ∧ h ≠ NULL ∧ h ≠ 2
    ∧ w_heap w' = <[7 := Mk_obj 1 (Obj_ACL (Mk_ACL h ACL_FIRST_ENTRY))]> (w_heap family_world)
    ∧ w_acls w' = <[h := Mk_acl (number (snd <$> aentries o)) 0
                           (Z.of_nat (length (snd <$> aentries o)))]> (w_acls family_world)
    ∧ entry_set w' (Mk_ACL h ACL_FIRST_ENTRY) = entry_set family_world src
    ∧ entry_set w' src = entry_set family_world src
    ∧ w_calls w' = w_calls family_world ++ [Call_dup 2]
    ∧ w_err w' = w_err family_world.
Proof.
  apply (ACL_init_dup_is_a_copy ref_env family_world 7 1 2 2
           (Mk_ACL NULL ACL_FIRST_ENTRY) (Mk_ACL 2 ACL_NEXT_ENTRY)
           (Mk_acl (number (minimal_acl 6 4 0)) 1 3));
    [discriminate | discriminate | discriminate | reflexivity | reflexivity
    | reflexivity | reflexivity].
Defined.

(** The three observers on the ACL object at 7 of [family_world], which
    has no handle. *)
Lemma observers_only_read_witness :
  let self := Mk_ACL NULL ACL_FIRST_ENTRY in
  (∃ r w', ACL_str ref_env 7 family_world = Some (r, w')
           ∧ w_heap w' = w_heap family_world ∧ w_acls w' = w_acls family_world
           ∧ (w_acls family_world !! acl self = None →
              r = None ∧ w_err w' = Some (Mk_exc PyExc_IOError (Errno EINVAL))))
  ∧ (∃ r w', ACL_valid 7 family_world = Some (r, w')
             ∧ w_heap w' = w_heap family_world ∧ w_acls w' = w_acls family_world
             ∧ w_err w' = w_err family_world
             ∧ (w_acls family_world !! acl self = None → r = Some Py_False))
  ∧ (∃ r w', ACL_get_state ref_env 7 family_world = Some (r, w')
             ∧ w_heap w' = w_heap family_world ∧ w_acls w' = w_acls family_world
             ∧ (w_acls family_world !! acl self = None →
                r = None ∧ w_err w' = Some (Mk_exc PyExc_IOError (Errno EINVAL)))).
Proof.
  apply (observers_only_read ref_env family_world 7 1 (Mk_ACL NULL ACL_FIRST_ENTRY));
    [discriminate | reflexivity].
Defined.

(** A traversal of the first ACL of [sample_world]: three Entry objects,
    four references more on the ACL object. *)
Lemma traversal_takes_references_witness :
  let o := Mk_acl (number (minimal_acl 7 7 7)) 0 3 in
  ∃ ps w', traverse 4 1 sample_world = Some ((ps, true), w')
           ∧ length ps = length (aentries o)
           ∧ w_heap w' !! 1
             = Some (Mk_obj (1 + 1 + Z.of_nat (length (aentries o)))
                       (Obj_ACL (Mk_ACL 1 ACL_NEXT_ENTRY))).
Proof.
  apply (traversal_takes_references sample_world 1 1 (Mk_ACL 1 ACL_FIRST_ENTRY)
           (Mk_acl (number (minimal_acl 7 7 7)) 0 3) 4);
    [discriminate | reflexivity | reflexivity | vm_compute; lia].
Defined.

(** The first step of an iteration over the first ACL of [sample_world],
    and the destruction of the Entry it produced. *)
Lemma yielded_Entry_returns_its_reference_witness :
  let l := number (minimal_acl 7 7 7) in
  ∃ p w1 w2,
    ACL_iternext 1 sample_world = Some (Some (PyRef p), w1)
    ∧ view_of w1 p = Some (Mk_Entry 1 (EREF 1 0))
    ∧ Entry_dealloc p w1 = Some (tt, w2)
    ∧ w_heap w2 = <[1 := Mk_obj 1 (Obj_ACL (Mk_ACL 1 ACL_NEXT_ENTRY))]> (w_heap sample_world)
    ∧ w_acls w2 = w_acls w1
    ∧ w_acls w2 !! 1 = Some (Mk_acl l 1 3)
    ∧ w_err w2 = w_err sample_world.
Proof.
  apply (yielded_Entry_returns_its_reference sample_world 1 1 1 ACL_FIRST_ENTRY
           (number (minimal_acl 7 7 7)) 0 3 0 0
           (Mk_entry ACL_USER_OBJ ACL_UNDEFINED_ID 7));
    [discriminate | discriminate | reflexivity | reflexivity
    | left; split; reflexivity | reflexivity].
Defined.

(** The record of the Entry at 3 deleted from the second ACL of
    [sample_world]: a traversal then produces two Entry objects. *)
Lemma deletion_is_visible_witness :
  let o := Mk_acl (number (minimal_acl 6 4 0)) 1 3 in
  ∃ w1 ps w2,
    ACL_delentry 2 [PyRef 3] sample_world = Some (Some Py_None, w1)
    ∧ traverse 3 2 w1 = Some ((ps, true), w2)
    ∧ S (length ps) = length (aentries o)
    ∧ view_of w2 <$> ps
      = (λ kr, Some (Mk_Entry 2 (EREF 2 kr.1))) <$> alist_remove 0 (aentries o)
    ∧ Some (Mk_Entry 2 (EREF 2 0)) ∉ view_of w2 <$> ps.
Proof.
  apply (deletion_is_visible sample_world 2 2 3 1 (Mk_ACL 2 ACL_NEXT_ENTRY)
           (Mk_Entry 2 (EREF 2 0)) (Mk_acl (number (minimal_acl 6 4 0)) 1 3) 0 3);
    [discriminate | discriminate | reflexivity | reflexivity | reflexivity | reflexivity
    | eexists; vm_compute; reflexivity
    | apply (bool_decide_unpack _); vm_compute; exact I
    | vm_compute; lia].
Defined.

(** None given where an Entry or an ACL is expected, in [family_world]. *)
Lemma typed_arguments_are_checked_witness :
  (∃ m1 m2 m3,
     ACL_delentry 1 [Py_None] family_world
     = Some (None, set_err (Some (Mk_exc PyExc_TypeError (Msg m1))) family_world)
     ∧ Entry_copy 3 [Py_None] family_world
       = Some (None, set_err (Some (Mk_exc PyExc_TypeError (Msg m2))) family_world)
     ∧ Permset_init 5 [Py_None] family_world
       = Some (-1, set_err (Some (Mk_exc PyExc_TypeError (Msg m3))) family_world))
  ∧ (∃ m, Entry_init 3 [Py_None] family_world
          = Some (-1, set_err (Some (Mk_exc PyExc_TypeError (Msg m))) family_world)).
Proof.
  destruct (typed_arguments_are_checked family_world 1 3 2 5 1 (Mk_Entry 2 (EREF 2 0))
              (Mk_Permset 3 (EREF 2 0)) [Py_None]) as [H1 H2];
    [discriminate | discriminate | reflexivity | reflexivity |].
  split; [apply H1 | apply H2]; intros p; discriminate.
Defined.

(** The Entry at 4 of [family_world] initialized on the ACL at 2. *)
Lemma Entry_init_appends_blank_record_witness :
  let self := Mk_ACL 2 ACL_NEXT_ENTRY in
  ∃ t w',
    Entry_init 4 [PyRef 2] family_world = Some (0, w')
    ∧ w_heap w' = <[2 := Mk_obj (2 + 1) (Obj_ACL self)]>
                    (<[4 := Mk_obj 1 (Obj_Entry (Mk_Entry 2 t))]> (w_heap family_world))
    ∧ entry_obj_p t w' = Some blank_entry
    ∧ entry_set w' self = entry_set family_world self ++ [blank_entry]
    ∧ (∀ t0 r, entry_obj_p t0 family_world = Some r → entry_obj_p t0 w' = Some r)
    ∧ eval (Entry_get_tag_type 4) w' = Some (Some (PyInt ACL_UNDEFINED_TAG))
    ∧ w_err w' = w_err family_world.
Proof.
  apply (Entry_init_appends_blank_record family_world 4 1 2 2 (Mk_Entry NULL ENULL)
           (Mk_ACL 2 ACL_NEXT_ENTRY) (Mk_acl (number (minimal_acl 6 4 0)) 1 3));
    [discriminate | discriminate | reflexivity | reflexivity | reflexivity | reflexivity].
Defined.

(** In [family_world]: an Entry initialized on the ACL at 7, which has no
    handle, and the Permset at 6 initialized on the Entry at 4, which
    has no record. *)
Lemma refused_binding_takes_no_reference_witness :
  (∃ w', Entry_init 4 [PyRef 7] family_world = Some (-1, w')
         ∧ w_err w' = Some (Mk_exc PyExc_IOError (Errno EINVAL))
         ∧ w_heap w' = w_heap family_world ∧ w_acls w' = w_acls family_world)
  ∧ (∃ w', Permset_init 6 [PyRef 4] family_world = Some (-1, w')
           ∧ w_err w' = Some (Mk_exc PyExc_IOError (Errno EINVAL))
           ∧ w_heap w' = w_heap family_world ∧ w_acls w' = w_acls family_world).
Proof.
  destruct (refused_binding_takes_no_reference family_world 4 1 7 1 6 1
              (Mk_Entry NULL ENULL) (Mk_ACL NULL ACL_FIRST_ENTRY) (Mk_Permset NULL ENULL))
    as [H1 H2];
    [discriminate | discriminate | discriminate | reflexivity | reflexivity | reflexivity |].
  split; [apply H1 | apply H2]; reflexivity.
Defined.

(** The owner record of the Entry at 3 of [family_world] turned into the
    mask. *)
Lemma tag_type_round_trip_witness :
  ∃ w', Entry_set_tag_type 3 (Some (PyInt ACL_MASK)) family_world = Some (0, w')
        ∧ eval (Entry_get_tag_type 3) w' = Some (Some (PyInt ACL_MASK))
        ∧ entry_obj_p (EREF 2 0) w' = Some (Mk_entry ACL_MASK ACL_UNDEFINED_ID 6)
        ∧ w_heap w' = w_heap family_world
        ∧ w_err w' = w_err family_world.
Proof.
  apply (tag_type_round_trip family_world 3 2 (Mk_Entry 2 (EREF 2 0))
           (Mk_entry ACL_USER_OBJ ACL_UNDEFINED_ID 6) ACL_MASK);
    [discriminate | reflexivity | reflexivity | reflexivity].
Defined.

(** The qualifier -1 set on the USER record of the Entry at 8 of
    [family_world]. *)
Lemma qualifier_round_trip_witness :
  ∃ w', Entry_set_qualifier 8 (Some (PyInt (-1))) family_world = Some (0, w')
        ∧ eval (Entry_get_qualifier 8) w' = Some (Some (PyInt (-1)))
        ∧ entry_obj_p (EREF 1 3) w' = Some (Mk_entry ACL_USER (to_uint (-1)) 6)
        ∧ w_heap w' = w_heap family_world
        ∧ w_err w' = w_err family_world.
Proof.
  apply (qualifier_round_trip family_world 8 1 (Mk_Entry 1 (EREF 1 3))
           (Mk_entry ACL_USER 1000 6) (-1));
    [discriminate | reflexivity | reflexivity | left; reflexivity | lia].
Defined.

(** The owner record of the Entry at 3 of [family_world] made a copy of
    the USER record of the Entry at 8. *)
Lemma Entry_copy_copies_the_record_witness :
  ∃ w', Entry_copy 3 [PyRef 8] family_world = Some (Some Py_None, w')
        ∧ entry_obj_p (EREF 2 0) w' = Some (Mk_entry ACL_USER 1000 6)
        ∧ entry_obj_p (EREF 1 3) w' = Some (Mk_entry ACL_USER 1000 6)
        ∧ (∀ t, t ≠ EREF 2 0 → entry_obj_p t w' = entry_obj_p t family_world)
        ∧ w_heap w' = w_heap family_world
        ∧ w_err w' = w_err family_world.
Proof.
  apply (Entry_copy_copies_the_record family_world 3 2 8 1 (Mk_Entry 2 (EREF 2 0))
           (Mk_Entry 1 (EREF 1 3)) (Mk_entry ACL_USER_OBJ ACL_UNDEFINED_ID 6)
           (Mk_entry ACL_USER 1000 6));
    [discriminate | discriminate | reflexivity | reflexivity | reflexivity | reflexivity].
Defined.

(** The Permset at 5 of [family_world] assigned to the Entry at 8, then
    WRITE cleared through the Permset. *)
Lemma Entry_set_permset_copies_the_bits_witness :
  ∃ w1 w2,
    Entry_set_permset 8 (Some (PyRef 5)) family_world = Some (0, w1)
    ∧ entry_obj_p (EREF 1 3) w1 = Some (Mk_entry ACL_USER 1000 6)
    ∧ entry_obj_p (EREF 2 0) w1 = Some (Mk_entry ACL_USER_OBJ ACL_UNDEFINED_ID 6)
    ∧ w_heap w1 = w_heap family_world
    ∧ Permset_set_right 5 (Some (Py_Bool false)) ACL_WRITE w1 = Some (0, w2)
    ∧ entry_obj_p (EREF 1 3) w2 = Some (Mk_entry ACL_USER 1000 6).
Proof.
  apply (Entry_set_permset_copies_the_bits family_world 8 1 5 1 (Mk_Entry 1 (EREF 1 3))
           (Mk_Permset 3 (EREF 2 0)) (Mk_entry ACL_USER 1000 6)
           (Mk_entry ACL_USER_OBJ ACL_UNDEFINED_ID 6) ACL_WRITE false);
    [discriminate | discriminate | reflexivity | reflexivity | reflexivity | reflexivity
    | discriminate | right; left; reflexivity].
Defined.

(** A string given to the setters of the Entry at 3 and of the Permset
    at 5 of [family_world]. *)
Lemma setters_check_the_value_first_witness :
  let w := family_world in
  (Entry_set_qualifier 3 None w
   = Some (-1, set_err (Some (Mk_exc PyExc_TypeError
                                (Msg "qualifier deletion is not supported"))) w))
  ∧ (Entry_set_qualifier 3 (Some (PyString "rw")) w
     = Some (-1, set_err (Some (Mk_exc PyExc_TypeError (Msg "tag type must be integer"))) w)
     ∧ Permset_set_right 5 (Some (PyString "rw")) ACL_READ w
       = Some (-1, set_err (Some (Mk_exc PyExc_ValueError
                                    (Msg "a maximum of one argument must be passed"))) w)
     ∧ kind_of PyExc_ValueError = InvalidArgument)
  ∧ (Entry_set_permset 3 (Some (PyString "rw")) w
     = Some (-1, set_err (Some (Mk_exc PyExc_TypeError
                                  (Msg "argument 1 must be posix1e.Permset"))) w)
     ∧ kind_of PyExc_TypeError = InvalidArgument).
Proof.
  destruct (setters_check_the_value_first family_world 3 2 5 1 (Mk_Entry 2 (EREF 2 0))
              (Mk_Permset 3 (EREF 2 0)) (PyString "rw") ACL_READ)
    as (H1 & H2 & H3);
    [discriminate | discriminate | reflexivity | reflexivity |].
  split; [exact H1 | split; [apply H2; reflexivity | apply H3; discriminate]].
Defined.

(** The texts of three Entries: the USER record at 8 and the owner
    record at 3 of [family_world], and the GROUP record of
    [large_id_world], whose id is above 2147483647. *)
Lemma Entry_str_reads_the_record_witness :
  (∃ w', Entry_str 8 family_world
         = Some (Some (PyString "ACL entry for user with uid 1000"), w')
         ∧ w_calls w' = [Call_get_tag_type (EREF 1 3); Call_get_qualifier (EREF 1 3)])
  ∧ (∃ w', Entry_str 3 family_world = Some (Some (PyString "ACL entry for the owner"), w')
           ∧ w_calls w' = [Call_get_tag_type (EREF 2 0)])
  ∧ (∃ w', Entry_str 2 large_id_world
           = Some (Some (PyString "ACL entry for group with gid -294967296"), w')
           ∧ w_heap w' = w_heap large_id_world
           ∧ w_acls w' = w_acls large_id_world
           ∧ w_err w' = w_err large_id_world).
Proof.
  split_and!.
  - destruct (Entry_str_reads_the_record family_world 8 1 (Mk_Entry 1 (EREF 1 3))
                (Mk_entry ACL_USER 1000 6))
      as (text & w' & Hrun & _ & _ & _ & _ & _ & _ & _ & _ & _ & Hsmall & _ & _ & _ & _ & Hcalls);
      [discriminate | reflexivity | reflexivity |].
    assert (Ht : text = "user with uid " +:+ pretty 1000)
      by (apply Hsmall; [reflexivity | cbn; lia]).
    subst text. exists w'. split; [exact Hrun | apply Hcalls; left; reflexivity].
  - destruct (Entry_str_reads_the_record family_world 3 2 (Mk_Entry 2 (EREF 2 0))
                (Mk_entry ACL_USER_OBJ ACL_UNDEFINED_ID 6))
      as (text & w' & Hrun & _ & _ & _ & _ & Hown & _ & _ & _ & _ & _ & _ & _ & _ & Hcalls & _);
      [discriminate | reflexivity | reflexivity |].
    assert (Ht : text = "the owner") by (apply Hown; reflexivity).
    subst text. exists w'. split; [exact Hrun |].
    apply Hcalls. intros [H|H]; discriminate H.
  - destruct (Entry_str_reads_the_record large_id_world 2 1 (Mk_Entry 1 (EREF 1 3))
                (Mk_entry ACL_GROUP 4000000000 5))
      as (text & w' & Hrun & Hh & Ha & He & _ & _ & _ & _ & _ & _ & _ & _ & _ & Hlarge & _ & _);
      [discriminate | reflexivity | reflexivity |].
    assert (Ht : text = "group with gid " +:+ pretty (4000000000 - 4294967296))
      by (apply Hlarge; [reflexivity | cbn; lia]).
    subst text. exists w'. split_and!; [exact Hrun | done..].
Defined.

(** The Permset at 6 of [family_world] initialized on the Entry at 3. *)
Lemma Permset_init_binds_to_the_record_witness :
  ∃ w', Permset_init 6 [PyRef 3] family_world = Some (0, w')
        ∧ w_heap w' = <[3 := Mk_obj (2 + 1) (Obj_Entry (Mk_Entry 2 (EREF 2 0)))]>
                        (<[6 := Mk_obj 1 (Obj_Permset (Mk_Permset 3 (EREF 2 0)))]>
                           (w_heap family_world))
        ∧ w_acls w' = w_acls family_world
        ∧ w_err w' = w_err family_world
        ∧ eval (Permset_get_right 6 ACL_READ) w'
          = Some (Some (Py_Bool (bool_decide (Z.land 6 ACL_READ ≠ 0)))).
Proof.
  apply (Permset_init_binds_to_the_record family_world 6 1 3 2 (Mk_Permset NULL ENULL)
           (Mk_Entry 2 (EREF 2 0)) (Mk_entry ACL_USER_OBJ ACL_UNDEFINED_ID 6) ACL_READ);
    [discriminate | discriminate | reflexivity | reflexivity | reflexivity
    | left; reflexivity].
Defined.

(** The Permset at 6 of [family_world], bound to nothing. *)
Lemma Permset_str_agrees_with_rights_witness :
  ∃ br bw bx w',
    eval (Permset_get_right 6 ACL_READ) family_world = Some (Some (Py_Bool br))
    ∧ eval (Permset_get_right 6 ACL_WRITE) family_world = Some (Some (Py_Bool bw))
    ∧ eval (Permset_get_right 6 ACL_EXECUTE) family_world = Some (Some (Py_Bool bx))
    ∧ Permset_str 6 family_world = Some (Some (PyString (rwx br bw bx)), w')
    ∧ w_err w' = w_err family_world
    ∧ (entry_obj_p ENULL family_world = None → br = true ∧ bw = true ∧ bx = true).
Proof.
  apply (Permset_str_agrees_with_rights family_world 6 1 (Mk_Permset NULL ENULL));
    [discriminate | reflexivity].
Defined.

(** The Permset at 5 of [family_world] cleared. *)
Lemma Permset_clear_clears_all_witness :
  ∃ w', Permset_clear 5 family_world = Some (Some Py_None, w')
        ∧ entry_obj_p (EREF 2 0) w' = Some (Mk_entry ACL_USER_OBJ ACL_UNDEFINED_ID 0)
        ∧ (∀ t, t ≠ EREF 2 0 → entry_obj_p t w' = entry_obj_p t family_world)
        ∧ (∀ right, is_right right →
           eval (Permset_get_right 5 right) w' = Some (Some Py_False))
        ∧ eval (Permset_str 5) w' = Some (Some (PyString "---"))
        ∧ w_heap w' = w_heap family_world.
Proof.
  apply (Permset_clear_clears_all family_world 5 1 (Mk_Permset 3 (EREF 2 0))
           (Mk_entry ACL_USER_OBJ ACL_UNDEFINED_ID 6));
    [discriminate | reflexivity | reflexivity].
Defined.

(** WRITE cleared through the Permset at 5 of [family_world]; READ reads
    as before. *)
Lemma rights_are_independent_witness :
  ∃ w' r', Permset_set_right 5 (Some (Py_Bool false)) ACL_WRITE family_world = Some (0, w')
           ∧ eval (Permset_get_right 5 ACL_READ) w'
             = eval (Permset_get_right 5 ACL_READ) family_world
           ∧ entry_obj_p (EREF 2 0) w' = Some r'
           ∧ etag r' = ACL_USER_OBJ ∧ eid r' = ACL_UNDEFINED_ID.
Proof.
  apply (rights_are_independent family_world 5 1 (Mk_Permset 3 (EREF 2 0))
           (Mk_entry ACL_USER_OBJ ACL_UNDEFINED_ID 6) ACL_WRITE ACL_READ false);
    [discriminate | reflexivity | reflexivity | right; left; reflexivity
    | left; reflexivity | discriminate].
Defined.

(** The Permset at 5 of [chain_world] destroyed. *)
Lemma last_Permset_releases_the_chain_witness :
  ∃ w', Permset_dealloc 5 chain_world = Some (tt, w')
        ∧ w_heap w' = delete 5 (delete 3 (delete 2 (w_heap chain_world)))
        ∧ w_acls w' = (if decide (2 = NULL) then w_acls chain_world
                       else delete 2 (w_acls chain_world))
        ∧ w_err w' = w_err chain_world.
Proof.
  apply (last_Permset_releases_the_chain chain_world 5 0 3 2 (Mk_Permset 3 (EREF 2 0))
           (Mk_Entry 2 (EREF 2 0)) (Mk_ACL 2 ACL_NEXT_ENTRY));
    [discriminate | discriminate | discriminate | reflexivity | reflexivity | reflexivity
    | reflexivity | reflexivity].
Defined.

(** The parent of the Entry at 3 of [family_world], and of the Entry at
    4, which has none. *)
Lemma Entry_get_parent_takes_a_reference_witness :
  Entry_get_parent 3 family_world
  = Some (Some (PyRef 2),
          set_heap (<[2 := Mk_obj (2 + 1) (Obj_ACL (Mk_ACL 2 ACL_NEXT_ENTRY))]>
                      (w_heap family_world)) family_world)
  ∧ Entry_get_parent 4 family_world = None.
Proof.
  destruct (Entry_get_parent_takes_a_reference family_world 3 2 (Mk_Entry 2 (EREF 2 0)))
    as [H1 _]; [discriminate | reflexivity |].
  destruct (Entry_get_parent_takes_a_reference family_world 4 1 (Mk_Entry NULL ENULL))
    as [_ H2]; [discriminate | reflexivity |].
  split; [apply (H1 2 (Obj_ACL (Mk_ACL 2 ACL_NEXT_ENTRY))); [discriminate | reflexivity]
         | apply H2; reflexivity].
Defined.

(** The first ACL of [family_world] applied to descriptor 1, asked as a
    default ACL. *)
Lemma applyto_descriptor_ignores_type_witness :
  ACL_applyto ref_tgt 1 [PyInt 1; PyInt ACL_TYPE_DEFAULT] family_world
  = ACL_applyto ref_tgt 1 [PyInt 1] family_world.
Proof.
  apply (applyto_descriptor_ignores_type ref_tgt family_world 1 (PyInt 1) ACL_TYPE_DEFAULT);
    [discriminate | unfold ACL_TYPE_DEFAULT; lia].
Defined.

(** The first ACL of [family_world] applied to the descriptor -1. *)
Lemma applyto_unusable_target_witness :
  ACL_applyto ref_tgt 1 [PyInt (-1)] family_world
  = Some (None,
          set_err (Some (Mk_exc PyExc_TypeError
                           (Msg "argument 1 must be string, int, or file-like object")))
            family_world).
Proof.
  apply (applyto_unusable_target ref_tgt family_world 1 2 (Mk_ACL 1 ACL_FIRST_ENTRY)
           (PyInt (-1)));
    [discriminate | reflexivity | discriminate | reflexivity].
Defined.

(** The first ACL of [family_world] applied to a path. *)
Lemma applyto_only_reads_witness :
  ∃ r w', ACL_applyto ref_tgt 1 [PyString "file.txt"] family_world = Some (r, w')
          ∧ w_heap w' = w_heap family_world
          ∧ w_acls w' = w_acls family_world
          ∧ (r = Some Py_None ∧ w' = family_world ∧ is_Some (w_acls family_world !! 1)
             ∨ r = None ∧ is_Some (w_err w')).
Proof.
  apply (applyto_only_reads ref_tgt family_world 1 2 (Mk_ACL 1 ACL_FIRST_ENTRY)
           [PyString "file.txt"]);
    [discriminate | reflexivity].
Defined.
